(** * optigatrust: key objects and signature encoding

    A shallow embedding of [optigatrust/asymmetric.py] and
    [optigatrust/crypto.py].  Python integers are [Z], [bytes] objects and
    ctypes [c_ubyte] arrays are lists of [Z] in [0, 256), [str] objects are
    lists of code points with their UTF-8 encoding, exceptions are an
    explicit result type, and the mutable key object together with the record
    of calls made on the secure element is threaded through a small
    state-and-exception monad.  Console output ([print]) is left out. *)

From Stdlib Require Import ZArith String List Bool Lia.
Import ListNotations.

Open Scope Z_scope.

(** ** Python values *)

Definition bytes := list Z.

(** A [str] object: the sequence of its code points, each in
    [0, 0x10FFFF]. *)
Definition str := list Z.

(** The dynamically typed [data] argument of the signing methods. *)
Inductive pyobj :=
| PyBytes (b : bytes)
| PyByteArray (b : bytes)
| PyStr (s : str)
| PyOther.

(** The text of an exception, kept as the format string that produced it
    together with its arguments. *)
Inductive message :=
| msg_curve_not_supported (curve_str : string)
    (* 'Your curve ({0}) not supported use one of these: {1}' *)
| msg_key_id_ecc (key_id : Z)
    (* 'Your key_id {0} can't be sued to generate an ECC Key' *)
| msg_key_id_rsa (key_id : Z)
    (* 'key_id isn't supported should be either 0xe0fc, or 0xe0fd, ...' *)
| msg_wrong_key_usage (entry : string)
    (* 'Wrong Key Usage value {0}, supported are {1}' *)
| msg_object_id_not_found (c : Z)
    (* 'object_id not found. ... Provided = {1}' *)
| msg_key_size (key_size : Z)
    (* 'This key size is not supported, you typed {0} ...' *)
| msg_hash_algorithm (hash_algorithm : string)
    (* 'This key isze is not supported, you typed {0} supported are
       ['sha256', 'sha384']' *)
| msg_data_type
    (* 'Data to sign should be either bytes or str type, you gave {0}' *)
| msg_cant_be_executed (ret : Z)
    (* 'Function can't be executed. Error {0}'.format(hex(ret)) *)
| msg_array_length (n : Z).
    (* ctypes: 'Array length must be >= 0, not {0}' *)

(** [UnicodeEncodeError] carries the position of the first code point the
    codec refused. *)
Inductive exception :=
| ValueError (m : message)
| TypeError (m : message)
| KeyError (key : string)
| IOError (m : message)
| UnicodeEncodeError (start : Z).

Inductive result (A : Type) :=
| Ok (a : A)
| Raise (e : exception).
Arguments Ok {A} a.
Arguments Raise {A} e.

(** The error taxonomy of the specification, and the kind each raised
    exception belongs to. *)
Inductive error_kind :=
| InvalidSlot
| UnsupportedCurve
| UnsupportedKeySize
| UnsupportedHashAlgorithm
| UnsupportedUsageFlag
| InvalidInputType
| HardwareFault (code : Z)
| Unclassified.

Definition kind_of (e : exception) : error_kind :=
  match e with
  | ValueError (msg_key_id_ecc _) => InvalidSlot
  | ValueError (msg_key_id_rsa _) => InvalidSlot
  | ValueError (msg_curve_not_supported _) => UnsupportedCurve
  | TypeError (msg_object_id_not_found _) => UnsupportedCurve
  | ValueError (msg_key_size _) => UnsupportedKeySize
  | ValueError (msg_hash_algorithm _) => UnsupportedHashAlgorithm
  | ValueError (msg_wrong_key_usage _) => UnsupportedUsageFlag
  | TypeError msg_data_type => InvalidInputType
  | IOError (msg_cant_be_executed ret) => HardwareFault ret
  | _ => Unclassified
  end.

(** ** Text *)

(** UTF-8 of one code point.  The surrogates U+D800 to U+DFFF have none. *)
Definition utf8 (cp : Z) : option bytes :=
  let tail (x : Z) := Z.lor 0x80 (Z.land x 0x3F) in
  if cp <? 0x80 then Some [cp]
  else if cp <? 0x800
  then Some [Z.lor 0xC0 (Z.shiftr cp 6); tail cp]
  else if cp <? 0x10000
  then
    if (0xD800 <=? cp) && (cp <=? 0xDFFF) then None
    else Some [Z.lor 0xE0 (Z.shiftr cp 12); tail (Z.shiftr cp 6); tail cp]
  else Some [Z.lor 0xF0 (Z.shiftr cp 18); tail (Z.shiftr cp 12);
             tail (Z.shiftr cp 6); tail cp].

(** The code points of [s] from position [start] on, encoded in turn. *)
Fixpoint encode_from (start : Z) (s : str) : result bytes :=
  match s with
  | [] => Ok []
  | cp :: rest =>
      match utf8 cp with
      | None => Raise (UnicodeEncodeError start)
      | Some b =>
          match encode_from (start + 1) rest with
          | Ok bs => Ok (b ++ bs)
          | Raise e => Raise e
          end
      end
  end.

(** [str.encode()], with the default codec (UTF-8) and the default error
    handling (strict): a string that holds a surrogate is refused. *)
Definition encode (s : str) : result bytes := encode_from 0 s.

(** ** ctypes scalars and arrays *)

Definition c_ubyte (x : Z) : Z := x mod 2 ^ 8.
Definition c_ushort (x : Z) : Z := x mod 2 ^ 16.
Definition c_uint (x : Z) : Z := x mod 2 ^ 32.

(** [(c_ubyte * n)()]: a zero-initialised array of [n] bytes. *)
Definition c_ubyte_zeros (n : Z) : bytes := repeat 0 (Z.to_nat n).

(** [(c_ubyte * n)( *init )]: the initialisers followed by zeros.  ctypes
    refuses more than [n] initialisers; the digests passed here have exactly
    [n] bytes (see [Hashlib]), the model keeps the first [n]. *)
Definition c_ubyte_array (n : Z) (init : bytes) : bytes :=
  firstn (Z.to_nat n) (init ++ c_ubyte_zeros (n - Z.of_nat (length init))).

(** A buffer of [n] zero bytes after the callee has stored [written] at its
    start.  The callee is given the capacity and stays inside the buffer. *)
Definition buffer_after (n : Z) (written : bytes) : bytes :=
  c_ubyte_array n written.

(** [dst[i] = v] on a ctypes array. *)
Fixpoint setitem (dst : bytes) (i : nat) (v : Z) : bytes :=
  match dst, i with
  | [], _ => []
  | _ :: tl, O => v :: tl
  | hd :: tl, S i' => hd :: setitem tl i' v
  end.

(** [memmove(addressof(dst) + off, src, n)]: [n] bytes read from the start
    of [src] replace the bytes of [dst] from offset [off] on. *)
Definition memmove (dst : bytes) (off : nat) (src : bytes) (n : Z) : bytes :=
  let moved := firstn (Z.to_nat n) src in
  firstn off dst ++ moved ++ skipn (off + length moved) dst.

(** ** Enumerations of the chip description *)

Inductive KeyUsage := KEY_AGR | AUTH | ENCRYPT | SIGN.

Inductive Curves :=
| SEC_P256R1 | SEC_P384R1 | SEC_P521R1
| BRAINPOOL_P256R1 | BRAINPOOL_P384R1 | BRAINPOOL_P512R1.

(** ** The transport *)

(** The fourth argument of the key-pair generation entry point: a reference
    to the slot id, or a buffer that receives the exported private key. *)
Inductive key_arg :=
| byref_key_id (c_keyid : Z)
| key_buffer (capacity : Z).

(** One call on the native library, with the values the callee can read. *)
Inductive api_call :=
| exp_optiga_crypt_random (rng : Z) (len : Z)
| exp_optiga_crypt_ecc_generate_keypair
    (c : Z) (c_keyusage : Z) (export : Z) (key : key_arg) (c_plen : Z)
| exp_optiga_crypt_ecdsa_sign
    (digest : bytes) (digest_len : Z) (key_id : Z) (c_slen : Z)
| exp_optiga_crypt_rsa_sign
    (sign_scheme : Z) (digest : bytes) (digest_len : Z) (key_id : Z)
    (c_slen : Z) (salt : Z).

(** What a call leaves behind: the returned status, the bytes stored in the
    output buffer, the value left in the length cell passed by reference,
    and the bytes stored in the private-key buffer. *)
Record api_result := {
  status : Z;
  out : bytes;
  out_len : Z;
  key_out : bytes
}.

(** The chip handle.  The enumeration values, the session slot ids and the
    native library live outside the two modelled files and are parameters
    here.  The secure element answers a call as a function of the calls made
    before it. *)
Record Chip := {
  ECC_KEY_E0F0 : Z;
  ECC_KEY_E0F1 : Z;
  ECC_KEY_E0F2 : Z;
  ECC_KEY_E0F3 : Z;
  session_id_values : list Z;
  curves_values : list Z;
  key_usage_value : KeyUsage -> Z;
  Curves_value : Curves -> Z;
  rng_TRNG : Z;
  rng_DRNG : Z;
  api : list api_call -> api_call -> api_result
}.

(** [hashlib]: the three digests used, with their digest sizes. *)
Record Hashlib := {
  sha256 : bytes -> bytes;
  sha384 : bytes -> bytes;
  sha512 : bytes -> bytes;
  sha256_digest_size : forall d, length (sha256 d) = 32%nat;
  sha384_digest_size : forall d, length (sha384 d) = 48%nat;
  sha512_digest_size : forall d, length (sha512 d) = 64%nat
}.

(** What the process has done so far: the calls made on the secure element
    and the warnings issued. *)
Record World := {
  calls : list api_call;
  warnings : list string
}.

(** ** The monad: a state that survives a raised exception *)

Definition M (St A : Type) : Type := St -> result A * St.

Definition ret {St A} (a : A) : M St A := fun s => (Ok a, s).

Definition raise {St A} (e : exception) : M St A := fun s => (Raise e, s).

Definition bind {St A B} (m : M St A) (k : A -> M St B) : M St B :=
  fun s =>
    match m s with
    | (Ok a, s') => k a s'
    | (Raise e, s') => (Raise e, s')
    end.

Declare Scope py_scope.
Delimit Scope py_scope with py.
Notation "x <- m ;; k" := (bind m (fun x => k))
  (at level 100, m at next level, right associativity) : py_scope.
Notation "m ;; k" := (bind m (fun _ => k))
  (at level 100, right associativity) : py_scope.

Definition lift {St A} (r : result A) : M St A := fun s => (r, s).

(** Methods run on the pair of the object and the world. *)
Definition get_self {Self} : M (Self * World) Self :=
  fun s => (Ok (fst s), s).

Definition set_self {Self} (self : Self) : M (Self * World) unit :=
  fun s => (Ok tt, (self, snd s)).

Definition warn {Self} (text : string) : M (Self * World) unit :=
  fun s => (Ok tt, (fst s, {| calls := calls (snd s);
                               warnings := warnings (snd s) ++ [text] |})).

Definition invoke {Self} (ot : Chip) (c : api_call)
  : M (Self * World) api_result :=
  fun s => (Ok (api ot (calls (snd s)) c),
            (fst s, {| calls := calls (snd s) ++ [c];
                       warnings := warnings (snd s) |})).

(** ** Helpers shared by the two files *)

Definition sum (l : list Z) : Z := fold_left Z.add l 0.

Definition mem (x : Z) (l : list Z) : bool := existsb (Z.eqb x) l.
Arguments mem : simpl never.

Definition data_warning : string :=
  "data will be converted to bytes type before signing".

(** The type test that opens both signing methods.  Textual data is encoded
    first and the warning issued after. *)
Definition to_bytes {Self} (data : pyobj) : M (Self * World) bytes :=
  match data with
  | PyBytes b => ret b
  | PyByteArray b => ret b
  | PyStr s => (_d <- lift (encode s) ;; warn data_warning ;; ret _d)%py
  | PyOther => raise (TypeError msg_data_type)
  end.

(** The loop that translates the requested usage names:
    [for entry in key_usage: ... _key_usage.append(_allowed[entry])]. *)
Fixpoint collect_key_usage (allowed : string -> option KeyUsage)
    (key_usage : list string) (_key_usage : list KeyUsage)
  : result (list KeyUsage) :=
  match key_usage with
  | [] => Ok _key_usage
  | entry :: rest =>
      match allowed entry with
      | None => Raise (ValueError (msg_wrong_key_usage entry))
      | Some ku => collect_key_usage allowed rest (_key_usage ++ [ku])
      end
  end.

(** Modelled from the spec: [Object.__init__] of the base class of the key
    objects, which lives outside the two files.  It binds the object id (and
    the chip handle, here the [ot] of each section) and sets nothing else. *)
Definition Object__init__ (object_id : Z) : Z := object_id.

(** The table [_map] of [_str2curve], the same in both files. *)
Definition _str2curve_map (curve_str : string) : option Curves :=
  if String.eqb curve_str "secp256r1" then Some SEC_P256R1
  else if String.eqb curve_str "secp384r1" then Some SEC_P384R1
  else if String.eqb curve_str "secp521r1" then Some SEC_P521R1
  else if String.eqb curve_str "brainpoolp256r1" then Some BRAINPOOL_P256R1
  else if String.eqb curve_str "brainpoolp384r1" then Some BRAINPOOL_P384R1
  else if String.eqb curve_str "brainpoolp512r1" then Some BRAINPOOL_P512R1
  else None.

(** One row of the table [_map] of [ecdsa_sign]:
    [[hashlib.shaN, digest size, 'shaN']]. *)
Record sign_param := {
  param_hash : bytes -> bytes;
  param_size : Z;
  param_name : string
}.

Definition ecdsa_sign_map (hashlib : Hashlib) (curve : string)
  : option sign_param :=
  let p256 := {| param_hash := sha256 hashlib; param_size := 32;
                 param_name := "sha256" |} in
  let p384 := {| param_hash := sha384 hashlib; param_size := 48;
                 param_name := "sha384" |} in
  let p512 := {| param_hash := sha512 hashlib; param_size := 64;
                 param_name := "sha512" |} in
  if String.eqb curve "secp256r1" then Some p256
  else if String.eqb curve "secp384r1" then Some p384
  else if String.eqb curve "secp521r1" then Some p512
  else if String.eqb curve "brainpoolp256r1" then Some p256
  else if String.eqb curve "brainpoolp384r1" then Some p384
  else if String.eqb curve "brainpoolp512r1" then Some p512
  else None.

(** The two DER prefixes of [generate] for RSA keys. *)
Definition rsa_header_1024 : bytes :=
  [0x30; 0x81; 0x9F; 0x30; 0x0D; 0x06; 0x09; 0x2A; 0x86; 0x48; 0x86; 0xF7;
   0x0D; 0x01; 0x01; 0x01; 0x05; 0x00].

Definition rsa_header_2048 : bytes :=
  [0x30; 0x82; 0x01; 0x22; 0x30; 0x0d; 0x06; 0x09; 0x2a; 0x86; 0x48; 0x86;
   0xf7; 0x0d; 0x01; 0x01; 0x01; 0x05; 0x00].

(** [allowed_key_sizes = {1024, 2048}]. *)
Definition allowed_key_sizes : list Z := [1024; 2048].

(** * asymmetric.py *)

Module asymmetric.

Definition _str2curve (ot : Chip) (curve_str : string) (return_value : bool)
  : result (if return_value then Z else Curves) :=
  match _str2curve_map curve_str with
  | Some c =>
      if return_value as b return result (if b then Z else Curves)
      then Ok (Curves_value ot c)
      else Ok c
  | None => Raise (ValueError (msg_curve_not_supported curve_str))
  end.

Module _Signature.
Record t := {
  hash_alg : string;
  id : Z;
  signature : bytes;
  algorithm : string
}.
End _Signature.

Definition EcdsaSignature (hash_alg : string) (key_id : Z) (signature : bytes)
  : _Signature.t :=
  let signature_algorithm_id := (hash_alg ++ "_" ++ "ecdsa")%string in
  {| _Signature.hash_alg := hash_alg; _Signature.id := key_id;
     _Signature.signature := signature;
     _Signature.algorithm := signature_algorithm_id |}.

Definition RsaPkcs1v15Signature (hash_alg : string) (keyid : Z)
    (signature : bytes) : _Signature.t :=
  let signature_algorithm_id := (hash_alg ++ "_" ++ "rsa")%string in
  {| _Signature.hash_alg := hash_alg; _Signature.id := keyid;
     _Signature.signature := signature;
     _Signature.algorithm := signature_algorithm_id |}.

Module EccKey.

Record t := {
  id : Z;
  _curve : string;
  _pkey : option bytes;
  _key_id : Z;
  _key_usage : option (list KeyUsage);
  _hash_alg : option string;
  _signature : option bytes
}.

Section Methods.
Variable ot : Chip.
Variable hashlib : Hashlib.

Definition __init__ (key_id : Z) (curve : string) : result t :=
  if negb (mem key_id [ECC_KEY_E0F0 ot; ECC_KEY_E0F1 ot;
                       ECC_KEY_E0F2 ot; ECC_KEY_E0F3 ot])
     && negb (mem key_id (session_id_values ot))
  then Raise (ValueError (msg_key_id_ecc key_id))
  else Ok {| id := Object__init__ key_id; _curve := curve; _pkey := None;
             _key_id := key_id; _key_usage := None;
             _hash_alg := None; _signature := None |}.

Definition _allowed_key_usage (entry : string) : option KeyUsage :=
  if String.eqb entry "key_agreement" then Some KEY_AGR
  else if String.eqb entry "authentication" then Some AUTH
  else if String.eqb entry "signature" then Some SIGN
  else None.

Definition generate (curve : string) (key_usage : option (list string))
  : M (t * World) t :=
  (_key_usage <- lift (match key_usage with
                       | None => Ok [KEY_AGR; SIGN]
                       | Some l => collect_key_usage _allowed_key_usage l []
                       end) ;;
   c <- lift (_str2curve ot curve true) ;;
   if negb (mem c (curves_values ot))
   then raise (TypeError (msg_object_id_not_found c))
   else
     self <- get_self ;;
     let c_keyusage :=
       c_ubyte (sum (map (key_usage_value ot) _key_usage)) in
     let c_keyid := c_ushort (_key_id self) in
     let c_plen := c_ushort 150 in
     r <- invoke ot (exp_optiga_crypt_ecc_generate_keypair
                       c c_keyusage 0 (byref_key_id c_keyid) c_plen) ;;
     let ret_ := status r in
     let p := buffer_after 150 (out r) in
     let c_plen := c_ushort (out_len r) in
     let pubkey := memmove (c_ubyte_zeros c_plen) 0 p c_plen in
     if ret_ =? 0
     then
       let self' := {| id := id self; _curve := curve;
                       _pkey := Some pubkey; _key_id := _key_id self;
                       _key_usage := Some _key_usage;
                       _hash_alg := _hash_alg self;
                       _signature := _signature self |} in
       set_self self' ;; ret self'
     else raise (IOError (msg_cant_be_executed ret_)))%py.

Definition ecdsa_sign (data : pyobj) : M (t * World) _Signature.t :=
  (_d <- to_bytes data ;;
   self <- get_self ;;
   match ecdsa_sign_map hashlib (_curve self) with
   | None => raise (KeyError (_curve self))
   | Some param =>
       let digest :=
         c_ubyte_array (param_size param) (param_hash param _d) in
       let s_len := (param_size param * 2 + 2) + 6 in
       let hash_algorithm := param_name param in
       let c_slen := c_ubyte s_len in
       set_self {| id := id self; _curve := _curve self;
                   _pkey := _pkey self; _key_id := _key_id self;
                   _key_usage := _key_usage self;
                   _hash_alg := Some hash_algorithm;
                   _signature := _signature self |} ;;
       r <- invoke ot (exp_optiga_crypt_ecdsa_sign
                         digest (c_ubyte (Z.of_nat (length digest)))
                         (c_ushort (_key_id self)) c_slen) ;;
       let ret_ := status r in
       let s := buffer_after s_len (out r) in
       let c_slen := c_ubyte (out_len r) in
       if ret_ =? 0
       then
         let signature := c_ubyte_zeros (c_slen + 2) in
         let signature := setitem signature 0 0x30 in
         let signature := setitem signature 1 c_slen in
         let signature := memmove signature 2 s c_slen in
         ret (EcdsaSignature hash_algorithm (_key_id self) signature)
       else raise (IOError (msg_cant_be_executed ret_))
   end)%py.

End Methods.
End EccKey.

Module RsaKey.

Record t := {
  id : Z;
  _key_usage : option (list KeyUsage);
  _key_size : option Z;
  _pkey : option bytes
}.

Section Methods.
Variable ot : Chip.
Variable hashlib : Hashlib.

Definition __init__ (key_id : Z) : result t :=
  if negb (key_id =? 0xe0fc) && negb (key_id =? 0xe0fd)
  then Raise (ValueError (msg_key_id_rsa key_id))
  else Ok {| id := Object__init__ key_id; _key_usage := None;
             _key_size := None; _pkey := None |}.

Definition _allowed_key_usages (entry : string) : option KeyUsage :=
  if String.eqb entry "key_agreement" then Some KEY_AGR
  else if String.eqb entry "authentication" then Some AUTH
  else if String.eqb entry "encryption" then Some ENCRYPT
  else if String.eqb entry "signature" then Some SIGN
  else None.

Definition generate (key_size : Z) (key_usage : option (list string))
  : M (t * World) t :=
  (_key_usage <- lift (match key_usage with
                       | None => Ok [KEY_AGR; SIGN]
                       | Some l =>
                           collect_key_usage _allowed_key_usages l []
                       end) ;;
   if negb (mem key_size allowed_key_sizes)
   then raise (ValueError (msg_key_size key_size))
   else
     let '(c_keytype, rsa_header) :=
       if key_size =? 1024 then (0x41, rsa_header_1024)
       else (0x42, rsa_header_2048) in
     self <- get_self ;;
     let c_keyusage :=
       c_ubyte (sum (map (key_usage_value ot) _key_usage)) in
     let c_keyid := c_ushort (id self) in
     let c_plen := c_ushort 320 in
     r <- invoke ot (exp_optiga_crypt_ecc_generate_keypair
                       c_keytype c_keyusage 0 (byref_key_id c_keyid)
                       c_plen) ;;
     let ret_ := status r in
     let p := buffer_after 320 (out r) in
     let c_plen := c_ushort (out_len r) in
     let pubkey := memmove (c_ubyte_zeros c_plen) 0 p c_plen in
     if ret_ =? 0
     then
       let self' := {| id := id self; _key_usage := Some _key_usage;
                       _key_size := Some key_size;
                       _pkey := Some (rsa_header ++ pubkey) |} in
       set_self self' ;; ret self'
     else raise (IOError (msg_cant_be_executed ret_)))%py.

Definition pkcs1v15_sign (data : pyobj) (hash_algorithm : string)
  : M (t * World) _Signature.t :=
  (_d <- to_bytes data ;;
   sel <- (if String.eqb hash_algorithm "sha256"
           then ret (c_ubyte_array 32 (sha256 hashlib _d), 320, 0x01)
           else if String.eqb hash_algorithm "sha384"
           then ret (c_ubyte_array 48 (sha384 hashlib _d), 320, 0x02)
           else raise (ValueError (msg_hash_algorithm hash_algorithm))) ;;
   let '(digest, s_len, sign_scheme) := sel in
   let c_slen := c_uint s_len in
   self <- get_self ;;
   r <- invoke ot (exp_optiga_crypt_rsa_sign
                     sign_scheme digest (Z.of_nat (length digest))
                     (id self) c_slen 0) ;;
   let ret_ := status r in
   let s := buffer_after s_len (out r) in
   let c_slen := c_uint (out_len r) in
   if ret_ =? 0
   then
     let signature := c_ubyte_zeros c_slen in
     let signature := memmove signature 0 s c_slen in
     ret (RsaPkcs1v15Signature hash_algorithm (id self) signature)
   else raise (IOError (msg_cant_be_executed ret_)))%py.

End Methods.
End RsaKey.

End asymmetric.

(** * crypto.py *)

Module crypto.

Definition _str2curve (ot : Chip) (curve_str : string) (return_value : bool)
  : result (if return_value then Z else Curves) :=
  match _str2curve_map curve_str with
  | Some c =>
      if return_value as b return result (if b then Z else Curves)
      then Ok (Curves_value ot c)
      else Ok c
  | None => Raise (ValueError (msg_curve_not_supported curve_str))
  end.


Module _Signature.
Record t := {
  hash_alg : string;
  id : Z;
  signature : bytes;
  algorithm : string
}.
End _Signature.

Definition ECDSASignature (hash_alg : string) (key_id : Z) (signature : bytes)
  : _Signature.t :=
  let signature_algorithm_id := (hash_alg ++ "_" ++ "ecdsa")%string in
  {| _Signature.hash_alg := hash_alg; _Signature.id := key_id;
     _Signature.signature := signature;
     _Signature.algorithm := signature_algorithm_id |}.

Definition PKCS1v15Signature (hash_alg : string) (keyid : Z)
    (signature : bytes) : _Signature.t :=
  let signature_algorithm_id := (hash_alg ++ "_" ++ "rsa")%string in
  {| _Signature.hash_alg := hash_alg; _Signature.id := keyid;
     _Signature.signature := signature;
     _Signature.algorithm := signature_algorithm_id |}.

Module ECCKey.

(** The fields of [_Key], of [Object] and of [ECCKey] itself. *)
Record t := {
  id : Z;
  _key_usage : option (list KeyUsage);
  _pkey : option bytes;
  _signature : option bytes;
  _key : option bytes;
  _curve : string;
  _hash_alg : option string
}.

Section Methods.
Variable ot : Chip.
Variable hashlib : Hashlib.

Definition __init__ (key_id : Z) (curve : string) : result t :=
  if negb (mem key_id [ECC_KEY_E0F0 ot; ECC_KEY_E0F1 ot;
                       ECC_KEY_E0F2 ot; ECC_KEY_E0F3 ot])
     && negb (mem key_id (session_id_values ot))
  then Raise (ValueError (msg_key_id_ecc key_id))
  else Ok {| id := Object__init__ key_id; _key_usage := None;
             _pkey := None; _signature := None; _key := None;
             _curve := curve; _hash_alg := None |}.

Definition _allowed_key_usage (entry : string) : option KeyUsage :=
  if String.eqb entry "key_agreement" then Some KEY_AGR
  else if String.eqb entry "authentication" then Some AUTH
  else if String.eqb entry "signature" then Some SIGN
  else None.

Definition generate (curve : string) (key_usage : option (list string))
    (export : bool) : M (t * World) t :=
  (_key_usage <- lift (match key_usage with
                       | None => Ok [KEY_AGR; SIGN]
                       | Some l => collect_key_usage _allowed_key_usage l []
                       end) ;;
   c <- lift (_str2curve ot curve true) ;;
   if negb (mem c (curves_values ot))
   then raise (TypeError (msg_object_id_not_found c))
   else
     self <- get_self ;;
     let c_keyusage :=
       c_ubyte (sum (map (key_usage_value ot) _key_usage)) in
     let c_plen := c_ushort 150 in
     let key := if export then key_buffer (100 + 4)
                else byref_key_id (c_ushort (id self)) in
     r <- invoke ot (exp_optiga_crypt_ecc_generate_keypair
                       c c_keyusage (Z.b2z export) key c_plen) ;;
     let ret_ := status r in
     let pkey := buffer_after 150 (out r) in
     let c_plen := c_ushort (out_len r) in
     let priv_key :=
       memmove (c_ubyte_zeros (100 + 4)) 0
               (buffer_after (100 + 4) (key_out r)) (100 + 4) in
     let pub_key := memmove (c_ubyte_zeros c_plen) 0 pkey c_plen in
     if ret_ =? 0
     then
       let self' := {| id := id self;
                       _key_usage := Some _key_usage;
                       _pkey := Some pub_key;
                       _signature := _signature self;
                       _key := if export then Some priv_key
                               else _key self;
                       _curve := curve;
                       _hash_alg := _hash_alg self |} in
       set_self self' ;; ret self'
     else raise (IOError (msg_cant_be_executed ret_)))%py.

Definition ecdsa_sign (data : pyobj) : M (t * World) _Signature.t :=
  (_d <- to_bytes data ;;
   self <- get_self ;;
   match ecdsa_sign_map hashlib (_curve self) with
   | None => raise (KeyError (_curve self))
   | Some param =>
       let digest :=
         c_ubyte_array (param_size param) (param_hash param _d) in
       let s_len := (param_size param * 2 + 2) + 6 in
       let hash_algorithm := param_name param in
       let c_slen := c_ubyte s_len in
       set_self {| id := id self; _key_usage := _key_usage self;
                   _pkey := _pkey self; _signature := _signature self;
                   _key := _key self; _curve := _curve self;
                   _hash_alg := Some hash_algorithm |} ;;
       r <- invoke ot (exp_optiga_crypt_ecdsa_sign
                         digest (c_ubyte (Z.of_nat (length digest)))
                         (c_ushort (id self)) c_slen) ;;
       let ret_ := status r in
       let s := buffer_after s_len (out r) in
       let c_slen := c_ubyte (out_len r) in
       if ret_ =? 0
       then
         let signature := c_ubyte_zeros (c_slen + 2) in
         let signature := setitem signature 0 0x30 in
         let signature := setitem signature 1 c_slen in
         let signature := memmove signature 2 s c_slen in
         ret (ECDSASignature hash_algorithm (id self) signature)
       else raise (IOError (msg_cant_be_executed ret_))
   end)%py.

End Methods.
End ECCKey.

Module RSAKey.

Record t := {
  id : Z;
  _key_usage : option (list KeyUsage);
  _pkey : option bytes;
  _signature : option bytes;
  _key : option bytes;
  _key_size : option Z
}.

Section Methods.
Variable ot : Chip.
Variable hashlib : Hashlib.

Definition __init__ (key_id : Z) : result t :=
  if negb (key_id =? 0xe0fc) && negb (key_id =? 0xe0fd)
  then Raise (ValueError (msg_key_id_rsa key_id))
  else Ok {| id := Object__init__ key_id; _key_usage := None;
             _pkey := None; _signature := None; _key := None;
             _key_size := None |}.

Definition _allowed_key_usages (entry : string) : option KeyUsage :=
  if String.eqb entry "key_agreement" then Some KEY_AGR
  else if String.eqb entry "authentication" then Some AUTH
  else if String.eqb entry "encryption" then Some ENCRYPT
  else if String.eqb entry "signature" then Some SIGN
  else None.

Definition generate (key_size : Z) (key_usage : option (list string))
    (export : bool) : M (t * World) t :=
  (_key_usage <- lift (match key_usage with
                       | None => Ok [KEY_AGR; SIGN]
                       | Some l =>
                           collect_key_usage _allowed_key_usages l []
                       end) ;;
   if negb (mem key_size allowed_key_sizes)
   then raise (ValueError (msg_key_size key_size))
   else
     let '(c_keytype, rsa_header) :=
       if key_size =? 1024 then (0x41, rsa_header_1024)
       else (0x42, rsa_header_2048) in
     self <- get_self ;;
     let c_keyusage :=
       c_ubyte (sum (map (key_usage_value ot) _key_usage)) in
     let key := if export then key_buffer (100 + 4)
                else byref_key_id (c_ushort (id self)) in
     let c_plen := c_ushort 320 in
     r <- invoke ot (exp_optiga_crypt_ecc_generate_keypair
                       c_keytype c_keyusage (Z.b2z export) key c_plen) ;;
     let ret_ := status r in
     let pkey := buffer_after 320 (out r) in
     let c_plen := c_ushort (out_len r) in
     let priv_key :=
       memmove (c_ubyte_zeros (100 + 4)) 0
               (buffer_after (100 + 4) (key_out r)) (100 + 4) in
     let pub_key := memmove (c_ubyte_zeros c_plen) 0 pkey c_plen in
     if ret_ =? 0
     then
       let self' := {| id := id self;
                       _key_usage := Some _key_usage;
                       _pkey := Some (rsa_header ++ pub_key);
                       _signature := _signature self;
                       _key := if export then Some priv_key
                               else _key self;
                       _key_size := Some key_size |} in
       set_self self' ;; ret self'
     else raise (IOError (msg_cant_be_executed ret_)))%py.

Definition pkcs1v15_sign (data : pyobj) (hash_algorithm : string)
  : M (t * World) _Signature.t :=
  (_d <- to_bytes data ;;
   sel <- (if String.eqb hash_algorithm "sha256"
           then ret (c_ubyte_array 32 (sha256 hashlib _d), 320, 0x01)
           else if String.eqb hash_algorithm "sha384"
           then ret (c_ubyte_array 48 (sha384 hashlib _d), 320, 0x02)
           else raise (ValueError (msg_hash_algorithm hash_algorithm))) ;;
   let '(digest, s_len, sign_scheme) := sel in
   let c_slen := c_uint s_len in
   self <- get_self ;;
   r <- invoke ot (exp_optiga_crypt_rsa_sign
                     sign_scheme digest (Z.of_nat (length digest))
                     (id self) c_slen 0) ;;
   let ret_ := status r in
   let s := buffer_after s_len (out r) in
   let c_slen := c_uint (out_len r) in
   if ret_ =? 0
   then
     let signature := c_ubyte_zeros c_slen in
     let signature := memmove signature 0 s c_slen in
     ret (PKCS1v15Signature hash_algorithm (id self) signature)
   else raise (IOError (msg_cant_be_executed ret_)))%py.

End Methods.
End RSAKey.

End crypto.

(** * A chip description to run the model on

    The values an OPTIGA Trust M reports; the theorems below hold for every
    chip description, this one serves to evaluate them. *)

Definition example_key_usage_value (ku : KeyUsage) : Z :=
  match ku with
  | AUTH => 0x01
  | ENCRYPT => 0x02
  | SIGN => 0x10
  | KEY_AGR => 0x20
  end.

Definition example_Curves_value (c : Curves) : Z :=
  match c with
  | SEC_P256R1 => 0x03
  | SEC_P384R1 => 0x04
  | SEC_P521R1 => 0x05
  | BRAINPOOL_P256R1 => 0x13
  | BRAINPOOL_P384R1 => 0x15
  | BRAINPOOL_P512R1 => 0x16
  end.

Definition example_chip (native : list api_call -> api_call -> api_result)
  : Chip :=
  {| ECC_KEY_E0F0 := 0xE0F0; ECC_KEY_E0F1 := 0xE0F1;
     ECC_KEY_E0F2 := 0xE0F2; ECC_KEY_E0F3 := 0xE0F3;
     session_id_values := [0xE100; 0xE101; 0xE102; 0xE103];
     curves_values := [0x03; 0x04; 0x05; 0x13; 0x15; 0x16];
     key_usage_value := example_key_usage_value;
     Curves_value := example_Curves_value;
     rng_TRNG := 0x00; rng_DRNG := 0x01;
     api := native |}.

(** A secure element that answers every call the same way. *)
Definition answers (r : api_result) : list api_call -> api_call -> api_result :=
  fun _ _ => r.

Definition example_answer (st : Z) (written : bytes) : api_result :=
  {| status := st; out := written; out_len := Z.of_nat (length written);
     key_out := [] |}.

(** Digests of the right sizes, enough to run the signing methods. *)
Definition example_hashlib : Hashlib :=
  {| sha256 := fun _ => repeat 0 32;
     sha384 := fun _ => repeat 0 48;
     sha512 := fun _ => repeat 0 64;
     sha256_digest_size := fun _ => eq_refl;
     sha384_digest_size := fun _ => eq_refl;
     sha512_digest_size := fun _ => eq_refl |}.

Definition empty_world : World := {| calls := []; warnings := [] |}.

(** Freshly constructed key objects on the slots 0xE0F0 and 0xE0FC. *)
Definition example_asymmetric_ecc_key : asymmetric.EccKey.t :=
  {| asymmetric.EccKey.id := 0xE0F0;
     asymmetric.EccKey._curve := "secp256r1";
     asymmetric.EccKey._pkey := None;
     asymmetric.EccKey._key_id := 0xE0F0;
     asymmetric.EccKey._key_usage := None;
     asymmetric.EccKey._hash_alg := None;
     asymmetric.EccKey._signature := None |}.

Definition example_crypto_ecc_key : crypto.ECCKey.t :=
  {| crypto.ECCKey.id := 0xE0F0;
     crypto.ECCKey._key_usage := None;
     crypto.ECCKey._pkey := None;
     crypto.ECCKey._signature := None;
     crypto.ECCKey._key := None;
     crypto.ECCKey._curve := "secp256r1";
     crypto.ECCKey._hash_alg := None |}.

Definition example_asymmetric_rsa_key : asymmetric.RsaKey.t :=
  {| asymmetric.RsaKey.id := 0xE0FC;
     asymmetric.RsaKey._key_usage := None;
     asymmetric.RsaKey._key_size := None;
     asymmetric.RsaKey._pkey := None |}.

Definition example_crypto_rsa_key : crypto.RSAKey.t :=
  {| crypto.RSAKey.id := 0xE0FC;
     crypto.RSAKey._key_usage := None;
     crypto.RSAKey._pkey := None;
     crypto.RSAKey._signature := None;
     crypto.RSAKey._key := None;
     crypto.RSAKey._key_size := None |}.

(** * Vocabulary of the statements *)

Definition ecc_slot (ot : Chip) (key_id : Z) : Prop :=
  In key_id [ECC_KEY_E0F0 ot; ECC_KEY_E0F1 ot; ECC_KEY_E0F2 ot;
             ECC_KEY_E0F3 ot]
  \/ In key_id (session_id_values ot).

Definition rsa_slot (key_id : Z) : Prop :=
  key_id = 0xe0fc \/ key_id = 0xe0fd.

(** The world after one more call on the secure element. *)
Definition after_call (w : World) (c : api_call) : World :=
  {| calls := calls w ++ [c]; warnings := warnings w |}.


(** What the type test of a signing method makes of [data]: the bytes to
    sign, or the exception it raises. *)
Definition as_bytes (data : pyobj) : result bytes :=
  match data with
  | PyBytes b => Ok b
  | PyByteArray b => Ok b
  | PyStr s => encode s
  | PyOther => Raise (TypeError msg_data_type)
  end.

(** The bytes a signing method signs, when [data] is binary, or text that
    UTF-8 can encode. *)
Definition payload (data : pyobj) : option bytes :=
  match as_bytes data with
  | Ok d => Some d
  | Raise _ => None
  end.

(** The exception of the type test, for [data] that has no payload. *)
Definition refusal (data : pyobj) : exception :=
  match as_bytes data with
  | Raise e => e
  | Ok _ => TypeError msg_data_type
  end.

(** [isinstance(data, (bytes, bytearray, str))]. *)
Definition binary_or_text (data : pyobj) : bool :=
  match data with
  | PyOther => false
  | _ => true
  end.

(** The world after the type test of a signing method: textual data that
    was encoded leaves a warning behind. *)
Definition advised (data : pyobj) (w : World) : World :=
  match data with
  | PyStr s =>
      match encode s with
      | Ok _ => {| calls := calls w; warnings := warnings w ++ [data_warning] |}
      | Raise _ => w
      end
  | _ => w
  end.

(** The call [ecdsa_sign] makes for a row of its table. *)
Definition ecdsa_call (param : sign_param) (d : bytes) (key_id : Z)
  : api_call :=
  exp_optiga_crypt_ecdsa_sign (param_hash param d) (param_size param)
                              (c_ushort key_id)
                              ((param_size param * 2 + 2) + 6).

(** The capacity of the output buffer, as a call announces it. *)
Definition capacity (c : api_call) : Z :=
  match c with
  | exp_optiga_crypt_random _ len => len
  | exp_optiga_crypt_ecc_generate_keypair _ _ _ _ c_plen => c_plen
  | exp_optiga_crypt_ecdsa_sign _ _ _ c_slen => c_slen
  | exp_optiga_crypt_rsa_sign _ _ _ _ c_slen _ => c_slen
  end.

(** The key object once [ecdsa_sign] has recorded the digest name. *)
Definition asymmetric_hashed (k : asymmetric.EccKey.t) (name : string)
  : asymmetric.EccKey.t :=
  {| asymmetric.EccKey.id := asymmetric.EccKey.id k;
     asymmetric.EccKey._curve := asymmetric.EccKey._curve k;
     asymmetric.EccKey._pkey := asymmetric.EccKey._pkey k;
     asymmetric.EccKey._key_id := asymmetric.EccKey._key_id k;
     asymmetric.EccKey._key_usage := asymmetric.EccKey._key_usage k;
     asymmetric.EccKey._hash_alg := Some name;
     asymmetric.EccKey._signature := asymmetric.EccKey._signature k |}.

Definition crypto_hashed (k : crypto.ECCKey.t) (name : string)
  : crypto.ECCKey.t :=
  {| crypto.ECCKey.id := crypto.ECCKey.id k;
     crypto.ECCKey._key_usage := crypto.ECCKey._key_usage k;
     crypto.ECCKey._pkey := crypto.ECCKey._pkey k;
     crypto.ECCKey._signature := crypto.ECCKey._signature k;
     crypto.ECCKey._key := crypto.ECCKey._key k;
     crypto.ECCKey._curve := crypto.ECCKey._curve k;
     crypto.ECCKey._hash_alg := Some name |}.


(** The three rows of the table of [ecdsa_sign]. *)
Definition param_sha256 (hashlib : Hashlib) : sign_param :=
  {| param_hash := sha256 hashlib; param_size := 32; param_name := "sha256" |}.
Definition param_sha384 (hashlib : Hashlib) : sign_param :=
  {| param_hash := sha384 hashlib; param_size := 48; param_name := "sha384" |}.
Definition param_sha512 (hashlib : Hashlib) : sign_param :=
  {| param_hash := sha512 hashlib; param_size := 64; param_name := "sha512" |}.

(** The six curve names of the tables. *)
Definition supported_curves : list string :=
  ["secp256r1"; "secp384r1"; "secp521r1";
   "brainpoolp256r1"; "brainpoolp384r1"; "brainpoolp512r1"]%string.

(** The usage argument as the four [generate] methods read it. *)
Definition requested_usage (allowed : string -> option KeyUsage)
    (key_usage : option (list string)) : result (list KeyUsage) :=
  match key_usage with
  | None => Ok [KEY_AGR; SIGN]
  | Some l => collect_key_usage allowed l []
  end.

(** The members named by a list of allowed usage names. *)
Definition usage_flags (allowed : string -> option KeyUsage)
    (l : list string) : list KeyUsage :=
  flat_map (fun entry => match allowed entry with
                         | Some ku => [ku]
                         | None => []
                         end) l.

(** The usage byte handed to the secure element. *)
Definition usage_mask (ot : Chip) (flags : list KeyUsage) : Z :=
  c_ubyte (sum (map (key_usage_value ot) flags)).

(** Reading a usage byte back: the members whose value meets the mask. *)
Definition decode_usage (ot : Chip) (mask : Z) : list KeyUsage :=
  filter (fun ku => negb (Z.land mask (key_usage_value ot ku) =? 0))
         [KEY_AGR; AUTH; ENCRYPT; SIGN].

(** The usage values are bit values: each is one bit of a byte, and no two
    members share a bit. *)
Definition bit_valued (ot : Chip) : Prop :=
  (forall ku, exists b, 0 <= b < 8 /\ key_usage_value ot ku = 2 ^ b)
  /\ (forall ku ku', key_usage_value ot ku = key_usage_value ot ku' ->
                     ku = ku').

(** The name of each usage member in the tables of [generate]. *)
Definition usage_name (ku : KeyUsage) : string :=
  match ku with
  | KEY_AGR => "key_agreement"
  | AUTH => "authentication"
  | ENCRYPT => "encryption"
  | SIGN => "signature"
  end.

(** The public key read from the buffer of [cap] bytes after a call. *)
Definition pub_key_of (cap : Z) (r : api_result) : bytes :=
  memmove (c_ubyte_zeros (c_ushort (out_len r))) 0
          (buffer_after cap (out r)) (c_ushort (out_len r)).

(** The private key read from the export buffer after a call. *)
Definition priv_key_of (r : api_result) : bytes :=
  memmove (c_ubyte_zeros (100 + 4)) 0
          (buffer_after (100 + 4) (key_out r)) (100 + 4).

(** The fourth argument of the key-pair call in [crypto.py]. *)
Definition key_argument (export : bool) (id : Z) : key_arg :=
  if export then key_buffer (100 + 4) else byref_key_id (c_ushort id).

(** The key-pair calls of the four [generate] methods. *)
Definition keypair_call (ot : Chip) (c : Z) (flags : list KeyUsage)
    (export : Z) (key : key_arg) (cap : Z) : api_call :=
  exp_optiga_crypt_ecc_generate_keypair c (usage_mask ot flags) export key cap.

(** The RSA type code and DER prefix of a key size. *)
Definition rsa_keytype (key_size : Z) : Z :=
  if key_size =? 1024 then 0x41 else 0x42.

Definition rsa_header (key_size : Z) : bytes :=
  if key_size =? 1024 then rsa_header_1024 else rsa_header_2048.

(** The key objects after a successful [generate]. *)
Definition asymmetric_ecc_generated (k : asymmetric.EccKey.t) (curve : string)
    (flags : list KeyUsage) (pub : bytes) : asymmetric.EccKey.t :=
  {| asymmetric.EccKey.id := asymmetric.EccKey.id k;
     asymmetric.EccKey._curve := curve;
     asymmetric.EccKey._pkey := Some pub;
     asymmetric.EccKey._key_id := asymmetric.EccKey._key_id k;
     asymmetric.EccKey._key_usage := Some flags;
     asymmetric.EccKey._hash_alg := asymmetric.EccKey._hash_alg k;
     asymmetric.EccKey._signature := asymmetric.EccKey._signature k |}.

Definition crypto_ecc_generated (k : crypto.ECCKey.t) (curve : string)
    (flags : list KeyUsage) (pub : bytes) (export : bool) (priv : bytes)
  : crypto.ECCKey.t :=
  {| crypto.ECCKey.id := crypto.ECCKey.id k;
     crypto.ECCKey._key_usage := Some flags;
     crypto.ECCKey._pkey := Some pub;
     crypto.ECCKey._signature := crypto.ECCKey._signature k;
     crypto.ECCKey._key := if export then Some priv else crypto.ECCKey._key k;
     crypto.ECCKey._curve := curve;
     crypto.ECCKey._hash_alg := crypto.ECCKey._hash_alg k |}.

Definition asymmetric_rsa_generated (k : asymmetric.RsaKey.t) (key_size : Z)
    (flags : list KeyUsage) (pkey : bytes) : asymmetric.RsaKey.t :=
  {| asymmetric.RsaKey.id := asymmetric.RsaKey.id k;
     asymmetric.RsaKey._key_usage := Some flags;
     asymmetric.RsaKey._key_size := Some key_size;
     asymmetric.RsaKey._pkey := Some pkey |}.

Definition crypto_rsa_generated (k : crypto.RSAKey.t) (key_size : Z)
    (flags : list KeyUsage) (pkey : bytes) (export : bool) (priv : bytes)
  : crypto.RSAKey.t :=
  {| crypto.RSAKey.id := crypto.RSAKey.id k;
     crypto.RSAKey._key_usage := Some flags;
     crypto.RSAKey._pkey := Some pkey;
     crypto.RSAKey._signature := crypto.RSAKey._signature k;
     crypto.RSAKey._key := if export then Some priv else crypto.RSAKey._key k;
     crypto.RSAKey._key_size := Some key_size |}.

(** How a [generate] that reached the secure element ends: with the new
    object on status zero, with the hardware fault and the old object
    otherwise. *)
Definition generate_outcome {Self} (old new : Self) (w : World)
    (c : api_call) (r : api_result) : result Self * (Self * World) :=
  if status r =? 0
  then (Ok new, (new, after_call w c))
  else (Raise (IOError (msg_cant_be_executed (status r))),
        (old, after_call w c)).

(** The usage names each key kind admits. *)
Definition ecc_usage_names : list string :=
  ["key_agreement"; "authentication"; "signature"]%string.

Definition rsa_usage_names : list string :=
  ["key_agreement"; "authentication"; "encryption"; "signature"]%string.

(** A usage argument that is absent or names a non-empty set of usages
    drawn from [names], each once. *)
Definition usage_request (names : list string)
    (key_usage : option (list string)) : Prop :=
  match key_usage with
  | None => True
  | Some l => l <> [] /\ NoDup l /\ forall entry, In entry l -> In entry names
  end.

(** The members a usage argument asks for: the default pair when it is
    absent, the members it names otherwise. *)
Definition requests (key_usage : option (list string))
    (flags : list KeyUsage) : Prop :=
  match key_usage with
  | None => flags = [KEY_AGR; SIGN]
  | Some l => forall ku, In ku flags <-> In (usage_name ku) l
  end.

(** A usage argument that passes the usage check of the RSA methods: it is
    absent, or every name in it is one of the four. *)
Definition rsa_usage_admitted (key_usage : option (list string)) : Prop :=
  match key_usage with
  | None => True
  | Some l => forall entry, In entry l -> In entry rsa_usage_names
  end.

(** The first name of a usage list that is not among [names]: the entry at
    which the loop over the usage argument stops. *)
Definition first_foreign (names l : list string) : option string :=
  find (fun entry => negb (existsb (String.eqb entry) names)) l.

(** The digest and the scheme code [pkcs1v15_sign] uses for a hash name it
    accepts. *)
Definition rsa_sign_call (hashlib : Hashlib) (hash_algorithm : string)
    (d : bytes) (key_id : Z) : api_call :=
  if String.eqb hash_algorithm "sha256"
  then exp_optiga_crypt_rsa_sign 0x01 (sha256 hashlib d) 32 key_id 320 0
  else exp_optiga_crypt_rsa_sign 0x02 (sha384 hashlib d) 48 key_id 320 0.

(** The signature read from the buffer of 320 bytes after a call. *)
Definition rsa_signature_of (r : api_result) : bytes :=
  memmove (c_ubyte_zeros (c_uint (out_len r))) 0
          (buffer_after 320 (out r)) (c_uint (out_len r)).

(** The signature array [ecdsa_sign] builds from the buffer of [cap] bytes
    after a call. *)
Definition ecdsa_signature_of (cap : Z) (r : api_result) : bytes :=
  let L := c_ubyte (out_len r) in
  memmove (setitem (setitem (c_ubyte_zeros (L + 2)) 0 0x30) 1 L) 2
          (buffer_after cap (out r)) L.

(** The digest names of the table of [ecdsa_sign]. *)
Definition digest_names : list string := ["sha256"; "sha384"; "sha512"]%string.

(** Key objects on other curves and in other states, to run the model on. *)
Definition example_crypto_ecc_key_p512 : crypto.ECCKey.t :=
  {| crypto.ECCKey.id := 0xE0F1;
     crypto.ECCKey._key_usage := None;
     crypto.ECCKey._pkey := None;
     crypto.ECCKey._signature := None;
     crypto.ECCKey._key := None;
     crypto.ECCKey._curve := "brainpoolp512r1";
     crypto.ECCKey._hash_alg := None |}.



Definition example_crypto_ecc_key_agreement_only : crypto.ECCKey.t :=
  {| crypto.ECCKey.id := 0xE0F0;
     crypto.ECCKey._key_usage := Some [KEY_AGR];
     crypto.ECCKey._pkey := Some [0x03; 0x42; 0x00; 0x04];
     crypto.ECCKey._signature := None;
     crypto.ECCKey._key := None;
     crypto.ECCKey._curve := "secp256r1";
     crypto.ECCKey._hash_alg := None |}.

Definition example_asymmetric_ecc_key_agreement_only : asymmetric.EccKey.t :=
  {| asymmetric.EccKey.id := 0xE0F0;
     asymmetric.EccKey._curve := "secp256r1";
     asymmetric.EccKey._pkey := Some [0x03; 0x42; 0x00; 0x04];
     asymmetric.EccKey._key_id := 0xE0F0;
     asymmetric.EccKey._key_usage := Some [KEY_AGR];
     asymmetric.EccKey._hash_alg := None;
     asymmetric.EccKey._signature := None |}.

(** A secure element that answers its calls from a list, in turn. *)
Definition answers_in_turn (rs : list api_result)
  : list api_call -> api_call -> api_result :=
  fun history _ => nth (length history) rs (example_answer 0 []).

(** An answer that also fills the private-key buffer. *)
Definition example_export_answer (pub priv : bytes) : api_result :=
  {| status := 0; out := pub; out_len := Z.of_nat (length pub);
     key_out := priv |}.

(** A usage argument that passes the usage check of the ECC methods. *)
Definition ecc_usage_admitted (key_usage : option (list string)) : Prop :=
  match key_usage with
  | None => True
  | Some l => forall entry, In entry l -> In entry ecc_usage_names
  end.

(** A chip description that lists only the NIST curves. *)
Definition example_nist_chip
    (native : list api_call -> api_call -> api_result) : Chip :=
  {| ECC_KEY_E0F0 := 0xE0F0; ECC_KEY_E0F1 := 0xE0F1;
     ECC_KEY_E0F2 := 0xE0F2; ECC_KEY_E0F3 := 0xE0F3;
     session_id_values := [0xE100; 0xE101; 0xE102; 0xE103];
     curves_values := [0x03; 0x04];
     key_usage_value := example_key_usage_value;
     Curves_value := example_Curves_value;
     rng_TRNG := 0x00; rng_DRNG := 0x01;
     api := native |}.

(** Method calls on one key object, one after the other, whatever each
    returns or raises: the caller goes on with the same object. *)
Inductive ecc_op :=
| EccGenerate (curve : string) (key_usage : option (list string))
              (export : bool)
| EccSign (data : pyobj).

Inductive rsa_op :=
| RsaGenerate (key_size : Z) (key_usage : option (list string))
              (export : bool)
| RsaSign (data : pyobj) (hash_algorithm : string).

Definition asymmetric_ecc_step (ot : Chip) (hashlib : Hashlib)
    (st : asymmetric.EccKey.t * World) (op : ecc_op)
  : asymmetric.EccKey.t * World :=
  match op with
  | EccGenerate curve key_usage _ =>
      snd (asymmetric.EccKey.generate ot curve key_usage st)
  | EccSign data => snd (asymmetric.EccKey.ecdsa_sign ot hashlib data st)
  end.

Definition crypto_ecc_step (ot : Chip) (hashlib : Hashlib)
    (st : crypto.ECCKey.t * World) (op : ecc_op) : crypto.ECCKey.t * World :=
  match op with
  | EccGenerate curve key_usage export =>
      snd (crypto.ECCKey.generate ot curve key_usage export st)
  | EccSign data => snd (crypto.ECCKey.ecdsa_sign ot hashlib data st)
  end.

Definition asymmetric_rsa_step (ot : Chip) (hashlib : Hashlib)
    (st : asymmetric.RsaKey.t * World) (op : rsa_op)
  : asymmetric.RsaKey.t * World :=
  match op with
  | RsaGenerate key_size key_usage _ =>
      snd (asymmetric.RsaKey.generate ot key_size key_usage st)
  | RsaSign data hash_algorithm =>
      snd (asymmetric.RsaKey.pkcs1v15_sign ot hashlib data hash_algorithm st)
  end.

Definition crypto_rsa_step (ot : Chip) (hashlib : Hashlib)
    (st : crypto.RSAKey.t * World) (op : rsa_op) : crypto.RSAKey.t * World :=
  match op with
  | RsaGenerate key_size key_usage export =>
      snd (crypto.RSAKey.generate ot key_size key_usage export st)
  | RsaSign data hash_algorithm =>
      snd (crypto.RSAKey.pkcs1v15_sign ot hashlib data hash_algorithm st)
  end.

(** A step that keeps what [kept] reads of the object and makes at most one
    call. *)
Definition modest {Self A Op : Type} (kept : Self -> A)
    (step : Self * World -> Op -> Self * World) : Prop :=
  forall k w op,
    kept (fst (step (k, w) op)) = kept k
    /\ (calls (snd (step (k, w) op)) = calls w
        \/ exists c, calls (snd (step (k, w) op)) = calls w ++ [c]).

(** Objects of the two files that stand for the same key, signature
    values that say the same, and outcomes that agree. *)
Definition ecc_corr (a : asymmetric.EccKey.t) (c : crypto.ECCKey.t) : Prop :=
  asymmetric.EccKey._key_id a = crypto.ECCKey.id c
  /\ asymmetric.EccKey._curve a = crypto.ECCKey._curve c
  /\ asymmetric.EccKey._pkey a = crypto.ECCKey._pkey c
  /\ asymmetric.EccKey._key_usage a = crypto.ECCKey._key_usage c
  /\ asymmetric.EccKey._hash_alg a = crypto.ECCKey._hash_alg c
  /\ asymmetric.EccKey._signature a = crypto.ECCKey._signature c.

Definition rsa_corr (a : asymmetric.RsaKey.t) (c : crypto.RSAKey.t) : Prop :=
  asymmetric.RsaKey.id a = crypto.RSAKey.id c
  /\ asymmetric.RsaKey._key_usage a = crypto.RSAKey._key_usage c
  /\ asymmetric.RsaKey._key_size a = crypto.RSAKey._key_size c
  /\ asymmetric.RsaKey._pkey a = crypto.RSAKey._pkey c.

Definition sig_corr (a : asymmetric._Signature.t) (c : crypto._Signature.t)
  : Prop :=
  asymmetric._Signature.hash_alg a = crypto._Signature.hash_alg c
  /\ asymmetric._Signature.id a = crypto._Signature.id c
  /\ asymmetric._Signature.signature a = crypto._Signature.signature c
  /\ asymmetric._Signature.algorithm a = crypto._Signature.algorithm c.

Definition outcome_corr {A B : Type} (R : A -> B -> Prop)
    (ra : result A) (rb : result B) : Prop :=
  match ra, rb with
  | Ok a, Ok b => R a b
  | Raise e, Raise e' => e = e'
  | _, _ => False
  end.

(** * Facts about the helpers *)

Lemma mem_In (x : Z) (l : list Z) : mem x l = true <-> In x l.
Proof.
  unfold mem. rewrite existsb_exists. split.
  - intros [y [Hy Heq]]. apply Z.eqb_eq in Heq. now subst.
  - intros H. exists x. split; [assumption | apply Z.eqb_refl].
Qed.

Lemma mem_not_In (x : Z) (l : list Z) : mem x l = false <-> ~ In x l.
Proof.
  rewrite <- mem_In. destruct (mem x l); split; congruence.
Qed.

Lemma ecc_slot_dec (ot : Chip) (key_id : Z) :
  negb (mem key_id [ECC_KEY_E0F0 ot; ECC_KEY_E0F1 ot; ECC_KEY_E0F2 ot;
                    ECC_KEY_E0F3 ot])
  && negb (mem key_id (session_id_values ot)) = false
  <-> ecc_slot ot key_id.
Proof.
  unfold ecc_slot. rewrite <- !mem_In.
  destruct (mem key_id [_; _; _; _]), (mem key_id (session_id_values ot));
    simpl; intuition congruence.
Qed.

Lemma rsa_slot_dec (key_id : Z) :
  negb (key_id =? 0xe0fc) && negb (key_id =? 0xe0fd) = false
  <-> rsa_slot key_id.
Proof.
  unfold rsa_slot. rewrite <- !Z.eqb_eq.
  destruct (key_id =? 0xe0fc), (key_id =? 0xe0fd); simpl;
    intuition congruence.
Qed.

Lemma length_c_ubyte_zeros (n : Z) : length (c_ubyte_zeros n) = Z.to_nat n.
Proof. apply repeat_length. Qed.

Lemma length_c_ubyte_array (n : Z) (init : bytes) :
  length (c_ubyte_array n init) = Z.to_nat n.
Proof.
  unfold c_ubyte_array.
  rewrite length_firstn, length_app, length_c_ubyte_zeros. lia.
Qed.

Lemma c_ubyte_array_fits (n : Z) (init : bytes) :
  Z.of_nat (length init) <= n ->
  c_ubyte_array n init = init ++ c_ubyte_zeros (n - Z.of_nat (length init)).
Proof.
  intros H. unfold c_ubyte_array. apply firstn_all2.
  rewrite length_app, length_c_ubyte_zeros. lia.
Qed.

Lemma c_ubyte_array_exact (n : Z) (init : bytes) :
  Z.of_nat (length init) = n -> c_ubyte_array n init = init.
Proof.
  intros H. rewrite c_ubyte_array_fits by lia.
  replace (n - Z.of_nat (length init)) with 0 by lia.
  apply app_nil_r.
Qed.

(** * Construction *)

(** C3.  A key object is constructed exactly for the legal slots of its
    kind: an ECC key for the four fixed ECC slots and the session slots, an
    RSA key for 0xe0fc and 0xe0fd.  For every other slot id the constructor
    raises the slot error ([InvalidSlot]) and returns no object.  Both files
    agree. *)
Theorem construction_validates_slot (ot : Chip) (key_id : Z) (curve : string) :
  ((exists k, asymmetric.EccKey.__init__ ot key_id curve = Ok k)
     <-> ecc_slot ot key_id)
  /\ ((exists k, crypto.ECCKey.__init__ ot key_id curve = Ok k)
     <-> ecc_slot ot key_id)
  /\ ((exists k, asymmetric.RsaKey.__init__ key_id = Ok k)
     <-> rsa_slot key_id)
  /\ ((exists k, crypto.RSAKey.__init__ key_id = Ok k)
     <-> rsa_slot key_id)
  /\ (~ ecc_slot ot key_id ->
      asymmetric.EccKey.__init__ ot key_id curve
        = Raise (ValueError (msg_key_id_ecc key_id))
      /\ crypto.ECCKey.__init__ ot key_id curve
        = Raise (ValueError (msg_key_id_ecc key_id))
      /\ kind_of (ValueError (msg_key_id_ecc key_id)) = InvalidSlot)
  /\ (~ rsa_slot key_id ->
      asymmetric.RsaKey.__init__ key_id
        = Raise (ValueError (msg_key_id_rsa key_id))
      /\ crypto.RSAKey.__init__ key_id
        = Raise (ValueError (msg_key_id_rsa key_id))
      /\ kind_of (ValueError (msg_key_id_rsa key_id)) = InvalidSlot).
Proof.
  unfold asymmetric.EccKey.__init__, crypto.ECCKey.__init__,
    asymmetric.RsaKey.__init__, crypto.RSAKey.__init__.
  pose proof (ecc_slot_dec ot key_id) as He.
  pose proof (rsa_slot_dec key_id) as Hr.
  destruct (negb (mem key_id [_; _; _; _]) && _) eqn:Ee;
    destruct (negb (key_id =? 0xe0fc) && _) eqn:Er.
  all: assert (Hne : true = false -> False) by discriminate.
  all: repeat match goal with
         | |- _ /\ _ => split
         | |- _ <-> _ => split
         end.
  all: try (intros [k Hk]; discriminate).
  all: try (intros _; eexists; reflexivity).
  all: try reflexivity.
  all: tauto.
Qed.

(** * The random generator *)





(** * ECDSA signing *)

Lemma to_bytes_runs {Self} (data : pyobj) (d : bytes) (k : Self) (w : World) :
  payload data = Some d ->
  to_bytes data (k, w) = (Ok d, (k, advised data w)).
Proof.
  unfold payload.
  destruct data; simpl; intros H; try discriminate;
    try (injection H as <-; reflexivity).
  unfold bind, lift. destruct (encode s); [| discriminate].
  injection H as <-. reflexivity.
Qed.

Lemma to_bytes_raises {Self} (data : pyobj) (k : Self) (w : World) :
  payload data = None ->
  to_bytes data (k, w) = (Raise (refusal data), (k, w)).
Proof.
  unfold payload, refusal.
  destruct data; simpl; intros H; try discriminate; try reflexivity.
  unfold bind, lift. destruct (encode s); [discriminate | reflexivity].
Qed.

Lemma calls_advised (data : pyobj) (w : World) :
  calls (advised data w) = calls w.
Proof. destruct data; try reflexivity. simpl. now destruct (encode s). Qed.

Lemma encode_from_refuses (s : str) (start : Z) (e : exception) :
  0 <= start -> encode_from start s = Raise e ->
  exists p, 0 <= p /\ e = UnicodeEncodeError p.
Proof.
  revert start. induction s as [| cp rest IH]; intros start Hs; simpl.
  - discriminate.
  - destruct (utf8 cp).
    + destruct (encode_from (start + 1) rest) eqn:E; [discriminate |].
      intros H. injection H as <-. apply (IH (start + 1)); [lia | exact E].
    + intros H. injection H as <-. now exists start.
Qed.

Lemma encode_refuses (s : str) (e : exception) :
  encode s = Raise e -> exists start, 0 <= start /\ e = UnicodeEncodeError start.
Proof. apply encode_from_refuses. lia. Qed.

Lemma advised_text (s : str) (d : bytes) (w : World) :
  encode s = Ok d ->
  advised (PyStr s) w
  = {| calls := calls w; warnings := warnings w ++ [data_warning] |}.
Proof. intros H. simpl. now rewrite H. Qed.

Lemma advised_refused (data : pyobj) (w : World) :
  payload data = None -> advised data w = w.
Proof.
  unfold payload. destruct data; simpl; try reflexivity.
  now destruct (encode s).
Qed.

Lemma refusal_of_other (data : pyobj) :
  binary_or_text data = false ->
  payload data = None /\ refusal data = TypeError msg_data_type.
Proof. destruct data; try discriminate. now split. Qed.

Lemma payload_of_text (s : str) :
  match encode s with
  | Ok d => payload (PyStr s) = Some d
  | Raise e => payload (PyStr s) = None /\ refusal (PyStr s) = e
  end.
Proof. unfold payload, refusal. simpl. destruct (encode s); auto. Qed.

Lemma ecdsa_sign_map_rows (hashlib : Hashlib) (curve : string)
    (param : sign_param) :
  ecdsa_sign_map hashlib curve = Some param ->
  param = param_sha256 hashlib \/ param = param_sha384 hashlib
  \/ param = param_sha512 hashlib.
Proof.
  unfold ecdsa_sign_map, param_sha256, param_sha384, param_sha512.
  repeat match goal with
         | |- context [String.eqb ?a ?b] => destruct (String.eqb a b)
         end; intros H; try discriminate; injection H as <-; auto.
Qed.

Lemma digest_array (hashlib : Hashlib) (curve : string) (param : sign_param)
    (d : bytes) :
  ecdsa_sign_map hashlib curve = Some param ->
  c_ubyte_array (param_size param) (param_hash param d) = param_hash param d
  /\ Z.of_nat (length (param_hash param d)) = param_size param
  /\ c_ubyte ((param_size param * 2 + 2) + 6) = (param_size param * 2 + 2) + 6
  /\ c_ubyte (param_size param) = param_size param.
Proof.
  intros H. apply ecdsa_sign_map_rows in H.
  destruct H as [-> | [-> | ->]]; simpl;
    (split; [apply c_ubyte_array_exact; simpl
            | split; [| split; reflexivity]]);
    rewrite ?sha256_digest_size, ?sha384_digest_size, ?sha512_digest_size;
    reflexivity.
Qed.


Lemma asymmetric_ecdsa_sign_runs (ot : Chip) (hashlib : Hashlib)
    (k : asymmetric.EccKey.t) (data : pyobj) (w : World) (d : bytes)
    (param : sign_param) :
  payload data = Some d ->
  ecdsa_sign_map hashlib (asymmetric.EccKey._curve k) = Some param ->
  let c := ecdsa_call param d (asymmetric.EccKey._key_id k) in
  let r := api ot (calls w) c in
  let L := c_ubyte (out_len r) in
  asymmetric.EccKey.ecdsa_sign ot hashlib data (k, w)
  = ((if status r =? 0
      then Ok (asymmetric.EcdsaSignature (param_name param)
                 (asymmetric.EccKey._key_id k)
                 (memmove
                    (setitem (setitem (c_ubyte_zeros (L + 2)) 0 0x30) 1 L)
                    2 (buffer_after ((param_size param * 2 + 2) + 6) (out r))
                    L))
      else Raise (IOError (msg_cant_be_executed (status r)))),
     (asymmetric_hashed k (param_name param),
      after_call (advised data w) c)).
Proof.
  intros Hd Hp c r L.
  destruct (digest_array hashlib _ param d Hp) as [Ha [Hl [Hc Hb]]].
  unfold asymmetric.EccKey.ecdsa_sign, bind.
  rewrite (to_bytes_runs data d) by assumption.
  unfold get_self; simpl. rewrite Hp. unfold set_self, invoke; simpl.
  subst L r c. unfold ecdsa_call, after_call, ret, raise.
  rewrite Ha, Hl, Hb, Hc, !calls_advised.
  destruct (status _ =? 0); reflexivity.
Qed.

Lemma crypto_ecdsa_sign_runs (ot : Chip) (hashlib : Hashlib)
    (k : crypto.ECCKey.t) (data : pyobj) (w : World) (d : bytes)
    (param : sign_param) :
  payload data = Some d ->
  ecdsa_sign_map hashlib (crypto.ECCKey._curve k) = Some param ->
  let c := ecdsa_call param d (crypto.ECCKey.id k) in
  let r := api ot (calls w) c in
  let L := c_ubyte (out_len r) in
  crypto.ECCKey.ecdsa_sign ot hashlib data (k, w)
  = ((if status r =? 0
      then Ok (crypto.ECDSASignature (param_name param)
                 (crypto.ECCKey.id k)
                 (memmove
                    (setitem (setitem (c_ubyte_zeros (L + 2)) 0 0x30) 1 L)
                    2 (buffer_after ((param_size param * 2 + 2) + 6) (out r))
                    L))
      else Raise (IOError (msg_cant_be_executed (status r)))),
     (crypto_hashed k (param_name param),
      after_call (advised data w) c)).
Proof.
  intros Hd Hp c r L.
  destruct (digest_array hashlib _ param d Hp) as [Ha [Hl [Hc Hb]]].
  unfold crypto.ECCKey.ecdsa_sign, bind.
  rewrite (to_bytes_runs data d) by assumption.
  unfold get_self; simpl. rewrite Hp. unfold set_self, invoke; simpl.
  subst L r c. unfold ecdsa_call, after_call, ret, raise.
  rewrite Ha, Hl, Hb, Hc, !calls_advised.
  destruct (status _ =? 0); reflexivity.
Qed.







(** C10.  [ecdsa_sign] stores the digest name in [_hash_alg] before it calls
    the secure element: when that call returns a non-zero status the method
    raises the hardware fault with that status, and the key object it leaves
    behind differs from the one it was given in [_hash_alg] alone, which
    holds the new name.  Both files agree. *)
Theorem ecdsa_sign_sets_hash_alg_before_call (ot : Chip) (hashlib : Hashlib)
    (data : pyobj) (w : World) (d : bytes) (param : sign_param) :
  payload data = Some d ->
  (forall k,
      ecdsa_sign_map hashlib (asymmetric.EccKey._curve k) = Some param ->
      let c := ecdsa_call param d (asymmetric.EccKey._key_id k) in
      let run := asymmetric.EccKey.ecdsa_sign ot hashlib data (k, w) in
      status (api ot (calls w) c) <> 0 ->
      fst run = Raise (IOError (msg_cant_be_executed (status (api ot (calls w) c))))
      /\ kind_of (IOError (msg_cant_be_executed (status (api ot (calls w) c))))
         = HardwareFault (status (api ot (calls w) c))
      /\ fst (snd run) = asymmetric_hashed k (param_name param)
      /\ asymmetric.EccKey._hash_alg (fst (snd run)) = Some (param_name param)
      /\ calls (snd (snd run)) = calls w ++ [c])
  /\ (forall k,
      ecdsa_sign_map hashlib (crypto.ECCKey._curve k) = Some param ->
      let c := ecdsa_call param d (crypto.ECCKey.id k) in
      let run := crypto.ECCKey.ecdsa_sign ot hashlib data (k, w) in
      status (api ot (calls w) c) <> 0 ->
      fst run = Raise (IOError (msg_cant_be_executed (status (api ot (calls w) c))))
      /\ kind_of (IOError (msg_cant_be_executed (status (api ot (calls w) c))))
         = HardwareFault (status (api ot (calls w) c))
      /\ fst (snd run) = crypto_hashed k (param_name param)
      /\ crypto.ECCKey._hash_alg (fst (snd run)) = Some (param_name param)
      /\ calls (snd (snd run)) = calls w ++ [c]).
Proof.
  intros Hd. split; intros k Hp c run Hs; subst run c.
  - rewrite (asymmetric_ecdsa_sign_runs ot hashlib k data w d param Hd Hp).
    apply Z.eqb_neq in Hs. rewrite Hs. simpl. rewrite calls_advised.
    repeat split.
  - rewrite (crypto_ecdsa_sign_runs ot hashlib k data w d param Hd Hp).
    apply Z.eqb_neq in Hs. rewrite Hs. simpl. rewrite calls_advised.
    repeat split.
Qed.

Lemma ecdsa_sign_sets_hash_alg_before_call_witness :
  crypto.ECCKey.ecdsa_sign
    (example_chip (answers (example_answer 0x107 []))) example_hashlib
    (PyStr [0x61; 0x62; 0x63]) (example_crypto_ecc_key, empty_world)
  = (Raise (IOError (msg_cant_be_executed 0x107)),
     (crypto_hashed example_crypto_ecc_key "sha256",
      {| calls := [exp_optiga_crypt_ecdsa_sign (repeat 0 32) 32 0xE0F0 72];
         warnings := [data_warning] |}))
  /\ crypto.ECCKey._hash_alg example_crypto_ecc_key = None
  /\ asymmetric.EccKey._hash_alg
       (fst (snd (asymmetric.EccKey.ecdsa_sign
                    (example_chip (answers (example_answer 0x107 [])))
                    example_hashlib (PyStr [0x61; 0x62; 0x63])
                    (example_asymmetric_ecc_key, empty_world))))
     = Some "sha256"%string.
Proof.
  pose proof (ecdsa_sign_sets_hash_alg_before_call
                (example_chip (answers (example_answer 0x107 [])))
                example_hashlib (PyStr [0x61; 0x62; 0x63]) empty_world
                [0x61; 0x62; 0x63] (param_sha256 example_hashlib) eq_refl)
    as [Hasym Hcrypto].
  split; [reflexivity |]. split; [reflexivity |].
  specialize (Hasym example_asymmetric_ecc_key eq_refl
                ltac:(vm_compute; congruence)).
  destruct Hasym as [_ [_ [_ [Hh _]]]]. exact Hh.
Defined.

(** * Curve resolution and digest selection *)

Lemma _str2curve_map_supported (curve_str : string) :
  In curve_str supported_curves <-> _str2curve_map curve_str <> None.
Proof.
  unfold _str2curve_map, supported_curves. split.
  - simpl. intros [<- | [<- | [<- | [<- | [<- | [<- | []]]]]]]; discriminate.
  - repeat match goal with
           | |- context [String.eqb ?a ?b] =>
               destruct (String.eqb_spec a b) as [-> | ?]
           end; simpl; intros H; auto 10; now contradiction H.
Qed.

Lemma ecdsa_sign_map_supported (hashlib : Hashlib) (curve : string) :
  In curve supported_curves <-> ecdsa_sign_map hashlib curve <> None.
Proof.
  unfold ecdsa_sign_map, supported_curves. split.
  - simpl. intros [<- | [<- | [<- | [<- | [<- | [<- | []]]]]]]; discriminate.
  - repeat match goal with
           | |- context [String.eqb ?a ?b] =>
               destruct (String.eqb_spec a b) as [-> | ?]
           end; simpl; intros H; auto 10; now contradiction H.
Qed.

(** The constructors do not look at the curve name.  Signing with a key
    bound to a name outside the table stops at the table lookup with a
    [KeyError], before [_hash_alg] is written and before any call. *)
Lemma ecdsa_sign_unsupported_curve (ot : Chip) (hashlib : Hashlib)
    (data : pyobj) (d : bytes) (w : World) :
  payload data = Some d ->
  (forall k,
      ~ In (asymmetric.EccKey._curve k) supported_curves ->
      asymmetric.EccKey.ecdsa_sign ot hashlib data (k, w)
      = (Raise (KeyError (asymmetric.EccKey._curve k)), (k, advised data w)))
  /\ (forall k,
      ~ In (crypto.ECCKey._curve k) supported_curves ->
      crypto.ECCKey.ecdsa_sign ot hashlib data (k, w)
      = (Raise (KeyError (crypto.ECCKey._curve k)), (k, advised data w))).
Proof.
  intros Hd. split; intros k Hout.
  - assert (Hp : ecdsa_sign_map hashlib (asymmetric.EccKey._curve k) = None).
    { destruct (ecdsa_sign_map hashlib _) eqn:E; [| reflexivity].
      exfalso. apply Hout, (ecdsa_sign_map_supported hashlib). congruence. }
    unfold asymmetric.EccKey.ecdsa_sign, bind.
    rewrite (to_bytes_runs data d) by assumption.
    unfold get_self; simpl. now rewrite Hp.
  - assert (Hp : ecdsa_sign_map hashlib (crypto.ECCKey._curve k) = None).
    { destruct (ecdsa_sign_map hashlib _) eqn:E; [| reflexivity].
      exfalso. apply Hout, (ecdsa_sign_map_supported hashlib). congruence. }
    unfold crypto.ECCKey.ecdsa_sign, bind.
    rewrite (to_bytes_runs data d) by assumption.
    unfold get_self; simpl. now rewrite Hp.
Qed.




(** * Key usage *)

Lemma collect_key_usage_ok (allowed : string -> option KeyUsage)
    (l : list string) (acc : list KeyUsage) :
  (forall entry, In entry l -> allowed entry <> None) ->
  collect_key_usage allowed l acc = Ok (acc ++ usage_flags allowed l).
Proof.
  revert acc. induction l as [| entry rest IH]; intros acc Hall; simpl.
  - now rewrite app_nil_r.
  - destruct (allowed entry) as [ku |] eqn:E.
    + rewrite IH by (intros e He; apply Hall; now right).
      now rewrite <- app_assoc.
    + exfalso. apply (Hall entry); [now left | assumption].
Qed.

Lemma collect_key_usage_raises (allowed : string -> option KeyUsage)
    (l : list string) (acc : list KeyUsage) :
  (exists entry, In entry l /\ allowed entry = None) ->
  exists entry,
    In entry l /\ allowed entry = None
    /\ collect_key_usage allowed l acc
       = Raise (ValueError (msg_wrong_key_usage entry)).
Proof.
  revert acc. induction l as [| entry rest IH]; intros acc [e [Hin He]].
  - destruct Hin.
  - simpl. destruct (allowed entry) as [ku |] eqn:E.
    + destruct Hin as [-> | Hin]; [congruence |].
      destruct (IH (acc ++ [ku]) (ex_intro _ e (conj Hin He)))
        as [e' [Hin' [He' Hr]]].
      exists e'. repeat split; [now right | assumption | assumption].
    + exists entry. repeat split; [now left | assumption].
Qed.

Lemma collect_key_usage_cases (allowed : string -> option KeyUsage)
    (l : list string) :
  collect_key_usage allowed l [] = Ok (usage_flags allowed l)
  \/ exists entry,
      In entry l /\ allowed entry = None
      /\ collect_key_usage allowed l []
         = Raise (ValueError (msg_wrong_key_usage entry)).
Proof.
  destruct (existsb (fun e => match allowed e with None => true | _ => false end) l)
    eqn:E.
  - right. apply collect_key_usage_raises.
    apply existsb_exists in E. destruct E as [e [Hin He]].
    exists e. split; [assumption |]. now destruct (allowed e).
  - left. rewrite collect_key_usage_ok; [reflexivity |].
    intros e Hin Hnone.
    assert (existsb (fun e => match allowed e with None => true | _ => false end) l = true).
    { apply existsb_exists. exists e. now rewrite Hnone. }
    congruence.
Qed.

Lemma ecc_allowed_names (entry : string) (ku : KeyUsage) :
  asymmetric.EccKey._allowed_key_usage entry = Some ku ->
  entry = usage_name ku /\ ku <> ENCRYPT.
Proof.
  unfold asymmetric.EccKey._allowed_key_usage.
  repeat match goal with
         | |- context [String.eqb ?a ?b] =>
             destruct (String.eqb_spec a b) as [-> | ?]
         end; intros H; try discriminate; injection H as <-;
    (split; [reflexivity | discriminate]).
Qed.

Lemma rsa_allowed_names (entry : string) (ku : KeyUsage) :
  asymmetric.RsaKey._allowed_key_usages entry = Some ku ->
  entry = usage_name ku.
Proof.
  unfold asymmetric.RsaKey._allowed_key_usages.
  repeat match goal with
         | |- context [String.eqb ?a ?b] =>
             destruct (String.eqb_spec a b) as [-> | ?]
         end; intros H; try discriminate; injection H as <-; reflexivity.
Qed.

Lemma ecc_allowed_domain (entry : string) :
  asymmetric.EccKey._allowed_key_usage entry <> None
  <-> In entry ["key_agreement"; "authentication"; "signature"]%string.
Proof.
  unfold asymmetric.EccKey._allowed_key_usage. split.
  - repeat match goal with
           | |- context [String.eqb ?a ?b] =>
               destruct (String.eqb_spec a b) as [-> | ?]
           end; simpl; intros H; auto 10; now contradiction H.
  - simpl. intros [<- | [<- | [<- | []]]]; discriminate.
Qed.

Lemma rsa_allowed_domain (entry : string) :
  asymmetric.RsaKey._allowed_key_usages entry <> None
  <-> In entry ["key_agreement"; "authentication"; "encryption";
                "signature"]%string.
Proof.
  unfold asymmetric.RsaKey._allowed_key_usages. split.
  - repeat match goal with
           | |- context [String.eqb ?a ?b] =>
               destruct (String.eqb_spec a b) as [-> | ?]
           end; simpl; intros H; auto 10; now contradiction H.
  - simpl. intros [<- | [<- | [<- | [<- | []]]]]; discriminate.
Qed.

Lemma existsb_eqb_In (entry : string) (names : list string) :
  existsb (String.eqb entry) names = true <-> In entry names.
Proof.
  rewrite existsb_exists. split.
  - intros [x [Hin Hx]]. apply String.eqb_eq in Hx. now subst.
  - intros Hin. exists entry. split; [assumption | apply String.eqb_refl].
Qed.

Lemma collect_key_usage_first_foreign (allowed : string -> option KeyUsage)
    (names l : list string) (acc : list KeyUsage) :
  (forall entry, allowed entry <> None <-> In entry names) ->
  collect_key_usage allowed l acc
  = match first_foreign names l with
    | Some entry => Raise (ValueError (msg_wrong_key_usage entry))
    | None => Ok (acc ++ usage_flags allowed l)
    end.
Proof.
  intros Hdom. revert acc.
  induction l as [| entry rest IH]; intros acc; simpl.
  - now rewrite app_nil_r.
  - destruct (existsb (String.eqb entry) names) eqn:E; simpl.
    + apply existsb_eqb_In, Hdom in E.
      destruct (allowed entry) as [ku |]; [| congruence].
      rewrite IH. unfold first_foreign.
      destruct (find _ rest); [reflexivity |]. now rewrite <- app_assoc.
    + destruct (allowed entry) as [ku |] eqn:Ea; [| reflexivity].
      assert (Hin : In entry names) by (apply Hdom; congruence).
      apply existsb_eqb_In in Hin. congruence.
Qed.

Lemma first_foreign_spec (names l : list string) :
  match first_foreign names l with
  | Some entry => In entry l /\ ~ In entry names
  | None => forall entry, In entry l -> In entry names
  end.
Proof.
  unfold first_foreign.
  destruct (find _ l) as [entry |] eqn:E.
  - apply find_some in E. destruct E as [Hin Hout]. split; [assumption |].
    intros H. apply existsb_eqb_In in H. now rewrite H in Hout.
  - intros entry Hin. pose proof (find_none _ _ E entry Hin) as H.
    apply negb_false_iff in H. now apply existsb_eqb_In.
Qed.

(** * Key generation: the paths through the four methods *)

Ltac run_monad :=
  unfold bind, lift, ret, raise, get_self, set_self, invoke; simpl.

Lemma asymmetric_ecc_generate_usage_raises (ot : Chip)
    (k : asymmetric.EccKey.t) (w : World) (curve : string)
    (key_usage : option (list string)) (e : exception) :
  requested_usage asymmetric.EccKey._allowed_key_usage key_usage = Raise e ->
  asymmetric.EccKey.generate ot curve key_usage (k, w) = (Raise e, (k, w)).
Proof.
  unfold requested_usage, asymmetric.EccKey.generate. intros H.
  run_monad. now rewrite H.
Qed.

Lemma asymmetric_ecc_generate_curve_raises (ot : Chip)
    (k : asymmetric.EccKey.t) (w : World) (curve : string)
    (key_usage : option (list string)) (flags : list KeyUsage) :
  requested_usage asymmetric.EccKey._allowed_key_usage key_usage = Ok flags ->
  (_str2curve_map curve = None ->
   asymmetric.EccKey.generate ot curve key_usage (k, w)
   = (Raise (ValueError (msg_curve_not_supported curve)), (k, w)))
  /\ (forall cv, _str2curve_map curve = Some cv ->
      mem (Curves_value ot cv) (curves_values ot) = false ->
      asymmetric.EccKey.generate ot curve key_usage (k, w)
      = (Raise (TypeError (msg_object_id_not_found (Curves_value ot cv))),
         (k, w))).
Proof.
  unfold requested_usage, asymmetric.EccKey.generate, asymmetric._str2curve.
  intros H. split; [intros Hc | intros cv Hc Hm]; run_monad;
    rewrite H, Hc; [reflexivity |]. now rewrite Hm.
Qed.

Lemma asymmetric_ecc_generate_calls (ot : Chip)
    (k : asymmetric.EccKey.t) (w : World) (curve : string)
    (key_usage : option (list string)) (flags : list KeyUsage) (cv : Curves) :
  requested_usage asymmetric.EccKey._allowed_key_usage key_usage = Ok flags ->
  _str2curve_map curve = Some cv ->
  mem (Curves_value ot cv) (curves_values ot) = true ->
  let c := keypair_call ot (Curves_value ot cv) flags 0
             (byref_key_id (c_ushort (asymmetric.EccKey._key_id k))) 150 in
  let r := api ot (calls w) c in
  asymmetric.EccKey.generate ot curve key_usage (k, w)
  = generate_outcome k
      (asymmetric_ecc_generated k curve flags (pub_key_of 150 r)) w c r.
Proof.
  intros H Hc Hm c r. subst r c.
  unfold requested_usage, asymmetric.EccKey.generate, asymmetric._str2curve
    in *.
  unfold generate_outcome, keypair_call.
  run_monad. rewrite H, Hc, Hm. simpl.
  change (c_ushort 150) with 150.
  destruct (status _ =? 0); reflexivity.
Qed.

Lemma crypto_ecc_generate_usage_raises (ot : Chip)
    (k : crypto.ECCKey.t) (w : World) (curve : string)
    (key_usage : option (list string)) (export : bool) (e : exception) :
  requested_usage crypto.ECCKey._allowed_key_usage key_usage = Raise e ->
  crypto.ECCKey.generate ot curve key_usage export (k, w)
  = (Raise e, (k, w)).
Proof.
  unfold requested_usage, crypto.ECCKey.generate. intros H.
  run_monad. now rewrite H.
Qed.

Lemma crypto_ecc_generate_curve_raises (ot : Chip)
    (k : crypto.ECCKey.t) (w : World) (curve : string)
    (key_usage : option (list string)) (export : bool)
    (flags : list KeyUsage) :
  requested_usage crypto.ECCKey._allowed_key_usage key_usage = Ok flags ->
  (_str2curve_map curve = None ->
   crypto.ECCKey.generate ot curve key_usage export (k, w)
   = (Raise (ValueError (msg_curve_not_supported curve)), (k, w)))
  /\ (forall cv, _str2curve_map curve = Some cv ->
      mem (Curves_value ot cv) (curves_values ot) = false ->
      crypto.ECCKey.generate ot curve key_usage export (k, w)
      = (Raise (TypeError (msg_object_id_not_found (Curves_value ot cv))),
         (k, w))).
Proof.
  unfold requested_usage, crypto.ECCKey.generate, crypto._str2curve.
  intros H. split; [intros Hc | intros cv Hc Hm]; run_monad;
    rewrite H, Hc; [reflexivity |]. now rewrite Hm.
Qed.

Lemma crypto_ecc_generate_calls (ot : Chip)
    (k : crypto.ECCKey.t) (w : World) (curve : string)
    (key_usage : option (list string)) (export : bool)
    (flags : list KeyUsage) (cv : Curves) :
  requested_usage crypto.ECCKey._allowed_key_usage key_usage = Ok flags ->
  _str2curve_map curve = Some cv ->
  mem (Curves_value ot cv) (curves_values ot) = true ->
  let c := keypair_call ot (Curves_value ot cv) flags (Z.b2z export)
             (key_argument export (crypto.ECCKey.id k)) 150 in
  let r := api ot (calls w) c in
  crypto.ECCKey.generate ot curve key_usage export (k, w)
  = generate_outcome k
      (crypto_ecc_generated k curve flags (pub_key_of 150 r) export
         (priv_key_of r)) w c r.
Proof.
  intros H Hc Hm c r. subst r c.
  unfold requested_usage, crypto.ECCKey.generate, crypto._str2curve in *.
  unfold generate_outcome, keypair_call, key_argument.
  run_monad. rewrite H, Hc, Hm. simpl.
  change (c_ushort 150) with 150.
  destruct (status _ =? 0); reflexivity.
Qed.

Lemma asymmetric_rsa_generate_usage_raises (ot : Chip)
    (k : asymmetric.RsaKey.t) (w : World) (key_size : Z)
    (key_usage : option (list string)) (e : exception) :
  requested_usage asymmetric.RsaKey._allowed_key_usages key_usage = Raise e ->
  asymmetric.RsaKey.generate ot key_size key_usage (k, w)
  = (Raise e, (k, w)).
Proof.
  unfold requested_usage, asymmetric.RsaKey.generate. intros H.
  run_monad. now rewrite H.
Qed.

Lemma asymmetric_rsa_generate_size_raises (ot : Chip)
    (k : asymmetric.RsaKey.t) (w : World) (key_size : Z)
    (key_usage : option (list string)) (flags : list KeyUsage) :
  requested_usage asymmetric.RsaKey._allowed_key_usages key_usage = Ok flags ->
  mem key_size allowed_key_sizes = false ->
  asymmetric.RsaKey.generate ot key_size key_usage (k, w)
  = (Raise (ValueError (msg_key_size key_size)), (k, w)).
Proof.
  unfold requested_usage, asymmetric.RsaKey.generate. intros H Hm.
  run_monad. rewrite H. now rewrite Hm.
Qed.

Lemma asymmetric_rsa_generate_calls (ot : Chip)
    (k : asymmetric.RsaKey.t) (w : World) (key_size : Z)
    (key_usage : option (list string)) (flags : list KeyUsage) :
  requested_usage asymmetric.RsaKey._allowed_key_usages key_usage = Ok flags ->
  mem key_size allowed_key_sizes = true ->
  let c := keypair_call ot (rsa_keytype key_size) flags 0
             (byref_key_id (c_ushort (asymmetric.RsaKey.id k))) 320 in
  let r := api ot (calls w) c in
  asymmetric.RsaKey.generate ot key_size key_usage (k, w)
  = generate_outcome k
      (asymmetric_rsa_generated k key_size flags
         (rsa_header key_size ++ pub_key_of 320 r)) w c r.
Proof.
  intros H Hm c r. subst r c.
  unfold requested_usage, asymmetric.RsaKey.generate in *.
  unfold generate_outcome, keypair_call, rsa_keytype, rsa_header.
  run_monad. rewrite H, Hm. simpl.
  change (c_ushort 320) with 320.
  destruct (key_size =? 1024); simpl;
    destruct (status _ =? 0); reflexivity.
Qed.

Lemma crypto_rsa_generate_usage_raises (ot : Chip)
    (k : crypto.RSAKey.t) (w : World) (key_size : Z)
    (key_usage : option (list string)) (export : bool) (e : exception) :
  requested_usage crypto.RSAKey._allowed_key_usages key_usage = Raise e ->
  crypto.RSAKey.generate ot key_size key_usage export (k, w)
  = (Raise e, (k, w)).
Proof.
  unfold requested_usage, crypto.RSAKey.generate. intros H.
  run_monad. now rewrite H.
Qed.

Lemma crypto_rsa_generate_size_raises (ot : Chip)
    (k : crypto.RSAKey.t) (w : World) (key_size : Z)
    (key_usage : option (list string)) (export : bool)
    (flags : list KeyUsage) :
  requested_usage crypto.RSAKey._allowed_key_usages key_usage = Ok flags ->
  mem key_size allowed_key_sizes = false ->
  crypto.RSAKey.generate ot key_size key_usage export (k, w)
  = (Raise (ValueError (msg_key_size key_size)), (k, w)).
Proof.
  unfold requested_usage, crypto.RSAKey.generate. intros H Hm.
  run_monad. rewrite H. now rewrite Hm.
Qed.

Lemma crypto_rsa_generate_calls (ot : Chip)
    (k : crypto.RSAKey.t) (w : World) (key_size : Z)
    (key_usage : option (list string)) (export : bool)
    (flags : list KeyUsage) :
  requested_usage crypto.RSAKey._allowed_key_usages key_usage = Ok flags ->
  mem key_size allowed_key_sizes = true ->
  let c := keypair_call ot (rsa_keytype key_size) flags (Z.b2z export)
             (key_argument export (crypto.RSAKey.id k)) 320 in
  let r := api ot (calls w) c in
  crypto.RSAKey.generate ot key_size key_usage export (k, w)
  = generate_outcome k
      (crypto_rsa_generated k key_size flags
         (rsa_header key_size ++ pub_key_of 320 r) export (priv_key_of r))
      w c r.
Proof.
  intros H Hm c r. subst r c.
  unfold requested_usage, crypto.RSAKey.generate in *.
  unfold generate_outcome, keypair_call, key_argument, rsa_keytype,
    rsa_header.
  run_monad. rewrite H, Hm. simpl.
  change (c_ushort 320) with 320.
  destruct (key_size =? 1024); simpl;
    destruct (status _ =? 0); reflexivity.
Qed.

(** * Hardware faults during key generation *)

Lemma requested_usage_cases (allowed : string -> option KeyUsage)
    (key_usage : option (list string)) :
  (exists flags, requested_usage allowed key_usage = Ok flags)
  \/ (exists entry, requested_usage allowed key_usage
                    = Raise (ValueError (msg_wrong_key_usage entry))).
Proof.
  destruct key_usage as [l |]; simpl.
  - destruct (collect_key_usage_cases allowed l) as [H | [e [_ [_ H]]]];
      [left | right]; eauto.
  - left. eauto.
Qed.

Lemma asymmetric_ecc_generate_cases (ot : Chip) (k : asymmetric.EccKey.t)
    (w : World) (curve : string) (key_usage : option (list string)) :
  (exists e, asymmetric.EccKey.generate ot curve key_usage (k, w)
             = (Raise e, (k, w)))
  \/ (exists c new, asymmetric.EccKey.generate ot curve key_usage (k, w)
                    = generate_outcome k new w c (api ot (calls w) c)).
Proof.
  destruct (requested_usage_cases asymmetric.EccKey._allowed_key_usage
              key_usage) as [[flags Hu] | [entry Hu]].
  - destruct (_str2curve_map curve) as [cv |] eqn:Hc.
    + destruct (mem (Curves_value ot cv) (curves_values ot)) eqn:Hm.
      * right. eexists. eexists.
        exact (asymmetric_ecc_generate_calls ot k w curve key_usage flags cv
                 Hu Hc Hm).
      * left. eexists.
        exact (proj2 (asymmetric_ecc_generate_curve_raises ot k w curve
                        key_usage flags Hu) cv Hc Hm).
    + left. eexists.
      exact (proj1 (asymmetric_ecc_generate_curve_raises ot k w curve
                      key_usage flags Hu) Hc).
  - left. eexists.
    exact (asymmetric_ecc_generate_usage_raises ot k w curve key_usage _ Hu).
Qed.

Lemma crypto_ecc_generate_cases (ot : Chip) (k : crypto.ECCKey.t)
    (w : World) (curve : string) (key_usage : option (list string))
    (export : bool) :
  (exists e, crypto.ECCKey.generate ot curve key_usage export (k, w)
             = (Raise e, (k, w)))
  \/ (exists c new, crypto.ECCKey.generate ot curve key_usage export (k, w)
                    = generate_outcome k new w c (api ot (calls w) c)).
Proof.
  destruct (requested_usage_cases crypto.ECCKey._allowed_key_usage
              key_usage) as [[flags Hu] | [entry Hu]].
  - destruct (_str2curve_map curve) as [cv |] eqn:Hc.
    + destruct (mem (Curves_value ot cv) (curves_values ot)) eqn:Hm.
      * right. eexists. eexists.
        exact (crypto_ecc_generate_calls ot k w curve key_usage export flags
                 cv Hu Hc Hm).
      * left. eexists.
        exact (proj2 (crypto_ecc_generate_curve_raises ot k w curve
                        key_usage export flags Hu) cv Hc Hm).
    + left. eexists.
      exact (proj1 (crypto_ecc_generate_curve_raises ot k w curve
                      key_usage export flags Hu) Hc).
  - left. eexists.
    exact (crypto_ecc_generate_usage_raises ot k w curve key_usage export _
             Hu).
Qed.

Lemma asymmetric_rsa_generate_cases (ot : Chip) (k : asymmetric.RsaKey.t)
    (w : World) (key_size : Z) (key_usage : option (list string)) :
  (exists e, asymmetric.RsaKey.generate ot key_size key_usage (k, w)
             = (Raise e, (k, w)))
  \/ (exists c new, asymmetric.RsaKey.generate ot key_size key_usage (k, w)
                    = generate_outcome k new w c (api ot (calls w) c)).
Proof.
  destruct (requested_usage_cases asymmetric.RsaKey._allowed_key_usages
              key_usage) as [[flags Hu] | [entry Hu]].
  - destruct (mem key_size allowed_key_sizes) eqn:Hm.
    + right. eexists. eexists.
      exact (asymmetric_rsa_generate_calls ot k w key_size key_usage flags
               Hu Hm).
    + left. eexists.
      exact (asymmetric_rsa_generate_size_raises ot k w key_size key_usage
               flags Hu Hm).
  - left. eexists.
    exact (asymmetric_rsa_generate_usage_raises ot k w key_size key_usage _
             Hu).
Qed.

Lemma crypto_rsa_generate_cases (ot : Chip) (k : crypto.RSAKey.t)
    (w : World) (key_size : Z) (key_usage : option (list string))
    (export : bool) :
  (exists e, crypto.RSAKey.generate ot key_size key_usage export (k, w)
             = (Raise e, (k, w)))
  \/ (exists c new, crypto.RSAKey.generate ot key_size key_usage export (k, w)
                    = generate_outcome k new w c (api ot (calls w) c)).
Proof.
  destruct (requested_usage_cases crypto.RSAKey._allowed_key_usages
              key_usage) as [[flags Hu] | [entry Hu]].
  - destruct (mem key_size allowed_key_sizes) eqn:Hm.
    + right. eexists. eexists.
      exact (crypto_rsa_generate_calls ot k w key_size key_usage export
               flags Hu Hm).
    + left. eexists.
      exact (crypto_rsa_generate_size_raises ot k w key_size key_usage
               export flags Hu Hm).
  - left. eexists.
    exact (crypto_rsa_generate_usage_raises ot k w key_size key_usage export
             _ Hu).
Qed.

(** A run that made the call [c] and got a non-zero status for it raised
    the fault and kept the object. *)
Lemma fault_keeps_object {Self} (ot : Chip) (k : Self) (w : World)
    (c : api_call) (run : result Self * (Self * World)) :
  (exists e, run = (Raise e, (k, w)))
  \/ (exists c0 new, run = generate_outcome k new w c0 (api ot (calls w) c0)) ->
  calls (snd (snd run)) = calls w ++ [c] ->
  status (api ot (calls w) c) <> 0 ->
  fst run = Raise (IOError (msg_cant_be_executed (status (api ot (calls w) c))))
  /\ fst (snd run) = k.
Proof.
  intros [[e ->] | [c0 [new ->]]] Hcalls Hs.
  - simpl in Hcalls. apply (f_equal (@length _)) in Hcalls.
    rewrite length_app in Hcalls. simpl in Hcalls. lia.
  - assert (c0 = c) as ->.
    { unfold generate_outcome in Hcalls.
      destruct (status _ =? 0); simpl in Hcalls;
        apply app_inv_head in Hcalls; now injection Hcalls. }
    unfold generate_outcome. apply Z.eqb_neq in Hs. rewrite Hs.
    split; reflexivity.
Qed.

(** C2.  In every [generate], of either key kind and either file: when the
    call made on the secure element returns a non-zero status, the method
    raises the hardware fault carrying that status and the key object is the
    one it was given, so its public key and its private key are as they were
    before the call (absent, on a fresh object). *)
Theorem generate_fault_leaves_key_unchanged (ot : Chip) (w : World)
    (c : api_call) :
  status (api ot (calls w) c) <> 0 ->
  let fault := IOError (msg_cant_be_executed (status (api ot (calls w) c))) in
  kind_of fault = HardwareFault (status (api ot (calls w) c))
  /\ (forall k curve key_usage,
      let run := asymmetric.EccKey.generate ot curve key_usage (k, w) in
      calls (snd (snd run)) = calls w ++ [c] ->
      fst run = Raise fault /\ fst (snd run) = k
      /\ asymmetric.EccKey._pkey (fst (snd run)) = asymmetric.EccKey._pkey k)
  /\ (forall k curve key_usage export,
      let run := crypto.ECCKey.generate ot curve key_usage export (k, w) in
      calls (snd (snd run)) = calls w ++ [c] ->
      fst run = Raise fault /\ fst (snd run) = k
      /\ crypto.ECCKey._pkey (fst (snd run)) = crypto.ECCKey._pkey k
      /\ crypto.ECCKey._key (fst (snd run)) = crypto.ECCKey._key k)
  /\ (forall k key_size key_usage,
      let run := asymmetric.RsaKey.generate ot key_size key_usage (k, w) in
      calls (snd (snd run)) = calls w ++ [c] ->
      fst run = Raise fault /\ fst (snd run) = k
      /\ asymmetric.RsaKey._pkey (fst (snd run)) = asymmetric.RsaKey._pkey k)
  /\ (forall k key_size key_usage export,
      let run := crypto.RSAKey.generate ot key_size key_usage export (k, w) in
      calls (snd (snd run)) = calls w ++ [c] ->
      fst run = Raise fault /\ fst (snd run) = k
      /\ crypto.RSAKey._pkey (fst (snd run)) = crypto.RSAKey._pkey k
      /\ crypto.RSAKey._key (fst (snd run)) = crypto.RSAKey._key k).
Proof.
  intros Hs fault. split; [reflexivity |].
  split; [| split; [| split]].
  - intros k curve key_usage run Hcalls.
    destruct (fault_keeps_object ot k w c run
                (asymmetric_ecc_generate_cases ot k w curve key_usage)
                Hcalls Hs) as [Hr Hk].
    rewrite Hk. auto.
  - intros k curve key_usage export run Hcalls.
    destruct (fault_keeps_object ot k w c run
                (crypto_ecc_generate_cases ot k w curve key_usage export)
                Hcalls Hs) as [Hr Hk].
    rewrite Hk. auto.
  - intros k key_size key_usage run Hcalls.
    destruct (fault_keeps_object ot k w c run
                (asymmetric_rsa_generate_cases ot k w key_size key_usage)
                Hcalls Hs) as [Hr Hk].
    rewrite Hk. auto.
  - intros k key_size key_usage export run Hcalls.
    destruct (fault_keeps_object ot k w c run
                (crypto_rsa_generate_cases ot k w key_size key_usage export)
                Hcalls Hs) as [Hr Hk].
    rewrite Hk. auto.
Qed.

Lemma generate_fault_leaves_key_unchanged_witness :
  crypto.RSAKey.generate (example_chip (answers (example_answer 0x8029 [])))
    2048 None true (example_crypto_rsa_key, empty_world)
  = (Raise (IOError (msg_cant_be_executed 0x8029)),
     (example_crypto_rsa_key,
      {| calls := [exp_optiga_crypt_ecc_generate_keypair 0x42 0x30 1
                     (key_buffer 104) 320];
         warnings := [] |}))
  /\ fst (snd (crypto.ECCKey.generate
                 (example_chip (answers (example_answer 0x8029 [])))
                 "secp256r1" None false
                 (example_crypto_ecc_key, empty_world)))
     = example_crypto_ecc_key.
Proof.
  split; [reflexivity |].
  pose proof (generate_fault_leaves_key_unchanged
                (example_chip (answers (example_answer 0x8029 [])))
                empty_world
                (exp_optiga_crypt_ecc_generate_keypair 0x03 0x30 0
                   (byref_key_id 0xE0F0) 150)
                ltac:(vm_compute; congruence)) as [_ [_ [Hcrypto _]]].
  exact (proj1 (proj2 (Hcrypto example_crypto_ecc_key "secp256r1"%string
                         None false eq_refl))).
Defined.

(** * The usage byte *)

Lemma sum_cons (x : Z) (l : list Z) : sum (x :: l) = x + sum l.
Proof.
  unfold sum. simpl.
  assert (H : forall l a b, fold_left Z.add l (a + b) = a + fold_left Z.add l b).
  { clear. induction l as [| y l IH]; intros a b; simpl; [reflexivity |].
    rewrite <- Z.add_assoc. apply IH. }
  rewrite <- (H l x 0). now rewrite Z.add_0_r.
Qed.

Lemma land_pow2_testbit (m b : Z) :
  0 <= b -> (Z.land m (2 ^ b) =? 0) = negb (Z.testbit m b).
Proof.
  intros Hb. destruct (Z.testbit m b) eqn:E; simpl.
  - apply Z.eqb_neq. intros H.
    assert (Ht : Z.testbit (Z.land m (2 ^ b)) b = true).
    { rewrite Z.land_spec, E, Z.pow2_bits_true by assumption. reflexivity. }
    rewrite H, Z.bits_0 in Ht. discriminate.
  - apply Z.eqb_eq. apply Z.bits_inj'. intros n Hn.
    rewrite Z.land_spec, Z.bits_0, Z.pow2_bits_eqb by assumption.
    destruct (Z.eqb_spec b n) as [-> | _];
      [now rewrite E | apply andb_false_r].
Qed.

(** A sum of distinct powers of two has exactly the bits of its terms. *)
Lemma testbit_sum_of_bits (bs : list Z) :
  NoDup bs -> (forall b, In b bs -> 0 <= b) ->
  0 <= sum (map (Z.pow 2) bs)
  /\ forall j, 0 <= j ->
       Z.testbit (sum (map (Z.pow 2) bs)) j = mem j bs.
Proof.
  induction bs as [| b bs IH]; intros Hnd Hpos.
  - split; [reflexivity | intros j _; apply Z.bits_0].
  - inversion Hnd as [| ? ? Hnotin Hnd']; subst.
    destruct (IH Hnd' (fun x Hx => Hpos x (or_intror Hx))) as [Hge Hbits].
    assert (Hb : 0 <= b) by (apply Hpos; now left).
    simpl map. rewrite sum_cons.
    assert (Hland : Z.land (2 ^ b) (sum (map (Z.pow 2) bs)) = 0).
    { rewrite Z.land_comm. apply Z.eqb_eq.
      rewrite land_pow2_testbit, Hbits by assumption.
      apply mem_not_In in Hnotin. now rewrite Hnotin. }
    split.
    + pose proof (Z.pow_nonneg 2 b ltac:(lia)). lia.
    + intros j Hj. rewrite (Z.add_nocarry_lxor _ _ Hland).
      rewrite Z.lxor_spec, Z.pow2_bits_eqb, Hbits by assumption.
      unfold mem. simpl. rewrite (Z.eqb_sym j b).
      destruct (Z.eqb_spec b j) as [<- | _]; simpl; [| reflexivity].
      apply mem_not_In in Hnotin. unfold mem in Hnotin.
      now rewrite Hnotin.
Qed.

Lemma sum_of_bits_small (bs : list Z) (n : Z) :
  NoDup bs -> (forall b, In b bs -> 0 <= b < n) ->
  sum (map (Z.pow 2) bs) mod 2 ^ n = sum (map (Z.pow 2) bs).
Proof.
  intros Hnd Hrange.
  destruct (testbit_sum_of_bits bs Hnd (fun b Hb => proj1 (Hrange b Hb)))
    as [Hge Hbits].
  destruct bs as [| b0 bs'] eqn:Ebs; [apply Zmod_0_l |].
  rewrite <- Ebs in *.
  assert (Hn : 0 < n).
  { destruct (Hrange b0) as [? ?]; [rewrite Ebs; now left | lia]. }
  apply Z.bits_inj'. intros j Hj.
  destruct (Z.lt_ge_cases j n) as [Hlt | Hge'].
  - now apply Z.mod_pow2_bits_low.
  - rewrite Z.mod_pow2_bits_high by lia. symmetry.
    rewrite Hbits by assumption. apply mem_not_In.
    intros Hin. apply Hrange in Hin. lia.
Qed.

Section Usage.
Variable ot : Chip.
Hypothesis bits : bit_valued ot.

Let value := key_usage_value ot.
Let bit (ku : KeyUsage) : Z := Z.log2 (value ku).

Lemma bit_range (ku : KeyUsage) : 0 <= bit ku < 8 /\ value ku = 2 ^ bit ku.
Proof.
  destruct (proj1 bits ku) as [b [Hb Hv]]. unfold bit, value.
  rewrite Hv, Z.log2_pow2 by lia. auto.
Qed.

Lemma bit_injective (ku ku' : KeyUsage) : bit ku = bit ku' -> ku = ku'.
Proof.
  intros H. apply (proj2 bits).
  destruct (bit_range ku) as [_ E], (bit_range ku') as [_ E'].
  unfold value in E, E'. congruence.
Qed.

Lemma values_as_bits (flags : list KeyUsage) :
  map value flags = map (Z.pow 2) (map bit flags).
Proof.
  rewrite map_map. apply map_ext. intros ku. apply bit_range.
Qed.

Lemma NoDup_bits (flags : list KeyUsage) :
  NoDup flags -> NoDup (map bit flags).
Proof.
  induction 1 as [| ku l Hnotin Hnd IH]; simpl; constructor; [| assumption].
  intros Hin. apply in_map_iff in Hin. destruct Hin as [ku' [Heq Hin]].
  apply bit_injective in Heq. now subst.
Qed.

Lemma bits_in_range (flags : list KeyUsage) (b : Z) :
  In b (map bit flags) -> 0 <= b < 8.
Proof.
  intros Hin. apply in_map_iff in Hin. destruct Hin as [ku [<- _]].
  apply bit_range.
Qed.

(** The usage byte of a duplicate-free list of members is the plain sum of
    their values, and reading it back yields exactly these members. *)
Lemma usage_mask_decodes (flags : list KeyUsage) :
  NoDup flags ->
  usage_mask ot flags = sum (map (key_usage_value ot) flags)
  /\ forall ku, In ku (decode_usage ot (usage_mask ot flags)) <-> In ku flags.
Proof.
  intros Hnd. pose proof (NoDup_bits flags Hnd) as Hndb.
  assert (Hmask : usage_mask ot flags = sum (map value flags)).
  { unfold usage_mask, c_ubyte. fold value. rewrite values_as_bits.
    apply sum_of_bits_small; [assumption | apply bits_in_range]. }
  split; [exact Hmask |].
  intros ku. unfold decode_usage. rewrite filter_In.
  assert (Hall : In ku [KEY_AGR; AUTH; ENCRYPT; SIGN])
    by (destruct ku; simpl; auto).
  rewrite Hmask, values_as_bits. fold value.
  destruct (bit_range ku) as [Hb Hv]. rewrite Hv.
  rewrite land_pow2_testbit, negb_involutive by lia.
  destruct (testbit_sum_of_bits (map bit flags) Hndb
              (fun b Hb' => proj1 (bits_in_range flags b Hb'))) as [_ Hbits].
  rewrite Hbits by lia. rewrite mem_In, in_map_iff. split.
  - intros [_ [ku' [Heq Hin]]]. apply bit_injective in Heq. now subst.
  - intros Hin. split; [assumption |]. now exists ku.
Qed.

End Usage.

Lemma in_usage_flags (allowed : string -> option KeyUsage) (l : list string)
    (ku : KeyUsage) :
  In ku (usage_flags allowed l)
  <-> exists entry, In entry l /\ allowed entry = Some ku.
Proof.
  unfold usage_flags. rewrite in_flat_map. split.
  - intros [e [Hin Hku]]. exists e. split; [assumption |].
    destruct (allowed e) as [ku' |]; simpl in Hku; [| contradiction].
    destruct Hku as [-> | []]. reflexivity.
  - intros [e [Hin He]]. exists e. split; [assumption |].
    rewrite He. now left.
Qed.

Lemma NoDup_usage_flags (allowed : string -> option KeyUsage)
    (l : list string) :
  (forall entry ku, allowed entry = Some ku -> entry = usage_name ku) ->
  NoDup l -> NoDup (usage_flags allowed l).
Proof.
  intros Hname. induction 1 as [| e rest Hnotin Hnd IH]; simpl.
  - constructor.
  - destruct (allowed e) as [ku |] eqn:E; simpl; [| assumption].
    constructor; [| assumption].
    intros Hin. apply in_usage_flags in Hin.
    destruct Hin as [e' [Hin' He']].
    apply Hname in E. apply Hname in He'. congruence.
Qed.

Lemma usage_name_injective (ku ku' : KeyUsage) :
  usage_name ku = usage_name ku' -> ku = ku'.
Proof. destruct ku, ku'; simpl; intros H; congruence. Qed.

(** What a well-formed usage argument turns into, for a table [allowed]
    whose domain is [names]. *)
Lemma requested_usage_sound (ot : Chip) (allowed : string -> option KeyUsage)
    (names : list string) (key_usage : option (list string)) :
  bit_valued ot ->
  (forall entry, allowed entry <> None <-> In entry names) ->
  (forall entry ku, allowed entry = Some ku -> entry = usage_name ku) ->
  usage_request names key_usage ->
  exists flags,
    requested_usage allowed key_usage = Ok flags
    /\ requests key_usage flags
    /\ NoDup flags
    /\ usage_mask ot flags = sum (map (key_usage_value ot) flags)
    /\ forall ku,
        In ku (decode_usage ot (sum (map (key_usage_value ot) flags)))
        <-> In ku flags.
Proof.
  intros Hbits Hdom Hname Hreq. destruct key_usage as [l |]; simpl in *.
  - destruct Hreq as [_ [Hnd Hin]].
    exists (usage_flags allowed l).
    assert (Hall : forall e, In e l -> allowed e <> None)
      by (intros e He; apply Hdom; auto).
    split; [now apply collect_key_usage_ok with (acc := []) |].
    split.
    + intros ku. rewrite in_usage_flags. split.
      * intros [e [He Hku]]. apply Hname in Hku. now subst.
      * intros Hku. exists (usage_name ku). split; [assumption |].
        destruct (allowed (usage_name ku)) as [ku' |] eqn:E.
        -- apply Hname in E. apply usage_name_injective in E. now subst.
        -- now apply Hall in Hku.
    + pose proof (NoDup_usage_flags allowed l Hname Hnd) as Hndf.
      destruct (usage_mask_decodes ot Hbits (usage_flags allowed l) Hndf)
        as [Hm Hd].
      split; [assumption |]. split; [assumption |]. now rewrite <- Hm.
  - exists [KEY_AGR; SIGN].
    assert (Hnd : NoDup [KEY_AGR; SIGN]).
    { constructor; [simpl; intros [H | []]; discriminate |].
      constructor; [intros [] | constructor]. }
    destruct (usage_mask_decodes ot Hbits _ Hnd) as [Hm Hd].
    repeat split; try assumption; rewrite <- Hm; apply Hd.
Qed.

Lemma generate_outcome_calls {Self} (old new : Self) (w : World)
    (c : api_call) (r : api_result) :
  calls (snd (snd (generate_outcome old new w c r))) = calls w ++ [c].
Proof. unfold generate_outcome. now destruct (status r =? 0). Qed.

Lemma generate_outcome_ok {Self} (old new : Self) (w : World)
    (c : api_call) (r : api_result) :
  status r = 0 ->
  generate_outcome old new w c r = (Ok new, (new, after_call w c)).
Proof. intros H. unfold generate_outcome. now rewrite H. Qed.

(** C4.  With usage values that are bit values, and a usage argument that
    is absent or a non-empty set of names allowed for the key kind: the
    usage byte [generate] hands to the secure element is the sum of the
    values of the requested members, reading that byte back yields exactly
    the requested members, and a successful [generate] binds exactly these
    members.  For an absent argument the members are the default
    [KEY_AGR] and [SIGN], and the byte is the sum of these two values.
    The ECC methods of both files come first, the RSA methods second. *)
Theorem usage_bitmask_round_trip (ot : Chip) (w : World)
    (key_usage : option (list string)) :
  bit_valued ot ->
  (usage_request ecc_usage_names key_usage ->
   exists flags,
     let mask := sum (map (key_usage_value ot) flags) in
     requests key_usage flags
     /\ NoDup flags
     /\ (forall ku, In ku (decode_usage ot mask) <-> In ku flags)
     /\ (forall curve cv k,
         _str2curve_map curve = Some cv ->
         mem (Curves_value ot cv) (curves_values ot) = true ->
         let c := exp_optiga_crypt_ecc_generate_keypair
                    (Curves_value ot cv) mask 0
                    (byref_key_id (c_ushort (asymmetric.EccKey._key_id k)))
                    150 in
         let run := asymmetric.EccKey.generate ot curve key_usage (k, w) in
         calls (snd (snd run)) = calls w ++ [c]
         /\ (status (api ot (calls w) c) = 0 ->
             fst run = Ok (fst (snd run))
             /\ asymmetric.EccKey._key_usage (fst (snd run)) = Some flags))
     /\ (forall curve cv k export,
         _str2curve_map curve = Some cv ->
         mem (Curves_value ot cv) (curves_values ot) = true ->
         let c := exp_optiga_crypt_ecc_generate_keypair
                    (Curves_value ot cv) mask (Z.b2z export)
                    (key_argument export (crypto.ECCKey.id k)) 150 in
         let run := crypto.ECCKey.generate ot curve key_usage export (k, w) in
         calls (snd (snd run)) = calls w ++ [c]
         /\ (status (api ot (calls w) c) = 0 ->
             fst run = Ok (fst (snd run))
             /\ crypto.ECCKey._key_usage (fst (snd run)) = Some flags)))
  /\ (usage_request rsa_usage_names key_usage ->
      exists flags,
        let mask := sum (map (key_usage_value ot) flags) in
        requests key_usage flags
        /\ NoDup flags
        /\ (forall ku, In ku (decode_usage ot mask) <-> In ku flags)
        /\ (forall key_size k,
            mem key_size allowed_key_sizes = true ->
            let c := exp_optiga_crypt_ecc_generate_keypair
                       (rsa_keytype key_size) mask 0
                       (byref_key_id (c_ushort (asymmetric.RsaKey.id k)))
                       320 in
            let run :=
              asymmetric.RsaKey.generate ot key_size key_usage (k, w) in
            calls (snd (snd run)) = calls w ++ [c]
            /\ (status (api ot (calls w) c) = 0 ->
                fst run = Ok (fst (snd run))
                /\ asymmetric.RsaKey._key_usage (fst (snd run))
                   = Some flags))
        /\ (forall key_size k export,
            mem key_size allowed_key_sizes = true ->
            let c := exp_optiga_crypt_ecc_generate_keypair
                       (rsa_keytype key_size) mask (Z.b2z export)
                       (key_argument export (crypto.RSAKey.id k)) 320 in
            let run :=
              crypto.RSAKey.generate ot key_size key_usage export (k, w) in
            calls (snd (snd run)) = calls w ++ [c]
            /\ (status (api ot (calls w) c) = 0 ->
                fst run = Ok (fst (snd run))
                /\ crypto.RSAKey._key_usage (fst (snd run)) = Some flags))).
Proof.
  intros Hbits. split; intros Hreq.
  - destruct (requested_usage_sound ot asymmetric.EccKey._allowed_key_usage
                ecc_usage_names key_usage Hbits ecc_allowed_domain
                (fun e ku H => proj1 (ecc_allowed_names e ku H)) Hreq)
      as [flags [Hu [Hr [Hndf [Hm Hd]]]]].
    exists flags. cbv zeta. split; [assumption |]. split; [assumption |].
    split; [assumption |]. split.
    + intros curve cv k Hc Hmem.
      rewrite (asymmetric_ecc_generate_calls ot k w curve key_usage flags cv
                 Hu Hc Hmem).
      unfold keypair_call. rewrite Hm. split.
      * apply generate_outcome_calls.
      * intros Hs. rewrite generate_outcome_ok by assumption. now simpl.
    + intros curve cv k export Hc Hmem.
      rewrite (crypto_ecc_generate_calls ot k w curve key_usage export flags
                 cv Hu Hc Hmem).
      unfold keypair_call. rewrite Hm. split.
      * apply generate_outcome_calls.
      * intros Hs. rewrite generate_outcome_ok by assumption. now simpl.
  - destruct (requested_usage_sound ot asymmetric.RsaKey._allowed_key_usages
                rsa_usage_names key_usage Hbits rsa_allowed_domain
                rsa_allowed_names Hreq)
      as [flags [Hu [Hr [Hndf [Hm Hd]]]]].
    exists flags. cbv zeta. split; [assumption |]. split; [assumption |].
    split; [assumption |]. split.
    + intros key_size k Hmem.
      rewrite (asymmetric_rsa_generate_calls ot k w key_size key_usage flags
                 Hu Hmem).
      unfold keypair_call. rewrite Hm. split.
      * apply generate_outcome_calls.
      * intros Hs. rewrite generate_outcome_ok by assumption. now simpl.
    + intros key_size k export Hmem.
      rewrite (crypto_rsa_generate_calls ot k w key_size key_usage export
                 flags Hu Hmem).
      unfold keypair_call. rewrite Hm. split.
      * apply generate_outcome_calls.
      * intros Hs. rewrite generate_outcome_ok by assumption. now simpl.
Qed.

Lemma example_chip_bit_valued
    (native : list api_call -> api_call -> api_result) :
  bit_valued (example_chip native).
Proof.
  split.
  - intros [| | |]; [exists 5 | exists 0 | exists 1 | exists 4];
      (split; [lia | reflexivity]).
  - intros [| | |] [| | |]; simpl; intros H;
      try reflexivity; discriminate.
Qed.

Lemma usage_bitmask_round_trip_witness :
  exists flags,
    requests (Some ["signature"; "authentication"]%string) flags
    /\ sum (map example_key_usage_value flags) = 0x11
    /\ calls (snd (snd (asymmetric.EccKey.generate
                          (example_chip (answers (example_answer 0 [4; 1])))
                          "secp256r1"
                          (Some ["signature"; "authentication"]%string)
                          (example_asymmetric_ecc_key, empty_world))))
       = [exp_optiga_crypt_ecc_generate_keypair 0x03 0x11 0
            (byref_key_id 0xE0F0) 150]
    /\ forall ku,
        In ku (decode_usage (example_chip (answers (example_answer 0 [4; 1])))
                            0x11)
        <-> In ku flags.
Proof.
  destruct (proj1 (usage_bitmask_round_trip
                     (example_chip (answers (example_answer 0 [4; 1])))
                     empty_world
                     (Some ["signature"; "authentication"]%string)
                     (example_chip_bit_valued _)))
    as [flags [Hr [Hnd [Hd [Hasym _]]]]].
  { simpl. split; [discriminate |]. split.
    - constructor; [simpl; intros [H | []]; discriminate |].
      constructor; [intros [] | constructor].
    - simpl. intros e [<- | [<- | []]]; auto. }
  exists flags.
  destruct (Hasym "secp256r1"%string SEC_P256R1 example_asymmetric_ecc_key
              eq_refl eq_refl) as [Hcalls _].
  vm_compute in Hcalls. injection Hcalls as Hmask.
  split; [assumption |]. split; [now symmetry |].
  split; [reflexivity |]. now rewrite Hmask.
Defined.

(** * Usage names outside the domain of the key kind *)

Lemma requested_usage_foreign (allowed : string -> option KeyUsage)
    (names l : list string) :
  (forall entry, allowed entry <> None <-> In entry names) ->
  (exists entry, In entry l /\ ~ In entry names) ->
  exists entry,
    In entry l /\ ~ In entry names
    /\ requested_usage allowed (Some l)
       = Raise (ValueError (msg_wrong_key_usage entry)).
Proof.
  intros Hdom [e [Hin Hout]].
  destruct (collect_key_usage_raises allowed l []) as [e' [Hin' [He' Hr]]].
  - exists e. split; [assumption |].
    destruct (allowed e) eqn:E; [| reflexivity].
    exfalso. apply Hout, Hdom. congruence.
  - exists e'. repeat split; try assumption.
    intros H. apply Hdom in H. contradiction.
Qed.

Lemma requested_usage_admitted (allowed : string -> option KeyUsage)
    (names l : list string) :
  (forall entry, allowed entry <> None <-> In entry names) ->
  (forall entry, In entry l -> In entry names) ->
  requested_usage allowed (Some l) = Ok (usage_flags allowed l).
Proof.
  intros Hdom Hall. simpl.
  apply collect_key_usage_ok with (acc := []).
  intros e He. apply Hdom. auto.
Qed.

(** C8.  The ECC [generate] methods admit the usage names key_agreement,
    authentication and signature and no other: a usage argument that holds
    any other name makes them raise the usage error
    ([UnsupportedUsageFlag]) for such a name, with the key object and the
    world untouched, so no call reaches the secure element; this is what
    happens for the usage set that holds encryption alone.  The RSA
    [generate] methods admit these three names and encryption: with any
    usage argument drawn from the four names and a legal key size they go
    on to call the secure element with the usage byte of the named
    members.  Both files agree. *)
Theorem ecc_generate_rejects_foreign_usage (ot : Chip) (w : World) :
  (forall entry,
      (asymmetric.EccKey._allowed_key_usage entry <> None
       <-> In entry ["key_agreement"; "authentication"; "signature"]%string)
      /\ (crypto.ECCKey._allowed_key_usage entry <> None
          <-> In entry ["key_agreement"; "authentication";
                        "signature"]%string)
      /\ (asymmetric.RsaKey._allowed_key_usages entry <> None
          <-> In entry ["key_agreement"; "authentication"; "encryption";
                        "signature"]%string)
      /\ (crypto.RSAKey._allowed_key_usages entry <> None
          <-> In entry ["key_agreement"; "authentication"; "encryption";
                        "signature"]%string))
  /\ (forall l,
      (exists entry, In entry l /\ ~ In entry ecc_usage_names) ->
      exists entry,
        In entry l /\ ~ In entry ecc_usage_names
        /\ kind_of (ValueError (msg_wrong_key_usage entry))
           = UnsupportedUsageFlag
        /\ (forall k curve,
            asymmetric.EccKey.generate ot curve (Some l) (k, w)
            = (Raise (ValueError (msg_wrong_key_usage entry)), (k, w)))
        /\ (forall k curve export,
            crypto.ECCKey.generate ot curve (Some l) export (k, w)
            = (Raise (ValueError (msg_wrong_key_usage entry)), (k, w))))
  /\ (forall k curve,
      asymmetric.EccKey.generate ot curve (Some ["encryption"%string]) (k, w)
      = (Raise (ValueError (msg_wrong_key_usage "encryption")), (k, w)))
  /\ (forall k curve export,
      crypto.ECCKey.generate ot curve (Some ["encryption"%string]) export
                             (k, w)
      = (Raise (ValueError (msg_wrong_key_usage "encryption")), (k, w)))
  /\ (forall l,
      (forall entry, In entry l -> In entry rsa_usage_names) ->
      (forall key_size k,
          mem key_size allowed_key_sizes = true ->
          calls (snd (snd (asymmetric.RsaKey.generate ot key_size (Some l)
                             (k, w))))
          = calls w ++ [exp_optiga_crypt_ecc_generate_keypair
                          (rsa_keytype key_size)
                          (usage_mask ot
                             (usage_flags
                                asymmetric.RsaKey._allowed_key_usages l))
                          0
                          (byref_key_id (c_ushort (asymmetric.RsaKey.id k)))
                          320])
      /\ (forall key_size k export,
          mem key_size allowed_key_sizes = true ->
          calls (snd (snd (crypto.RSAKey.generate ot key_size (Some l) export
                             (k, w))))
          = calls w ++ [exp_optiga_crypt_ecc_generate_keypair
                          (rsa_keytype key_size)
                          (usage_mask ot
                             (usage_flags crypto.RSAKey._allowed_key_usages l))
                          (Z.b2z export)
                          (key_argument export (crypto.RSAKey.id k)) 320]))
  /\ usage_flags asymmetric.RsaKey._allowed_key_usages ["encryption"%string]
     = [ENCRYPT]
  /\ usage_flags crypto.RSAKey._allowed_key_usages ["encryption"%string]
     = [ENCRYPT].
Proof.
  split; [| split; [| split; [| split; [| split; [| split]]]]];
    try reflexivity.
  - intros entry. repeat split;
      first [ apply ecc_allowed_domain | apply rsa_allowed_domain ].
  - intros l Hex.
    destruct (requested_usage_foreign asymmetric.EccKey._allowed_key_usage
                ecc_usage_names l ecc_allowed_domain Hex)
      as [e [Hin [Hout Hr]]].
    exists e. repeat split; try assumption.
    + intros k curve.
      now apply asymmetric_ecc_generate_usage_raises.
    + intros k curve export.
      now apply crypto_ecc_generate_usage_raises.
  - intros l Hall.
    pose proof (requested_usage_admitted asymmetric.RsaKey._allowed_key_usages
                  rsa_usage_names l rsa_allowed_domain Hall) as Hu.
    split.
    + intros key_size k Hm.
      rewrite (asymmetric_rsa_generate_calls ot k w key_size (Some l) _
                 Hu Hm).
      apply generate_outcome_calls.
    + intros key_size k export Hm.
      rewrite (crypto_rsa_generate_calls ot k w key_size (Some l) export _
                 Hu Hm).
      apply generate_outcome_calls.
Qed.

(** * RSA key generation *)

Lemma allowed_key_sizes_spec (key_size : Z) :
  mem key_size allowed_key_sizes = true
  <-> key_size = 1024 \/ key_size = 2048.
Proof.
  rewrite mem_In. unfold allowed_key_sizes. simpl. intuition congruence.
Qed.

Lemma pub_key_of_fits (cap : Z) (r : api_result) (raw : bytes) :
  out r = raw -> out_len r = Z.of_nat (length raw) ->
  Z.of_nat (length raw) <= cap -> cap < 2 ^ 16 ->
  pub_key_of cap r = raw.
Proof.
  intros Hout Hlen Hfit Hcap. unfold pub_key_of, memmove, buffer_after.
  rewrite Hout, Hlen.
  assert (HL : c_ushort (Z.of_nat (length raw)) = Z.of_nat (length raw))
    by (apply Z.mod_small; lia).
  rewrite HL, Nat2Z.id, c_ubyte_array_fits by assumption.
  rewrite firstn_app, firstn_all, Nat.sub_diag. simpl.
  rewrite app_nil_r, skipn_all2 by (rewrite length_c_ubyte_zeros; lia).
  apply app_nil_r.
Qed.

Lemma rsa_usage_admitted_requested (key_usage : option (list string)) :
  rsa_usage_admitted key_usage ->
  exists flags,
    requested_usage asymmetric.RsaKey._allowed_key_usages key_usage
    = Ok flags.
Proof.
  destruct key_usage as [l |]; intros H.
  - eexists. exact (requested_usage_admitted _ _ l rsa_allowed_domain H).
  - eexists. reflexivity.
Qed.

(** C5, as the code has it.  An RSA [generate] with key size 1024 or 2048
    and a usage argument that passes makes one call on the secure element
    with a buffer of 320 bytes; when that call returns status zero, having
    left the public key bytes [raw] in the buffer and reported their length,
    the method returns the key object with the public key bound to the DER
    prefix of that key size followed by [raw].  Every RSA [generate] that
    succeeds has made such a call, and for 2048 the prefix is the 19-byte
    constant that starts 30 82 01 22.  With any other key size [generate]
    raises before any call is made and leaves the object untouched: the
    key-size error ([UnsupportedKeySize]) when the usage argument is absent
    or holds only the four usage names, and the usage error
    ([UnsupportedUsageFlag]) for the first other name it holds, since the
    usage argument is checked first.  Both files agree. *)
Theorem rsa_generate_public_key (ot : Chip) (w : World) (key_size : Z)
    (key_usage : option (list string)) :
  (key_size = 1024 \/ key_size = 2048 ->
   (forall flags raw,
       requested_usage asymmetric.RsaKey._allowed_key_usages key_usage
       = Ok flags ->
       Z.of_nat (length raw) <= 320 ->
       (forall k,
           let c := exp_optiga_crypt_ecc_generate_keypair
                      (rsa_keytype key_size) (usage_mask ot flags) 0
                      (byref_key_id (c_ushort (asymmetric.RsaKey.id k)))
                      320 in
           let r := api ot (calls w) c in
           status r = 0 -> out r = raw -> out_len r = Z.of_nat (length raw) ->
           exists k',
             asymmetric.RsaKey.generate ot key_size key_usage (k, w)
             = (Ok k', (k', after_call w c))
             /\ asymmetric.RsaKey._pkey k'
                = Some (rsa_header key_size ++ raw))
       /\ (forall k export,
           let c := exp_optiga_crypt_ecc_generate_keypair
                      (rsa_keytype key_size) (usage_mask ot flags)
                      (Z.b2z export)
                      (key_argument export (crypto.RSAKey.id k)) 320 in
           let r := api ot (calls w) c in
           status r = 0 -> out r = raw -> out_len r = Z.of_nat (length raw) ->
           exists k',
             crypto.RSAKey.generate ot key_size key_usage export (k, w)
             = (Ok k', (k', after_call w c))
             /\ crypto.RSAKey._pkey k' = Some (rsa_header key_size ++ raw)))
   /\ (forall k k' st',
       asymmetric.RsaKey.generate ot key_size key_usage (k, w)
       = (Ok k', st') ->
       exists c,
         st' = (k', after_call w c)
         /\ status (api ot (calls w) c) = 0
         /\ capacity c = 320
         /\ asymmetric.RsaKey._pkey k'
            = Some (rsa_header key_size ++ pub_key_of 320 (api ot (calls w) c))
         /\ (forall raw,
             out (api ot (calls w) c) = raw ->
             out_len (api ot (calls w) c) = Z.of_nat (length raw) ->
             Z.of_nat (length raw) <= capacity c ->
             asymmetric.RsaKey._pkey k'
             = Some (rsa_header key_size ++ raw)))
   /\ (forall k export k' st',
       crypto.RSAKey.generate ot key_size key_usage export (k, w)
       = (Ok k', st') ->
       exists c,
         st' = (k', after_call w c)
         /\ status (api ot (calls w) c) = 0
         /\ capacity c = 320
         /\ crypto.RSAKey._pkey k'
            = Some (rsa_header key_size ++ pub_key_of 320 (api ot (calls w) c))
         /\ (forall raw,
             out (api ot (calls w) c) = raw ->
             out_len (api ot (calls w) c) = Z.of_nat (length raw) ->
             Z.of_nat (length raw) <= capacity c ->
             crypto.RSAKey._pkey k' = Some (rsa_header key_size ++ raw))))
  /\ rsa_header 1024
     = [0x30; 0x81; 0x9F; 0x30; 0x0D; 0x06; 0x09; 0x2A; 0x86; 0x48; 0x86;
        0xF7; 0x0D; 0x01; 0x01; 0x01; 0x05; 0x00]
  /\ rsa_header 2048
     = [0x30; 0x82; 0x01; 0x22; 0x30; 0x0d; 0x06; 0x09; 0x2a; 0x86; 0x48;
        0x86; 0xf7; 0x0d; 0x01; 0x01; 0x01; 0x05; 0x00]
  /\ (key_size <> 1024 /\ key_size <> 2048 ->
      (rsa_usage_admitted key_usage ->
       kind_of (ValueError (msg_key_size key_size)) = UnsupportedKeySize
       /\ (forall k,
           asymmetric.RsaKey.generate ot key_size key_usage (k, w)
           = (Raise (ValueError (msg_key_size key_size)), (k, w)))
       /\ (forall k export,
           crypto.RSAKey.generate ot key_size key_usage export (k, w)
           = (Raise (ValueError (msg_key_size key_size)), (k, w))))
      /\ (forall l entry,
          key_usage = Some l ->
          first_foreign rsa_usage_names l = Some entry ->
          In entry l /\ ~ In entry rsa_usage_names
          /\ kind_of (ValueError (msg_wrong_key_usage entry))
             = UnsupportedUsageFlag
          /\ (forall k,
              asymmetric.RsaKey.generate ot key_size key_usage (k, w)
              = (Raise (ValueError (msg_wrong_key_usage entry)), (k, w)))
          /\ (forall k export,
              crypto.RSAKey.generate ot key_size key_usage export (k, w)
              = (Raise (ValueError (msg_wrong_key_usage entry)), (k, w))))
      /\ (rsa_usage_admitted key_usage
          \/ exists l entry,
              key_usage = Some l
              /\ first_foreign rsa_usage_names l = Some entry)).
Proof.
  split; [| split; [reflexivity | split; [reflexivity |]]].
  - intros Hsize. apply allowed_key_sizes_spec in Hsize.
    split; [| split].
    + intros flags raw Hu Hfit. split.
      * intros k c r Hs Hout Hlen. subst r c. eexists.
        rewrite (asymmetric_rsa_generate_calls ot k w key_size key_usage flags
                   Hu Hsize).
        unfold generate_outcome, keypair_call. rewrite Hs. simpl.
        split; [reflexivity |].
        rewrite (pub_key_of_fits 320 _ raw Hout Hlen Hfit); [reflexivity |].
        reflexivity.
      * intros k export c r Hs Hout Hlen. subst r c. eexists.
        rewrite (crypto_rsa_generate_calls ot k w key_size key_usage export
                   flags Hu Hsize).
        unfold generate_outcome, keypair_call. rewrite Hs. simpl.
        split; [reflexivity |].
        rewrite (pub_key_of_fits 320 _ raw Hout Hlen Hfit); [reflexivity |].
        reflexivity.
    + intros k k' st' Hrun.
      destruct (requested_usage_cases asymmetric.RsaKey._allowed_key_usages
                  key_usage) as [[flags Hu] | [entry Hu]].
      2: { rewrite (asymmetric_rsa_generate_usage_raises ot k w key_size
                      key_usage _ Hu) in Hrun. discriminate. }
      rewrite (asymmetric_rsa_generate_calls ot k w key_size key_usage flags
                 Hu Hsize) in Hrun.
      unfold generate_outcome in Hrun.
      destruct (status _ =? 0) eqn:Hs; [| discriminate].
      injection Hrun as <- <-. eexists. split; [reflexivity |].
      split; [now apply Z.eqb_eq |]. split; [reflexivity |].
      split; [reflexivity |].
      intros raw Hout Hlen Hfit. simpl.
      now rewrite (pub_key_of_fits 320 _ raw Hout Hlen Hfit).
    + intros k export k' st' Hrun.
      destruct (requested_usage_cases crypto.RSAKey._allowed_key_usages
                  key_usage) as [[flags Hu] | [entry Hu]].
      2: { rewrite (crypto_rsa_generate_usage_raises ot k w key_size
                      key_usage export _ Hu) in Hrun. discriminate. }
      rewrite (crypto_rsa_generate_calls ot k w key_size key_usage export
                 flags Hu Hsize) in Hrun.
      unfold generate_outcome in Hrun.
      destruct (status _ =? 0) eqn:Hs; [| discriminate].
      injection Hrun as <- <-. eexists. split; [reflexivity |].
      split; [now apply Z.eqb_eq |]. split; [reflexivity |].
      split; [reflexivity |].
      intros raw Hout Hlen Hfit. simpl.
      now rewrite (pub_key_of_fits 320 _ raw Hout Hlen Hfit).
  - intros Hsize.
    assert (Hm : mem key_size allowed_key_sizes = false).
    { destruct (mem key_size allowed_key_sizes) eqn:E; [| reflexivity].
      apply allowed_key_sizes_spec in E. lia. }
    split; [| split].
    + intros Hadm.
      destruct (rsa_usage_admitted_requested key_usage Hadm) as [flags Hu].
      split; [reflexivity |]. split.
      * intros k.
        exact (asymmetric_rsa_generate_size_raises ot k w key_size key_usage
                 flags Hu Hm).
      * intros k export.
        exact (crypto_rsa_generate_size_raises ot k w key_size key_usage
                 export flags Hu Hm).
    + intros l entry -> Hf.
      pose proof (first_foreign_spec rsa_usage_names l) as Hspec.
      rewrite Hf in Hspec. destruct Hspec as [Hin Hout].
      split; [assumption |]. split; [assumption |].
      split; [reflexivity |].
      assert (Hu : requested_usage asymmetric.RsaKey._allowed_key_usages
                     (Some l)
                   = Raise (ValueError (msg_wrong_key_usage entry))).
      { simpl.
        rewrite (collect_key_usage_first_foreign _ rsa_usage_names l []
                   rsa_allowed_domain).
        now rewrite Hf. }
      split.
      * intros k.
        exact (asymmetric_rsa_generate_usage_raises ot k w key_size _ _ Hu).
      * intros k export.
        exact (crypto_rsa_generate_usage_raises ot k w key_size _ export _
                 Hu).
    + destruct key_usage as [l |]; [| left; exact I].
      pose proof (first_foreign_spec rsa_usage_names l) as Hspec.
      destruct (first_foreign rsa_usage_names l) as [entry |] eqn:Hf.
      * right. now exists l, entry.
      * left. exact Hspec.
Qed.

Lemma rsa_generate_public_key_witness :
  asymmetric.RsaKey._pkey
    (fst (snd (asymmetric.RsaKey.generate
                 (example_chip (answers (example_answer 0 [0x03; 0x82; 0x01])))
                 2048 None (example_asymmetric_rsa_key, empty_world))))
  = Some (rsa_header_2048 ++ [0x03; 0x82; 0x01])
  /\ (exists k',
         crypto.RSAKey.generate
           (example_chip (answers (example_answer 0 [0x03; 0x82; 0x01])))
           1024 (Some ["encryption"%string]) false
           (example_crypto_rsa_key, empty_world)
         = (Ok k',
            (k', {| calls := [exp_optiga_crypt_ecc_generate_keypair
                                0x41 0x02 0 (byref_key_id 0xE0FC) 320];
                    warnings := [] |}))
         /\ crypto.RSAKey._pkey k'
            = Some (rsa_header_1024 ++ [0x03; 0x82; 0x01]))
  /\ crypto.RSAKey.generate
       (example_chip (answers (example_answer 0 [0x03; 0x82; 0x01])))
       512 (Some ["signature"%string]) false
       (example_crypto_rsa_key, empty_world)
     = (Raise (ValueError (msg_key_size 512)),
        (example_crypto_rsa_key, empty_world))
  /\ asymmetric.RsaKey.generate
       (example_chip (answers (example_answer 0 [0x03; 0x82; 0x01])))
       512 (Some ["signature"; "timestamping"; "notarising"]%string)
       (example_asymmetric_rsa_key, empty_world)
     = (Raise (ValueError (msg_wrong_key_usage "timestamping")),
        (example_asymmetric_rsa_key, empty_world)).
Proof.
  split; [| split; [| split]].
  - destruct (rsa_generate_public_key
                (example_chip (answers (example_answer 0 [0x03; 0x82; 0x01])))
                empty_world 2048 None) as [Hok _].
    destruct (proj1 (proj2 (Hok (or_intror eq_refl)))
                example_asymmetric_rsa_key _ _ eq_refl)
      as [c [_ [_ [Hcap [_ Hraw]]]]].
    apply Hraw; [reflexivity | reflexivity |].
    rewrite Hcap. vm_compute. congruence.
  - destruct (rsa_generate_public_key
                (example_chip (answers (example_answer 0 [0x03; 0x82; 0x01])))
                empty_world 1024 (Some ["encryption"%string])) as [Hok _].
    destruct (proj1 (Hok (or_introl eq_refl))
                [ENCRYPT] [0x03; 0x82; 0x01] eq_refl
                ltac:(vm_compute; congruence)) as [_ Hcrypto].
    exact (Hcrypto example_crypto_rsa_key false eq_refl eq_refl eq_refl).
  - destruct (rsa_generate_public_key
                (example_chip (answers (example_answer 0 [0x03; 0x82; 0x01])))
                empty_world 512 (Some ["signature"%string]))
      as [_ [_ [_ Hbad]]].
    destruct (Hbad ltac:(split; discriminate)) as [Hsize _].
    apply Hsize. simpl. intros e [<- | []]. simpl. auto.
  - destruct (rsa_generate_public_key
                (example_chip (answers (example_answer 0 [0x03; 0x82; 0x01])))
                empty_world 512
                (Some ["signature"; "timestamping"; "notarising"]%string))
      as [_ [_ [_ Hbad]]].
    destruct (Hbad ltac:(split; discriminate)) as [_ [Husage _]].
    destruct (Husage _ "timestamping"%string eq_refl eq_refl)
      as [_ [_ [_ [Hasym _]]]].
    apply Hasym.
Defined.

(** The key-size claim fails as stated: with key size 512 and a usage name
    outside the four, [generate] raises the usage error, not the key-size
    error. *)
Lemma rsa_generate_key_size_counterexample :
  asymmetric.RsaKey.generate (example_chip (answers (example_answer 0 [])))
    512 (Some ["timestamping"%string]) (example_asymmetric_rsa_key, empty_world)
  = (Raise (ValueError (msg_wrong_key_usage "timestamping")),
     (example_asymmetric_rsa_key, empty_world))
  /\ crypto.RSAKey.generate (example_chip (answers (example_answer 0 [])))
       512 (Some ["timestamping"%string]) false
       (example_crypto_rsa_key, empty_world)
     = (Raise (ValueError (msg_wrong_key_usage "timestamping")),
        (example_crypto_rsa_key, empty_world))
  /\ kind_of (ValueError (msg_wrong_key_usage "timestamping"))
     = UnsupportedUsageFlag
  /\ kind_of (ValueError (msg_wrong_key_usage "timestamping"))
     <> UnsupportedKeySize.
Proof. repeat split; discriminate. Qed.

(** * RSA signing *)

Lemma sha_digest_arrays (hashlib : Hashlib) (d : bytes) :
  c_ubyte_array 32 (sha256 hashlib d) = sha256 hashlib d
  /\ c_ubyte_array 48 (sha384 hashlib d) = sha384 hashlib d
  /\ length (sha256 hashlib d) = 32%nat
  /\ length (sha384 hashlib d) = 48%nat.
Proof.
  pose proof (sha256_digest_size hashlib d) as H256.
  pose proof (sha384_digest_size hashlib d) as H384.
  repeat split; try assumption;
    apply c_ubyte_array_exact; rewrite ?H256, ?H384; reflexivity.
Qed.

Lemma asymmetric_pkcs1v15_sign_paths (ot : Chip) (hashlib : Hashlib)
    (k : asymmetric.RsaKey.t) (data : pyobj) (hash_algorithm : string)
    (w : World) :
  let run := asymmetric.RsaKey.pkcs1v15_sign ot hashlib data hash_algorithm
               (k, w) in
  (payload data = None -> run = (Raise (refusal data), (k, w)))
  /\ (forall d, payload data = Some d ->
      if String.eqb hash_algorithm "sha256" || String.eqb hash_algorithm "sha384"
      then
        let c := rsa_sign_call hashlib hash_algorithm d
                   (asymmetric.RsaKey.id k) in
        let r := api ot (calls w) c in
        run = ((if status r =? 0
                then Ok (asymmetric.RsaPkcs1v15Signature hash_algorithm
                           (asymmetric.RsaKey.id k) (rsa_signature_of r))
                else Raise (IOError (msg_cant_be_executed (status r)))),
               (k, after_call (advised data w) c))
      else run = (Raise (ValueError (msg_hash_algorithm hash_algorithm)),
                  (k, advised data w))).
Proof.
  intros run. subst run. split.
  - intros Hd. unfold asymmetric.RsaKey.pkcs1v15_sign, bind.
    now rewrite to_bytes_raises.
  - intros d Hd. unfold asymmetric.RsaKey.pkcs1v15_sign, bind.
    rewrite (to_bytes_runs data d) by assumption.
    destruct (sha_digest_arrays hashlib d) as [H1 [H2 [H3 H4]]].
    unfold rsa_sign_call, rsa_signature_of, after_call.
    destruct (String.eqb hash_algorithm "sha256") eqn:E1; simpl.
    + unfold ret, raise, get_self, invoke; simpl.
      rewrite H1, H3, !calls_advised.
      change (c_uint 320) with 320. change (Z.of_nat 32) with 32.
      destruct (status _ =? 0); reflexivity.
    + destruct (String.eqb hash_algorithm "sha384") eqn:E2; simpl;
        [| reflexivity].
      unfold ret, raise, get_self, invoke; simpl.
      rewrite H2, H4, !calls_advised.
      change (c_uint 320) with 320. change (Z.of_nat 48) with 48.
      destruct (status _ =? 0); reflexivity.
Qed.

Lemma crypto_pkcs1v15_sign_paths (ot : Chip) (hashlib : Hashlib)
    (k : crypto.RSAKey.t) (data : pyobj) (hash_algorithm : string)
    (w : World) :
  let run := crypto.RSAKey.pkcs1v15_sign ot hashlib data hash_algorithm
               (k, w) in
  (payload data = None -> run = (Raise (refusal data), (k, w)))
  /\ (forall d, payload data = Some d ->
      if String.eqb hash_algorithm "sha256" || String.eqb hash_algorithm "sha384"
      then
        let c := rsa_sign_call hashlib hash_algorithm d
                   (crypto.RSAKey.id k) in
        let r := api ot (calls w) c in
        run = ((if status r =? 0
                then Ok (crypto.PKCS1v15Signature hash_algorithm
                           (crypto.RSAKey.id k) (rsa_signature_of r))
                else Raise (IOError (msg_cant_be_executed (status r)))),
               (k, after_call (advised data w) c))
      else run = (Raise (ValueError (msg_hash_algorithm hash_algorithm)),
                  (k, advised data w))).
Proof.
  intros run. subst run. split.
  - intros Hd. unfold crypto.RSAKey.pkcs1v15_sign, bind.
    now rewrite to_bytes_raises.
  - intros d Hd. unfold crypto.RSAKey.pkcs1v15_sign, bind.
    rewrite (to_bytes_runs data d) by assumption.
    destruct (sha_digest_arrays hashlib d) as [H1 [H2 [H3 H4]]].
    unfold rsa_sign_call, rsa_signature_of, after_call.
    destruct (String.eqb hash_algorithm "sha256") eqn:E1; simpl.
    + unfold ret, raise, get_self, invoke; simpl.
      rewrite H1, H3, !calls_advised.
      change (c_uint 320) with 320. change (Z.of_nat 32) with 32.
      destruct (status _ =? 0); reflexivity.
    + destruct (String.eqb hash_algorithm "sha384") eqn:E2; simpl;
        [| reflexivity].
      unfold ret, raise, get_self, invoke; simpl.
      rewrite H2, H4, !calls_advised.
      change (c_uint 320) with 320. change (Z.of_nat 48) with 48.
      destruct (status _ =? 0); reflexivity.
Qed.

Lemma hash_algorithm_refused (hash_algorithm : string) :
  hash_algorithm <> "sha256"%string /\ hash_algorithm <> "sha384"%string ->
  String.eqb hash_algorithm "sha256" || String.eqb hash_algorithm "sha384"
  = false.
Proof.
  intros [H1 H2]. apply String.eqb_neq in H1, H2. now rewrite H1, H2.
Qed.

Lemma hash_algorithm_accepted (hash_algorithm : string) :
  hash_algorithm = "sha256"%string \/ hash_algorithm = "sha384"%string ->
  String.eqb hash_algorithm "sha256" || String.eqb hash_algorithm "sha384"
  = true.
Proof. intros [-> | ->]; reflexivity. Qed.

(** C7, as the code has it.  [pkcs1v15_sign] goes on to the secure element
    exactly for the hash names sha256 and sha384, with the digest and the
    scheme code of that name.  For every other hash name it raises before
    any call is made and leaves the key object as it was.  The error it
    raises then depends on the data, which is converted first: the hash
    error ([UnsupportedHashAlgorithm]) for bytes, a bytearray or a string
    that UTF-8 can encode, the data-type error ([InvalidInputType]) for data
    that is none of the three, and [UnicodeEncodeError] for a string that
    UTF-8 cannot encode.  One of the three is the case for every data.
    Both files agree. *)
Theorem pkcs1v15_sign_hash_algorithms (ot : Chip) (hashlib : Hashlib)
    (data : pyobj) (hash_algorithm : string) (w : World) :
  (hash_algorithm <> "sha256"%string /\ hash_algorithm <> "sha384"%string ->
   (forall d, payload data = Some d ->
       kind_of (ValueError (msg_hash_algorithm hash_algorithm))
       = UnsupportedHashAlgorithm
       /\ calls (advised data w) = calls w
       /\ (forall k,
           asymmetric.RsaKey.pkcs1v15_sign ot hashlib data hash_algorithm
                                           (k, w)
           = (Raise (ValueError (msg_hash_algorithm hash_algorithm)),
              (k, advised data w)))
       /\ (forall k,
           crypto.RSAKey.pkcs1v15_sign ot hashlib data hash_algorithm (k, w)
           = (Raise (ValueError (msg_hash_algorithm hash_algorithm)),
              (k, advised data w))))
   /\ (binary_or_text data = false ->
       kind_of (TypeError msg_data_type) = InvalidInputType
       /\ (forall k,
           asymmetric.RsaKey.pkcs1v15_sign ot hashlib data hash_algorithm
                                           (k, w)
           = (Raise (TypeError msg_data_type), (k, w)))
       /\ (forall k,
           crypto.RSAKey.pkcs1v15_sign ot hashlib data hash_algorithm (k, w)
           = (Raise (TypeError msg_data_type), (k, w))))
   /\ (forall s e,
       data = PyStr s -> encode s = Raise e ->
       (exists start, 0 <= start /\ e = UnicodeEncodeError start)
       /\ kind_of e = Unclassified
       /\ (forall k,
           asymmetric.RsaKey.pkcs1v15_sign ot hashlib data hash_algorithm
                                           (k, w)
           = (Raise e, (k, w)))
       /\ (forall k,
           crypto.RSAKey.pkcs1v15_sign ot hashlib data hash_algorithm (k, w)
           = (Raise e, (k, w)))))
  /\ ((exists d, payload data = Some d)
      \/ binary_or_text data = false
      \/ (exists s e, data = PyStr s /\ encode s = Raise e))
  /\ (hash_algorithm = "sha256"%string \/ hash_algorithm = "sha384"%string ->
      forall d, payload data = Some d ->
      (forall k,
          calls (snd (snd (asymmetric.RsaKey.pkcs1v15_sign
                             ot hashlib data hash_algorithm (k, w))))
          = calls w ++ [rsa_sign_call hashlib hash_algorithm d
                          (asymmetric.RsaKey.id k)])
      /\ (forall k,
          calls (snd (snd (crypto.RSAKey.pkcs1v15_sign
                             ot hashlib data hash_algorithm (k, w))))
          = calls w ++ [rsa_sign_call hashlib hash_algorithm d
                          (crypto.RSAKey.id k)])).
Proof.
  split; [| split].
  - intros Hh. apply hash_algorithm_refused in Hh.
    split; [| split].
    + intros d Hd. split; [reflexivity |].
      split; [apply calls_advised |]. split; intros k.
      * pose proof (proj2 (asymmetric_pkcs1v15_sign_paths ot hashlib k data
                             hash_algorithm w) d Hd) as H.
        now rewrite Hh in H.
      * pose proof (proj2 (crypto_pkcs1v15_sign_paths ot hashlib k data
                             hash_algorithm w) d Hd) as H.
        now rewrite Hh in H.
    + intros Hother. destruct (refusal_of_other data Hother) as [Hd He].
      split; [reflexivity |]. split; intros k.
      * rewrite <- He.
        exact (proj1 (asymmetric_pkcs1v15_sign_paths ot hashlib k data
                        hash_algorithm w) Hd).
      * rewrite <- He.
        exact (proj1 (crypto_pkcs1v15_sign_paths ot hashlib k data
                        hash_algorithm w) Hd).
    + intros s e -> He.
      pose proof (payload_of_text s) as Ht. rewrite He in Ht.
      destruct Ht as [Hd Hr].
      destruct (encode_refuses s e He) as [start [Hs ->]].
      split; [now exists start |]. split; [reflexivity |].
      split; intros k.
      * rewrite <- Hr.
        exact (proj1 (asymmetric_pkcs1v15_sign_paths ot hashlib k (PyStr s)
                        hash_algorithm w) Hd).
      * rewrite <- Hr.
        exact (proj1 (crypto_pkcs1v15_sign_paths ot hashlib k (PyStr s)
                        hash_algorithm w) Hd).
  - destruct data as [b | b | s |].
    + left. now exists b.
    + left. now exists b.
    + pose proof (payload_of_text s) as Ht.
      destruct (encode s) as [d | e] eqn:He.
      * left. now exists d.
      * right. right. now exists s, e.
    + right. now left.
  - intros Hh d Hd. apply hash_algorithm_accepted in Hh. split; intros k.
    + pose proof (proj2 (asymmetric_pkcs1v15_sign_paths ot hashlib k data
                           hash_algorithm w) d Hd) as H.
      rewrite Hh in H. cbv zeta in H. rewrite H. simpl.
      now rewrite calls_advised.
    + pose proof (proj2 (crypto_pkcs1v15_sign_paths ot hashlib k data
                           hash_algorithm w) d Hd) as H.
      rewrite Hh in H. cbv zeta in H. rewrite H. simpl.
      now rewrite calls_advised.
Qed.

Lemma pkcs1v15_sign_hash_algorithms_witness :
  crypto.RSAKey.pkcs1v15_sign (example_chip (answers (example_answer 0 [])))
    example_hashlib (PyBytes [0x61; 0x62; 0x63]) "sha512"
    (example_crypto_rsa_key, empty_world)
  = (Raise (ValueError (msg_hash_algorithm "sha512")),
     (example_crypto_rsa_key, empty_world))
  /\ asymmetric.RsaKey.pkcs1v15_sign
       (example_chip (answers (example_answer 0 [])))
       example_hashlib (PyStr [0x61; 0xDC80]) "sha512"
       (example_asymmetric_rsa_key, empty_world)
     = (Raise (UnicodeEncodeError 1), (example_asymmetric_rsa_key, empty_world))
  /\ calls (snd (snd (asymmetric.RsaKey.pkcs1v15_sign
                        (example_chip (answers (example_answer 0 [])))
                        example_hashlib (PyBytes [0x61; 0x62; 0x63]) "sha384"
                        (example_asymmetric_rsa_key, empty_world))))
     = [exp_optiga_crypt_rsa_sign 0x02 (repeat 0 48) 48 0xE0FC 320 0].
Proof.
  destruct (pkcs1v15_sign_hash_algorithms
              (example_chip (answers (example_answer 0 [])))
              example_hashlib (PyBytes [0x61; 0x62; 0x63]) "sha512"
              empty_world) as [Hbad _].
  destruct (Hbad ltac:(split; discriminate)) as [Hhash _].
  destruct (Hhash _ eq_refl) as [_ [_ [_ Hcrypto]]].
  split; [apply Hcrypto |].
  destruct (pkcs1v15_sign_hash_algorithms
              (example_chip (answers (example_answer 0 [])))
              example_hashlib (PyStr [0x61; 0xDC80]) "sha512"
              empty_world) as [Htext _].
  destruct (Htext ltac:(split; discriminate)) as [_ [_ Hrefused]].
  destruct (Hrefused [0x61; 0xDC80] (UnicodeEncodeError 1) eq_refl eq_refl)
    as [_ [_ [Hasym' _]]].
  split; [apply Hasym' |].
  destruct (pkcs1v15_sign_hash_algorithms
              (example_chip (answers (example_answer 0 [])))
              example_hashlib (PyBytes [0x61; 0x62; 0x63]) "sha384"
              empty_world) as [_ [_ Hgood]].
  destruct (Hgood (or_intror eq_refl) _ eq_refl) as [Hasym _].
  apply Hasym.
Defined.

(** The hash claim fails as stated: with data that is neither binary nor
    textual, or with text that UTF-8 cannot encode, an unsupported hash name
    is never looked at and the error of the conversion is raised instead. *)
Lemma pkcs1v15_sign_hash_counterexample :
  asymmetric.RsaKey.pkcs1v15_sign
    (example_chip (answers (example_answer 0 []))) example_hashlib
    PyOther "sha512" (example_asymmetric_rsa_key, empty_world)
  = (Raise (TypeError msg_data_type),
     (example_asymmetric_rsa_key, empty_world))
  /\ crypto.RSAKey.pkcs1v15_sign
       (example_chip (answers (example_answer 0 []))) example_hashlib
       PyOther "sha512" (example_crypto_rsa_key, empty_world)
     = (Raise (TypeError msg_data_type), (example_crypto_rsa_key, empty_world))
  /\ kind_of (TypeError msg_data_type) = InvalidInputType
  /\ kind_of (TypeError msg_data_type) <> UnsupportedHashAlgorithm
  /\ crypto.RSAKey.pkcs1v15_sign
       (example_chip (answers (example_answer 0 []))) example_hashlib
       (PyStr [0xDC80]) "sha512" (example_crypto_rsa_key, empty_world)
     = (Raise (UnicodeEncodeError 0), (example_crypto_rsa_key, empty_world))
  /\ kind_of (UnicodeEncodeError 0) <> UnsupportedHashAlgorithm.
Proof. repeat split; discriminate. Qed.

(** * Scenarios, run on the example chip *)

(** Constructing on the slot 0xE0F0 and on a slot of the other kind. *)
Example scenario_construct :
  crypto.ECCKey.__init__ (example_chip (answers (example_answer 0 [])))
                         0xE0F0 "secp256r1"
  = Ok example_crypto_ecc_key
  /\ crypto.ECCKey.__init__ (example_chip (answers (example_answer 0 [])))
                            0xE0FC "secp256r1"
     = Raise (ValueError (msg_key_id_ecc 0xE0FC))
  /\ crypto.RSAKey.__init__ 0xE0FC = Ok example_crypto_rsa_key
  /\ crypto.RSAKey.__init__ 0xE0F0 = Raise (ValueError (msg_key_id_rsa 0xE0F0)).
Proof. repeat split. Qed.

(** Generating with the default usage binds [KEY_AGR] and [SIGN]. *)
Example scenario_generate_default_usage :
  crypto.ECCKey._key_usage
    (fst (snd (crypto.ECCKey.generate
                 (example_chip (answers (example_answer 0 [0x03; 0x42; 0x00])))
                 "secp256r1" None false
                 (example_crypto_ecc_key, empty_world))))
  = Some [KEY_AGR; SIGN].
Proof. reflexivity. Qed.

(** Signing three bytes with a secp256r1 key records sha256 and yields
    bytes that start with 0x30. *)
Example scenario_sign :
  exists sig st',
    crypto.ECCKey.ecdsa_sign
      (example_chip (answers (example_answer 0 [0x02; 0x01; 0x07])))
      example_hashlib (PyBytes [0x61; 0x62; 0x63])
      (example_crypto_ecc_key, empty_world)
    = (Ok sig, st')
    /\ crypto._Signature.hash_alg sig = "sha256"%string
    /\ crypto._Signature.algorithm sig = "sha256_ecdsa"%string
    /\ crypto._Signature.signature sig = [0x30; 3; 0x02; 0x01; 0x07]
    /\ crypto.ECCKey._hash_alg (fst st') = Some "sha256"%string.
Proof. eexists. eexists. vm_compute. repeat split. Qed.

(** An unsupported curve name at generation. *)
Example scenario_generate_unsupported_curve :
  crypto.ECCKey.generate (example_chip (answers (example_answer 0 [])))
    "secp192r1" None false (example_crypto_ecc_key, empty_world)
  = (Raise (ValueError (msg_curve_not_supported "secp192r1")),
     (example_crypto_ecc_key, empty_world)).
Proof. reflexivity. Qed.

(** * The paths through [ecdsa_sign] *)

Lemma asymmetric_ecdsa_sign_cases (ot : Chip) (hashlib : Hashlib)
    (k : asymmetric.EccKey.t) (data : pyobj) (w : World) :
  let run := asymmetric.EccKey.ecdsa_sign ot hashlib data (k, w) in
  (payload data = None
   /\ run = (Raise (refusal data), (k, w)))
  \/ (exists d,
        payload data = Some d
        /\ ecdsa_sign_map hashlib (asymmetric.EccKey._curve k) = None
        /\ run = (Raise (KeyError (asymmetric.EccKey._curve k)),
                  (k, advised data w)))
  \/ (exists d param,
        payload data = Some d
        /\ ecdsa_sign_map hashlib (asymmetric.EccKey._curve k) = Some param
        /\ let c := ecdsa_call param d (asymmetric.EccKey._key_id k) in
           let r := api ot (calls w) c in
           run = ((if status r =? 0
                   then Ok (asymmetric.EcdsaSignature (param_name param)
                              (asymmetric.EccKey._key_id k)
                              (ecdsa_signature_of (capacity c) r))
                   else Raise (IOError (msg_cant_be_executed (status r)))),
                  (asymmetric_hashed k (param_name param),
                   after_call (advised data w) c))).
Proof.
  intros run. subst run.
  destruct (payload data) as [d |] eqn:Hd.
  - right.
    destruct (ecdsa_sign_map hashlib (asymmetric.EccKey._curve k))
      as [param |] eqn:Hp.
    + right. exists d, param. split; [reflexivity |]. split; [reflexivity |].
      exact (asymmetric_ecdsa_sign_runs ot hashlib k data w d param Hd Hp).
    + left. exists d. split; [reflexivity |]. split; [reflexivity |].
      unfold asymmetric.EccKey.ecdsa_sign, bind.
      rewrite (to_bytes_runs data d) by assumption.
      unfold get_self; simpl. now rewrite Hp.
  - left. split; [reflexivity |].
    unfold asymmetric.EccKey.ecdsa_sign, bind.
    now rewrite to_bytes_raises.
Qed.

Lemma crypto_ecdsa_sign_cases (ot : Chip) (hashlib : Hashlib)
    (k : crypto.ECCKey.t) (data : pyobj) (w : World) :
  let run := crypto.ECCKey.ecdsa_sign ot hashlib data (k, w) in
  (payload data = None
   /\ run = (Raise (refusal data), (k, w)))
  \/ (exists d,
        payload data = Some d
        /\ ecdsa_sign_map hashlib (crypto.ECCKey._curve k) = None
        /\ run = (Raise (KeyError (crypto.ECCKey._curve k)),
                  (k, advised data w)))
  \/ (exists d param,
        payload data = Some d
        /\ ecdsa_sign_map hashlib (crypto.ECCKey._curve k) = Some param
        /\ let c := ecdsa_call param d (crypto.ECCKey.id k) in
           let r := api ot (calls w) c in
           run = ((if status r =? 0
                   then Ok (crypto.ECDSASignature (param_name param)
                              (crypto.ECCKey.id k)
                              (ecdsa_signature_of (capacity c) r))
                   else Raise (IOError (msg_cant_be_executed (status r)))),
                  (crypto_hashed k (param_name param),
                   after_call (advised data w) c))).
Proof.
  intros run. subst run.
  destruct (payload data) as [d |] eqn:Hd.
  - right.
    destruct (ecdsa_sign_map hashlib (crypto.ECCKey._curve k))
      as [param |] eqn:Hp.
    + right. exists d, param. split; [reflexivity |]. split; [reflexivity |].
      exact (crypto_ecdsa_sign_runs ot hashlib k data w d param Hd Hp).
    + left. exists d. split; [reflexivity |]. split; [reflexivity |].
      unfold crypto.ECCKey.ecdsa_sign, bind.
      rewrite (to_bytes_runs data d) by assumption.
      unfold get_self; simpl. now rewrite Hp.
  - left. split; [reflexivity |].
    unfold crypto.ECCKey.ecdsa_sign, bind.
    now rewrite to_bytes_raises.
Qed.

Lemma c_ubyte_range (x : Z) : 0 <= c_ubyte x < 256.
Proof. unfold c_ubyte. change (2 ^ 8) with 256. apply Z.mod_pos_bound. lia. Qed.

(** The shape of the signature array, whatever the call reported. *)
Lemma ecdsa_signature_of_shape (cap : Z) (r : api_result) :
  let L := c_ubyte (out_len r) in
  length (ecdsa_signature_of cap r) = (Z.to_nat L + 2)%nat
  /\ firstn 2 (ecdsa_signature_of cap r) = [0x30; L]
  /\ (L <= cap ->
      skipn 2 (ecdsa_signature_of cap r)
      = firstn (Z.to_nat L) (buffer_after cap (out r))).
Proof.
  intros L. pose proof (c_ubyte_range (out_len r)) as HL. fold L in HL.
  unfold ecdsa_signature_of. fold L. unfold memmove, c_ubyte_zeros.
  replace (Z.to_nat (L + 2)) with (S (S (Z.to_nat L))) by lia.
  simpl.
  set (moved := firstn (Z.to_nat L) (buffer_after cap (out r))).
  assert (Hm : (length moved <= Z.to_nat L)%nat)
    by (subst moved; rewrite length_firstn; lia).
  split; [| split].
  - rewrite length_app, length_skipn, repeat_length. lia.
  - reflexivity.
  - intros Hfit.
    assert (Hlen : length moved = Z.to_nat L).
    { subst moved. rewrite length_firstn. unfold buffer_after.
      rewrite length_c_ubyte_array. lia. }
    rewrite skipn_all2 by (rewrite repeat_length; lia).
    apply app_nil_r.
Qed.

Lemma ecdsa_sign_map_names (hashlib : Hashlib) (curve : string)
    (param : sign_param) :
  ecdsa_sign_map hashlib curve = Some param ->
  In (param_name param) digest_names
  /\ capacity (ecdsa_call param [] 0) = param_size param * 2 + 8
  /\ param_size param * 2 + 8 <= 136.
Proof.
  intros H. apply ecdsa_sign_map_rows in H.
  destruct H as [-> | [-> | ->]]; simpl; repeat split; auto; lia.
Qed.

(** * The signature value of [ecdsa_sign] *)

(** X1.  The signature value a successful [ecdsa_sign] returns names the
    digest of the row of the key's curve, which is one of sha256, sha384 and
    sha512; its algorithm tag is that name followed by [_ecdsa]; its id is
    the slot id of the key.  Both files agree. *)
Theorem ecdsa_signature_fields (ot : Chip) (hashlib : Hashlib)
    (data : pyobj) (w : World) :
  (forall k sig st',
      asymmetric.EccKey.ecdsa_sign ot hashlib data (k, w) = (Ok sig, st') ->
      exists param,
        ecdsa_sign_map hashlib (asymmetric.EccKey._curve k) = Some param
        /\ asymmetric._Signature.hash_alg sig = param_name param
        /\ In (asymmetric._Signature.hash_alg sig) digest_names
        /\ asymmetric._Signature.algorithm sig
           = (asymmetric._Signature.hash_alg sig ++ "_ecdsa")%string
        /\ asymmetric._Signature.id sig = asymmetric.EccKey._key_id k)
  /\ (forall k sig st',
      crypto.ECCKey.ecdsa_sign ot hashlib data (k, w) = (Ok sig, st') ->
      exists param,
        ecdsa_sign_map hashlib (crypto.ECCKey._curve k) = Some param
        /\ crypto._Signature.hash_alg sig = param_name param
        /\ In (crypto._Signature.hash_alg sig) digest_names
        /\ crypto._Signature.algorithm sig
           = (crypto._Signature.hash_alg sig ++ "_ecdsa")%string
        /\ crypto._Signature.id sig = crypto.ECCKey.id k).
Proof.
  split; intros k sig st' Hrun.
  - destruct (asymmetric_ecdsa_sign_cases ot hashlib k data w)
      as [[_ H] | [[d [_ [_ H]]] | [d [param [Hd [Hp H]]]]]];
      cbv zeta in H; rewrite H in Hrun; try discriminate.
    destruct (status _ =? 0); [| discriminate].
    injection Hrun as <- _. exists param. simpl.
    repeat split; try assumption.
    apply (ecdsa_sign_map_names hashlib _ param Hp).
  - destruct (crypto_ecdsa_sign_cases ot hashlib k data w)
      as [[_ H] | [[d [_ [_ H]]] | [d [param [Hd [Hp H]]]]]];
      cbv zeta in H; rewrite H in Hrun; try discriminate.
    destruct (status _ =? 0); [| discriminate].
    injection Hrun as <- _. exists param. simpl.
    repeat split; try assumption.
    apply (ecdsa_sign_map_names hashlib _ param Hp).
Qed.

(** X2.  The signature bytes of a successful [ecdsa_sign] always have the
    reported length plus two bytes, start with 0x30 and carry the reported
    length itself as the one length byte, also for reported lengths of 128
    and more, which the buffer of 136 bytes admits: the long form of a DER
    length is never written.  When the reported length is within the
    buffer, the remaining bytes are that many bytes of the buffer.  Both
    files agree. *)
Theorem ecdsa_signature_one_length_byte (ot : Chip) (hashlib : Hashlib)
    (data : pyobj) (w : World) :
  (forall k sig st',
      asymmetric.EccKey.ecdsa_sign ot hashlib data (k, w) = (Ok sig, st') ->
      exists c,
        calls (snd st') = calls w ++ [c]
        /\ capacity c <= 136
        /\ let r := api ot (calls w) c in
           let L := c_ubyte (out_len r) in
           let bytes := asymmetric._Signature.signature sig in
           length bytes = (Z.to_nat L + 2)%nat
           /\ firstn 2 bytes = [0x30; L]
           /\ (L <= capacity c ->
               skipn 2 bytes
               = firstn (Z.to_nat L) (buffer_after (capacity c) (out r))))
  /\ (forall k sig st',
      crypto.ECCKey.ecdsa_sign ot hashlib data (k, w) = (Ok sig, st') ->
      exists c,
        calls (snd st') = calls w ++ [c]
        /\ capacity c <= 136
        /\ let r := api ot (calls w) c in
           let L := c_ubyte (out_len r) in
           let bytes := crypto._Signature.signature sig in
           length bytes = (Z.to_nat L + 2)%nat
           /\ firstn 2 bytes = [0x30; L]
           /\ (L <= capacity c ->
               skipn 2 bytes
               = firstn (Z.to_nat L) (buffer_after (capacity c) (out r)))).
Proof.
  split; intros k sig st' Hrun.
  - destruct (asymmetric_ecdsa_sign_cases ot hashlib k data w)
      as [[_ H] | [[d [_ [_ H]]] | [d [param [Hd [Hp H]]]]]];
      cbv zeta in H; rewrite H in Hrun; try discriminate.
    destruct (status _ =? 0); [| discriminate].
    injection Hrun as <- <-.
    exists (ecdsa_call param d (asymmetric.EccKey._key_id k)).
    split; [simpl; now rewrite calls_advised |].
    split; [destruct (ecdsa_sign_map_names hashlib _ param Hp) as [_ [_ Hc]];
            simpl; lia |].
    apply ecdsa_signature_of_shape.
  - destruct (crypto_ecdsa_sign_cases ot hashlib k data w)
      as [[_ H] | [[d [_ [_ H]]] | [d [param [Hd [Hp H]]]]]];
      cbv zeta in H; rewrite H in Hrun; try discriminate.
    destruct (status _ =? 0); [| discriminate].
    injection Hrun as <- <-.
    exists (ecdsa_call param d (crypto.ECCKey.id k)).
    split; [simpl; now rewrite calls_advised |].
    split; [destruct (ecdsa_sign_map_names hashlib _ param Hp) as [_ [_ Hc]];
            simpl; lia |].
    apply ecdsa_signature_of_shape.
Qed.

Lemma ecdsa_signature_one_length_byte_witness :
  exists sig st',
    crypto.ECCKey.ecdsa_sign
      (example_chip (answers (example_answer 0 (repeat 0x11 130))))
      example_hashlib (PyBytes [0x61; 0x62; 0x63])
      (example_crypto_ecc_key_p512, empty_world)
    = (Ok sig, st')
    /\ firstn 2 (crypto._Signature.signature sig) = [0x30; 0x82]
    /\ length (crypto._Signature.signature sig) = 132%nat.
Proof.
  pose proof (ecdsa_signature_one_length_byte
                (example_chip (answers (example_answer 0 (repeat 0x11 130))))
                example_hashlib (PyBytes [0x61; 0x62; 0x63]) empty_world)
    as [_ Hcrypto].
  eexists. eexists. split; [vm_compute; reflexivity |].
  destruct (Hcrypto example_crypto_ecc_key_p512 _ _ eq_refl)
    as [c [_ [_ [Hlen [Hhead _]]]]].
  split; [exact Hhead | exact Hlen].
Defined.

(** * What [ecdsa_sign] touches and what it reads *)

Lemma no_call_made (l : list api_call) (c : api_call) : l ++ [c] <> l.
Proof.
  intros H. apply (f_equal (@length _)) in H.
  rewrite length_app in H. simpl in H. lia.
Qed.

(** X3.  [ecdsa_sign] writes no field of the key object but [_hash_alg]:
    in every outcome the slot id, the curve, the public key, the usage, the
    private key and the [_signature] field are as before.  It writes
    [_hash_alg] exactly when it goes on to call the secure element: a run
    that made no call left the object as it was, and a run that made a call
    left the digest name of the curve in [_hash_alg].  Both files agree. *)
Theorem ecdsa_sign_frame (ot : Chip) (hashlib : Hashlib) (data : pyobj)
    (w : World) :
  (forall k,
      let run := asymmetric.EccKey.ecdsa_sign ot hashlib data (k, w) in
      let k' := fst (snd run) in
      asymmetric.EccKey.id k' = asymmetric.EccKey.id k
      /\ asymmetric.EccKey._key_id k' = asymmetric.EccKey._key_id k
      /\ asymmetric.EccKey._curve k' = asymmetric.EccKey._curve k
      /\ asymmetric.EccKey._pkey k' = asymmetric.EccKey._pkey k
      /\ asymmetric.EccKey._key_usage k' = asymmetric.EccKey._key_usage k
      /\ asymmetric.EccKey._signature k' = asymmetric.EccKey._signature k
      /\ (calls (snd (snd run)) = calls w -> k' = k)
      /\ (forall c, calls (snd (snd run)) = calls w ++ [c] ->
          exists param,
            ecdsa_sign_map hashlib (asymmetric.EccKey._curve k) = Some param
            /\ asymmetric.EccKey._hash_alg k' = Some (param_name param)))
  /\ (forall k,
      let run := crypto.ECCKey.ecdsa_sign ot hashlib data (k, w) in
      let k' := fst (snd run) in
      crypto.ECCKey.id k' = crypto.ECCKey.id k
      /\ crypto.ECCKey._curve k' = crypto.ECCKey._curve k
      /\ crypto.ECCKey._pkey k' = crypto.ECCKey._pkey k
      /\ crypto.ECCKey._key k' = crypto.ECCKey._key k
      /\ crypto.ECCKey._key_usage k' = crypto.ECCKey._key_usage k
      /\ crypto.ECCKey._signature k' = crypto.ECCKey._signature k
      /\ (calls (snd (snd run)) = calls w -> k' = k)
      /\ (forall c, calls (snd (snd run)) = calls w ++ [c] ->
          exists param,
            ecdsa_sign_map hashlib (crypto.ECCKey._curve k) = Some param
            /\ crypto.ECCKey._hash_alg k' = Some (param_name param))).
Proof.
  split; intros k run k'; subst k' run.
  - destruct (asymmetric_ecdsa_sign_cases ot hashlib k data w)
      as [[_ H] | [[d [_ [_ H]]] | [d [param [Hd [Hp H]]]]]];
      cbv zeta in H; rewrite H; simpl; rewrite ?calls_advised;
      repeat split; try reflexivity.
    + intros c Hc. symmetry in Hc. now apply no_call_made in Hc.
    + intros c Hc. symmetry in Hc. now apply no_call_made in Hc.
    + intros Hc. now apply no_call_made in Hc.
    + intros c _. now exists param.
  - destruct (crypto_ecdsa_sign_cases ot hashlib k data w)
      as [[_ H] | [[d [_ [_ H]]] | [d [param [Hd [Hp H]]]]]];
      cbv zeta in H; rewrite H; simpl; rewrite ?calls_advised;
      repeat split; try reflexivity.
    + intros c Hc. symmetry in Hc. now apply no_call_made in Hc.
    + intros c Hc. symmetry in Hc. now apply no_call_made in Hc.
    + intros Hc. now apply no_call_made in Hc.
    + intros c _. now exists param.
Qed.

(** X4.  [ecdsa_sign] reads nothing of the key object but its slot id and
    its curve: two key objects that agree on these get the same result and
    leave the same world, whatever their public keys and usages are.  The
    usage bound at generation is not consulted, and a public key need not
    be present.  Both files agree. *)
Theorem ecdsa_sign_reads_slot_and_curve (ot : Chip) (hashlib : Hashlib)
    (data : pyobj) (w : World) :
  (forall k1 k2,
      asymmetric.EccKey._key_id k1 = asymmetric.EccKey._key_id k2 ->
      asymmetric.EccKey._curve k1 = asymmetric.EccKey._curve k2 ->
      fst (asymmetric.EccKey.ecdsa_sign ot hashlib data (k1, w))
      = fst (asymmetric.EccKey.ecdsa_sign ot hashlib data (k2, w))
      /\ snd (snd (asymmetric.EccKey.ecdsa_sign ot hashlib data (k1, w)))
         = snd (snd (asymmetric.EccKey.ecdsa_sign ot hashlib data (k2, w))))
  /\ (forall k1 k2,
      crypto.ECCKey.id k1 = crypto.ECCKey.id k2 ->
      crypto.ECCKey._curve k1 = crypto.ECCKey._curve k2 ->
      fst (crypto.ECCKey.ecdsa_sign ot hashlib data (k1, w))
      = fst (crypto.ECCKey.ecdsa_sign ot hashlib data (k2, w))
      /\ snd (snd (crypto.ECCKey.ecdsa_sign ot hashlib data (k1, w)))
         = snd (snd (crypto.ECCKey.ecdsa_sign ot hashlib data (k2, w)))).
Proof.
  split; intros k1 k2 Hid Hcurve.
  -
 destruct (asymmetric_ecdsa_sign_cases ot hashlib k1 data w)
      as [[Hd1 H1] | [[d1 [Hd1 [Hp1 H1]]] | [d1 [p1 [Hd1 [Hp1 H1]]]]]];
      destruct (asymmetric_ecdsa_sign_cases ot hashlib k2 data w)
      as [[Hd2 H2] | [[d2 [Hd2 [Hp2 H2]]] | [d2 [p2 [Hd2 [Hp2 H2]]]]]];
      cbv zeta in H1, H2; rewrite H1, H2; try (exfalso; congruence).
    + split; reflexivity.
    + simpl. rewrite Hcurve. split; reflexivity.
    + assert (d1 = d2) by congruence. assert (p1 = p2) by congruence.
      subst. rewrite Hid. simpl. split; reflexivity.
  -
 destruct (crypto_ecdsa_sign_cases ot hashlib k1 data w)
      as [[Hd1 H1] | [[d1 [Hd1 [Hp1 H1]]] | [d1 [p1 [Hd1 [Hp1 H1]]]]]];
      destruct (crypto_ecdsa_sign_cases ot hashlib k2 data w)
      as [[Hd2 H2] | [[d2 [Hd2 [Hp2 H2]]] | [d2 [p2 [Hd2 [Hp2 H2]]]]]];
      cbv zeta in H1, H2; rewrite H1, H2; try (exfalso; congruence).
    + split; reflexivity.
    + simpl. rewrite Hcurve. split; reflexivity.
    + assert (d1 = d2) by congruence. assert (p1 = p2) by congruence.
      subst. rewrite Hid. simpl. split; reflexivity.
Qed.

(** * Textual data *)

(** X5.  Both signing methods sign a string that UTF-8 can encode as its
    encoded bytes: the result, the key object left behind and the calls made
    are those of signing these bytes, and the one difference is a single
    warning, issued whether or not the signing then succeeds.  A string that
    UTF-8 cannot encode makes both methods raise [UnicodeEncodeError] with
    no warning, no call, and the key object as it was, whatever the curve
    or the hash name.  Binary data leaves no warning, and a bytearray is
    treated as the bytes it holds.  Both files agree. *)
Theorem text_is_signed_as_its_bytes (ot : Chip) (hashlib : Hashlib)
    (w : World) (s : str) :
  (forall d,
      encode s = Ok d ->
      (forall k,
          let text := asymmetric.EccKey.ecdsa_sign ot hashlib (PyStr s) (k, w) in
          let binary :=
            asymmetric.EccKey.ecdsa_sign ot hashlib (PyBytes d) (k, w) in
          fst text = fst binary /\ fst (snd text) = fst (snd binary)
          /\ calls (snd (snd text)) = calls (snd (snd binary))
          /\ warnings (snd (snd text))
             = warnings (snd (snd binary)) ++ [data_warning]
          /\ warnings (snd (snd binary)) = warnings w)
      /\ (forall k,
          let text := crypto.ECCKey.ecdsa_sign ot hashlib (PyStr s) (k, w) in
          let binary :=
            crypto.ECCKey.ecdsa_sign ot hashlib (PyBytes d) (k, w) in
          fst text = fst binary /\ fst (snd text) = fst (snd binary)
          /\ calls (snd (snd text)) = calls (snd (snd binary))
          /\ warnings (snd (snd text))
             = warnings (snd (snd binary)) ++ [data_warning]
          /\ warnings (snd (snd binary)) = warnings w)
      /\ (forall k hash_algorithm,
          let text := asymmetric.RsaKey.pkcs1v15_sign ot hashlib (PyStr s)
                        hash_algorithm (k, w) in
          let binary := asymmetric.RsaKey.pkcs1v15_sign ot hashlib
                          (PyBytes d) hash_algorithm (k, w) in
          fst text = fst binary /\ fst (snd text) = fst (snd binary)
          /\ calls (snd (snd text)) = calls (snd (snd binary))
          /\ warnings (snd (snd text))
             = warnings (snd (snd binary)) ++ [data_warning]
          /\ warnings (snd (snd binary)) = warnings w)
      /\ (forall k hash_algorithm,
          let text := crypto.RSAKey.pkcs1v15_sign ot hashlib (PyStr s)
                        hash_algorithm (k, w) in
          let binary := crypto.RSAKey.pkcs1v15_sign ot hashlib
                          (PyBytes d) hash_algorithm (k, w) in
          fst text = fst binary /\ fst (snd text) = fst (snd binary)
          /\ calls (snd (snd text)) = calls (snd (snd binary))
          /\ warnings (snd (snd text))
             = warnings (snd (snd binary)) ++ [data_warning]
          /\ warnings (snd (snd binary)) = warnings w))
  /\ (forall e,
      encode s = Raise e ->
      (exists start, 0 <= start /\ e = UnicodeEncodeError start)
      /\ (forall k,
          asymmetric.EccKey.ecdsa_sign ot hashlib (PyStr s) (k, w)
          = (Raise e, (k, w)))
      /\ (forall k,
          crypto.ECCKey.ecdsa_sign ot hashlib (PyStr s) (k, w)
          = (Raise e, (k, w)))
      /\ (forall k hash_algorithm,
          asymmetric.RsaKey.pkcs1v15_sign ot hashlib (PyStr s) hash_algorithm
                                          (k, w)
          = (Raise e, (k, w)))
      /\ (forall k hash_algorithm,
          crypto.RSAKey.pkcs1v15_sign ot hashlib (PyStr s) hash_algorithm
                                      (k, w)
          = (Raise e, (k, w))))
  /\ (forall b k hash_algorithm ka kc kr,
      asymmetric.EccKey.ecdsa_sign ot hashlib (PyByteArray b) (ka, w)
      = asymmetric.EccKey.ecdsa_sign ot hashlib (PyBytes b) (ka, w)
      /\ crypto.ECCKey.ecdsa_sign ot hashlib (PyByteArray b) (kc, w)
         = crypto.ECCKey.ecdsa_sign ot hashlib (PyBytes b) (kc, w)
      /\ asymmetric.RsaKey.pkcs1v15_sign ot hashlib (PyByteArray b)
           hash_algorithm (k, w)
         = asymmetric.RsaKey.pkcs1v15_sign ot hashlib (PyBytes b)
             hash_algorithm (k, w)
      /\ crypto.RSAKey.pkcs1v15_sign ot hashlib (PyByteArray b)
           hash_algorithm (kr, w)
         = crypto.RSAKey.pkcs1v15_sign ot hashlib (PyBytes b)
             hash_algorithm (kr, w)).
Proof.
  split; [| split].
  - intros d He.
    pose proof (payload_of_text s) as Hd. rewrite He in Hd.
    pose proof (advised_text s d w He) as Hw.
    split; [| split; [| split]].
    + intros k text binary. subst text binary.
      destruct (ecdsa_sign_map hashlib (asymmetric.EccKey._curve k))
        as [param |] eqn:Hp.
      * rewrite (asymmetric_ecdsa_sign_runs ot hashlib k (PyStr s) w
                   d param Hd Hp).
        rewrite (asymmetric_ecdsa_sign_runs ot hashlib k (PyBytes d) w
                   d param eq_refl Hp).
        rewrite Hw. repeat split.
      * destruct (asymmetric_ecdsa_sign_cases ot hashlib k (PyStr s) w)
          as [[Hd' _] | [[d1 [_ [_ H1]]] | [d1 [p [_ [Hp' _]]]]]];
          [congruence | | congruence].
        destruct (asymmetric_ecdsa_sign_cases ot hashlib k (PyBytes d) w)
          as [[Hd' _] | [[d2 [_ [_ H2]]] | [d2 [p [_ [Hp' _]]]]]];
          [discriminate | | congruence].
        cbv zeta in H1, H2. rewrite H1, H2, Hw. repeat split.
    + intros k text binary. subst text binary.
      destruct (ecdsa_sign_map hashlib (crypto.ECCKey._curve k))
        as [param |] eqn:Hp.
      * rewrite (crypto_ecdsa_sign_runs ot hashlib k (PyStr s) w
                   d param Hd Hp).
        rewrite (crypto_ecdsa_sign_runs ot hashlib k (PyBytes d) w
                   d param eq_refl Hp).
        rewrite Hw. repeat split.
      * destruct (crypto_ecdsa_sign_cases ot hashlib k (PyStr s) w)
          as [[Hd' _] | [[d1 [_ [_ H1]]] | [d1 [p [_ [Hp' _]]]]]];
          [congruence | | congruence].
        destruct (crypto_ecdsa_sign_cases ot hashlib k (PyBytes d) w)
          as [[Hd' _] | [[d2 [_ [_ H2]]] | [d2 [p [_ [Hp' _]]]]]];
          [discriminate | | congruence].
        cbv zeta in H1, H2. rewrite H1, H2, Hw. repeat split.
    + intros k hash_algorithm text binary. subst text binary.
      pose proof (proj2 (asymmetric_pkcs1v15_sign_paths ot hashlib k (PyStr s)
                           hash_algorithm w) d Hd) as H1.
      pose proof (proj2 (asymmetric_pkcs1v15_sign_paths ot hashlib k
                           (PyBytes d) hash_algorithm w) d eq_refl) as H2.
      destruct (String.eqb hash_algorithm "sha256"
                || String.eqb hash_algorithm "sha384");
        cbv zeta in H1, H2; rewrite H1, H2, Hw; repeat split.
    + intros k hash_algorithm text binary. subst text binary.
      pose proof (proj2 (crypto_pkcs1v15_sign_paths ot hashlib k (PyStr s)
                           hash_algorithm w) d Hd) as H1.
      pose proof (proj2 (crypto_pkcs1v15_sign_paths ot hashlib k
                           (PyBytes d) hash_algorithm w) d eq_refl) as H2.
      destruct (String.eqb hash_algorithm "sha256"
                || String.eqb hash_algorithm "sha384");
        cbv zeta in H1, H2; rewrite H1, H2, Hw; repeat split.
  - intros e He.
    pose proof (payload_of_text s) as Ht. rewrite He in Ht.
    destruct Ht as [Hd Hr].
    split; [exact (encode_refuses s e He) |].
    split; [| split; [| split]].
    + intros k.
      destruct (asymmetric_ecdsa_sign_cases ot hashlib k (PyStr s) w)
        as [[_ H] | [[d [Hd' _]] | [d [p [Hd' _]]]]]; [| congruence ..].
      cbv zeta in H. now rewrite H, Hr.
    + intros k.
      destruct (crypto_ecdsa_sign_cases ot hashlib k (PyStr s) w)
        as [[_ H] | [[d [Hd' _]] | [d [p [Hd' _]]]]]; [| congruence ..].
      cbv zeta in H. now rewrite H, Hr.
    + intros k hash_algorithm. rewrite <- Hr.
      exact (proj1 (asymmetric_pkcs1v15_sign_paths ot hashlib k (PyStr s)
                      hash_algorithm w) Hd).
    + intros k hash_algorithm. rewrite <- Hr.
      exact (proj1 (crypto_pkcs1v15_sign_paths ot hashlib k (PyStr s)
                      hash_algorithm w) Hd).
  - intros. repeat split.
Qed.

Lemma text_is_signed_as_its_bytes_witness :
  fst (crypto.ECCKey.ecdsa_sign
         (example_chip (answers (example_answer 0 [0x02; 0x01; 0x07])))
         example_hashlib (PyStr [0x48; 0xE9; 0x20AC])
         (example_crypto_ecc_key, empty_world))
  = fst (crypto.ECCKey.ecdsa_sign
           (example_chip (answers (example_answer 0 [0x02; 0x01; 0x07])))
           example_hashlib (PyBytes [0x48; 0xC3; 0xA9; 0xE2; 0x82; 0xAC])
           (example_crypto_ecc_key, empty_world))
  /\ asymmetric.RsaKey.pkcs1v15_sign
       (example_chip (answers (example_answer 0 [0x02; 0x01; 0x07])))
       example_hashlib (PyStr [0x48; 0xD800; 0x20AC]) "sha256"
       (example_asymmetric_rsa_key, empty_world)
     = (Raise (UnicodeEncodeError 1),
        (example_asymmetric_rsa_key, empty_world)).
Proof.
  split.
  - destruct (text_is_signed_as_its_bytes
                (example_chip (answers (example_answer 0 [0x02; 0x01; 0x07])))
                example_hashlib empty_world [0x48; 0xE9; 0x20AC])
      as [Hok _].
    destruct (Hok [0x48; 0xC3; 0xA9; 0xE2; 0x82; 0xAC] eq_refl)
      as [_ [Hcrypto _]].
    exact (proj1 (Hcrypto example_crypto_ecc_key)).
  - destruct (text_is_signed_as_its_bytes
                (example_chip (answers (example_answer 0 [0x02; 0x01; 0x07])))
                example_hashlib empty_world [0x48; 0xD800; 0x20AC])
      as [_ [Hbad _]].
    destruct (Hbad (UnicodeEncodeError 1) eq_refl) as [_ [_ [_ [Hrsa _]]]].
    apply Hrsa.
Defined.

(** * A curve name nobody checked *)

(** X6.  The ECC constructors take any curve name: on a legal slot they
    return an object bound to a name outside the six.  The name is first
    looked at when signing, where the table lookup of [ecdsa_sign] raises
    [KeyError], an exception outside the error kinds of the library, with no
    call made and [_hash_alg] not written.  Both files agree. *)
Theorem unchecked_curve_fails_at_signing (ot : Chip) (hashlib : Hashlib)
    (key_id : Z) (curve : string) (data : pyobj) (d : bytes) (w : World) :
  ecc_slot ot key_id ->
  ~ In curve supported_curves ->
  payload data = Some d ->
  (exists k,
      asymmetric.EccKey.__init__ ot key_id curve = Ok k
      /\ asymmetric.EccKey._curve k = curve
      /\ asymmetric.EccKey.ecdsa_sign ot hashlib data (k, w)
         = (Raise (KeyError curve), (k, advised data w)))
  /\ (exists k,
      crypto.ECCKey.__init__ ot key_id curve = Ok k
      /\ crypto.ECCKey._curve k = curve
      /\ crypto.ECCKey.ecdsa_sign ot hashlib data (k, w)
         = (Raise (KeyError curve), (k, advised data w)))
  /\ calls (advised data w) = calls w
  /\ kind_of (KeyError curve) = Unclassified.
Proof.
  intros Hslot Hcurve Hd. apply ecc_slot_dec in Hslot.
  destruct (ecdsa_sign_unsupported_curve ot hashlib data d w Hd)
    as [Hasym Hcrypto].
  split; [| split; [| split; [apply calls_advised | reflexivity]]].
  - unfold asymmetric.EccKey.__init__. rewrite Hslot.
    eexists. split; [reflexivity |]. split; [reflexivity |].
    now apply Hasym.
  - unfold crypto.ECCKey.__init__. rewrite Hslot.
    eexists. split; [reflexivity |]. split; [reflexivity |].
    now apply Hcrypto.
Qed.

Lemma unchecked_curve_fails_at_signing_witness :
  exists k,
    crypto.ECCKey.__init__ (example_chip (answers (example_answer 0 [])))
                           0xE0F0 "secp192r1" = Ok k
    /\ crypto.ECCKey.ecdsa_sign (example_chip (answers (example_answer 0 [])))
         example_hashlib (PyBytes [0x61]) (k, empty_world)
       = (Raise (KeyError "secp192r1"), (k, empty_world)).
Proof.
  destruct (unchecked_curve_fails_at_signing
              (example_chip (answers (example_answer 0 [])))
              example_hashlib 0xE0F0 "secp192r1" (PyBytes [0x61]) [0x61]
              empty_world) as [_ [[k [Hk [_ Hs]]] _]].
  - left. simpl. auto.
  - simpl. intros H. repeat destruct H as [H | H]; try discriminate.
    exact H.
  - reflexivity.
  - exists k. split; assumption.
Defined.

(** * Every path through [generate] *)

Lemma generate_outcome_split {Self} (old new : Self) (w : World)
    (c : api_call) (r : api_result) :
  let run := generate_outcome old new w c r in
  calls (snd (snd run)) = calls w ++ [c]
  /\ warnings (snd (snd run)) = warnings w
  /\ ((status r = 0 /\ run = (Ok new, (new, after_call w c)))
      \/ (status r <> 0
          /\ run = (Raise (IOError (msg_cant_be_executed (status r))),
                    (old, after_call w c)))).
Proof.
  unfold generate_outcome.
  destruct (Z.eqb_spec (status r) 0) as [H | H]; simpl;
    repeat split; auto.
Qed.

(** The outcome of a run that reached the secure element, as the
    statements below put it. *)
Lemma outcome_reached {Self} (ot : Chip) (old new : Self) (w : World)
    (c : api_call) (run : result Self * (Self * World)) :
  run = generate_outcome old new w c (api ot (calls w) c) ->
  exists c0,
    calls (snd (snd run)) = calls w ++ [c0]
    /\ warnings (snd (snd run)) = warnings w
    /\ ((status (api ot (calls w) c0) = 0 /\ fst run = Ok (fst (snd run)))
        \/ (status (api ot (calls w) c0) <> 0
            /\ fst run
               = Raise (IOError (msg_cant_be_executed
                                   (status (api ot (calls w) c0))))
            /\ fst (snd run) = old)).
Proof.
  intros ->. exists c.
  pose proof (generate_outcome_split old new w c (api ot (calls w) c)) as H.
  cbv zeta in H. destruct H as [Hc [Hw [[Hs Hr] | [Hs Hr]]]].
  - split; [assumption | split; [assumption |]].
    left. split; [assumption |]. now rewrite Hr.
  - split; [assumption | split; [assumption |]].
    right. split; [assumption |]. now rewrite Hr.
Qed.

(** X7.  Every [generate] either raises a validation error, in which case
    it has made no call and neither the key object nor the world has
    changed, or makes exactly one call on the secure element.  The
    validation errors are the usage error and the curve error for ECC keys,
    the usage error and the key-size error for RSA keys.  After the call it
    returns the key object it has stored when the status is zero, and
    raises the hardware fault with the object as it was otherwise.  No
    warning is issued.  Both files agree. *)
Theorem generate_validates_then_calls_once (ot : Chip) (w : World) :
  (forall k curve key_usage,
      let run := asymmetric.EccKey.generate ot curve key_usage (k, w) in
      (exists e, run = (Raise e, (k, w))
                 /\ (kind_of e = UnsupportedUsageFlag
                     \/ kind_of e = UnsupportedCurve))
      \/ (exists c,
            calls (snd (snd run)) = calls w ++ [c]
            /\ warnings (snd (snd run)) = warnings w
            /\ ((status (api ot (calls w) c) = 0
                 /\ fst run = Ok (fst (snd run)))
                \/ (status (api ot (calls w) c) <> 0
                    /\ fst run
                       = Raise (IOError (msg_cant_be_executed
                                           (status (api ot (calls w) c))))
                    /\ fst (snd run) = k))))
  /\ (forall k curve key_usage export,
      let run := crypto.ECCKey.generate ot curve key_usage export (k, w) in
      (exists e, run = (Raise e, (k, w))
                 /\ (kind_of e = UnsupportedUsageFlag
                     \/ kind_of e = UnsupportedCurve))
      \/ (exists c,
            calls (snd (snd run)) = calls w ++ [c]
            /\ warnings (snd (snd run)) = warnings w
            /\ ((status (api ot (calls w) c) = 0
                 /\ fst run = Ok (fst (snd run)))
                \/ (status (api ot (calls w) c) <> 0
                    /\ fst run
                       = Raise (IOError (msg_cant_be_executed
                                           (status (api ot (calls w) c))))
                    /\ fst (snd run) = k))))
  /\ (forall k key_size key_usage,
      let run := asymmetric.RsaKey.generate ot key_size key_usage (k, w) in
      (exists e, run = (Raise e, (k, w))
                 /\ (kind_of e = UnsupportedUsageFlag
                     \/ kind_of e = UnsupportedKeySize))
      \/ (exists c,
            calls (snd (snd run)) = calls w ++ [c]
            /\ warnings (snd (snd run)) = warnings w
            /\ ((status (api ot (calls w) c) = 0
                 /\ fst run = Ok (fst (snd run)))
                \/ (status (api ot (calls w) c) <> 0
                    /\ fst run
                       = Raise (IOError (msg_cant_be_executed
                                           (status (api ot (calls w) c))))
                    /\ fst (snd run) = k))))
  /\ (forall k key_size key_usage export,
      let run := crypto.RSAKey.generate ot key_size key_usage export (k, w) in
      (exists e, run = (Raise e, (k, w))
                 /\ (kind_of e = UnsupportedUsageFlag
                     \/ kind_of e = UnsupportedKeySize))
      \/ (exists c,
            calls (snd (snd run)) = calls w ++ [c]
            /\ warnings (snd (snd run)) = warnings w
            /\ ((status (api ot (calls w) c) = 0
                 /\ fst run = Ok (fst (snd run)))
                \/ (status (api ot (calls w) c) <> 0
                    /\ fst run
                       = Raise (IOError (msg_cant_be_executed
                                           (status (api ot (calls w) c))))
                    /\ fst (snd run) = k)))).
Proof.
  split; [| split; [| split]].
  - intros k curve key_usage run. subst run.
    destruct (requested_usage_cases asymmetric.EccKey._allowed_key_usage
                key_usage) as [[flags Hu] | [entry Hu]].
    + destruct (_str2curve_map curve) as [cv |] eqn:Hc.
      * destruct (mem (Curves_value ot cv) (curves_values ot)) eqn:Hm.
        -- right. eapply outcome_reached.
           exact (asymmetric_ecc_generate_calls ot k w curve key_usage flags
                    cv Hu Hc Hm).
        -- left. eexists. split;
             [exact (proj2 (asymmetric_ecc_generate_curve_raises ot k w curve
                              key_usage flags Hu) cv Hc Hm) | now right].
      * left. eexists. split;
          [exact (proj1 (asymmetric_ecc_generate_curve_raises ot k w curve
                           key_usage flags Hu) Hc) | now right].
    + left. eexists. split;
        [exact (asymmetric_ecc_generate_usage_raises ot k w curve key_usage _
                  Hu) | now left].
  - intros k curve key_usage export run. subst run.
    destruct (requested_usage_cases crypto.ECCKey._allowed_key_usage
                key_usage) as [[flags Hu] | [entry Hu]].
    + destruct (_str2curve_map curve) as [cv |] eqn:Hc.
      * destruct (mem (Curves_value ot cv) (curves_values ot)) eqn:Hm.
        -- right. eapply outcome_reached.
           exact (crypto_ecc_generate_calls ot k w curve key_usage export
                    flags cv Hu Hc Hm).
        -- left. eexists. split;
             [exact (proj2 (crypto_ecc_generate_curve_raises ot k w curve
                              key_usage export flags Hu) cv Hc Hm)
             | now right].
      * left. eexists. split;
          [exact (proj1 (crypto_ecc_generate_curve_raises ot k w curve
                           key_usage export flags Hu) Hc) | now right].
    + left. eexists. split;
        [exact (crypto_ecc_generate_usage_raises ot k w curve key_usage
                  export _ Hu) | now left].
  - intros k key_size key_usage run. subst run.
    destruct (requested_usage_cases asymmetric.RsaKey._allowed_key_usages
                key_usage) as [[flags Hu] | [entry Hu]].
    + destruct (mem key_size allowed_key_sizes) eqn:Hm.
      * right. eapply outcome_reached.
        exact (asymmetric_rsa_generate_calls ot k w key_size key_usage flags
                 Hu Hm).
      * left. eexists. split;
          [exact (asymmetric_rsa_generate_size_raises ot k w key_size
                    key_usage flags Hu Hm) | now right].
    + left. eexists. split;
        [exact (asymmetric_rsa_generate_usage_raises ot k w key_size
                  key_usage _ Hu) | now left].
  - intros k key_size key_usage export run. subst run.
    destruct (requested_usage_cases crypto.RSAKey._allowed_key_usages
                key_usage) as [[flags Hu] | [entry Hu]].
    + destruct (mem key_size allowed_key_sizes) eqn:Hm.
      * right. eapply outcome_reached.
        exact (crypto_rsa_generate_calls ot k w key_size key_usage export
                 flags Hu Hm).
      * left. eexists. split;
          [exact (crypto_rsa_generate_size_raises ot k w key_size key_usage
                    export flags Hu Hm) | now right].
    + left. eexists. split;
        [exact (crypto_rsa_generate_usage_raises ot k w key_size key_usage
                  export _ Hu) | now left].
Qed.

(** * What a successful ECC [generate] binds *)

Lemma memmove_into_zeros (src : bytes) (n : Z) :
  length (memmove (c_ubyte_zeros n) 0 src n) = Z.to_nat n
  /\ ((Z.to_nat n <= length src)%nat ->
      memmove (c_ubyte_zeros n) 0 src n = firstn (Z.to_nat n) src).
Proof.
  unfold memmove, c_ubyte_zeros. simpl.
  set (moved := firstn (Z.to_nat n) src).
  assert (Hm : (length moved <= Z.to_nat n)%nat)
    by (subst moved; rewrite length_firstn; lia).
  split.
  - rewrite length_app, length_skipn, repeat_length. lia.
  - intros Hfit.
    assert (Hlen : length moved = Z.to_nat n)
      by (subst moved; rewrite length_firstn; lia).
    rewrite skipn_all2 by (rewrite repeat_length; lia).
    apply app_nil_r.
Qed.

Lemma length_pub_key_of (cap : Z) (r : api_result) :
  length (pub_key_of cap r) = Z.to_nat (c_ushort (out_len r)).
Proof. apply memmove_into_zeros. Qed.

Lemma priv_key_of_buffer (r : api_result) :
  length (priv_key_of r) = 104%nat
  /\ priv_key_of r = buffer_after 104 (key_out r)
  /\ (length (key_out r) = 104%nat -> priv_key_of r = key_out r).
Proof.
  unfold priv_key_of. change (100 + 4) with 104.
  destruct (memmove_into_zeros (buffer_after 104 (key_out r)) 104)
    as [Hlen Hfit].
  assert (Hbuf : length (buffer_after 104 (key_out r)) = 104%nat)
    by (unfold buffer_after; now rewrite length_c_ubyte_array).
  rewrite Hfit in * by (rewrite Hbuf; simpl; lia).
  rewrite firstn_all2 in * by (rewrite Hbuf; simpl; lia).
  split; [assumption |]. split; [reflexivity |].
  intros H. unfold buffer_after. apply c_ubyte_array_exact.
  rewrite H. reflexivity.
Qed.

Lemma curve_tables_agree (hashlib : Hashlib) (curve : string) :
  _str2curve_map curve <> None <-> ecdsa_sign_map hashlib curve <> None.
Proof.
  rewrite <- _str2curve_map_supported.
  now rewrite <- (ecdsa_sign_map_supported hashlib).
Qed.

(** A successful ECC [generate], taken apart. *)
Lemma asymmetric_ecc_generate_succeeds (ot : Chip) (k : asymmetric.EccKey.t)
    (w : World) (curve : string) (key_usage : option (list string))
    (k' : asymmetric.EccKey.t) (st' : asymmetric.EccKey.t * World) :
  asymmetric.EccKey.generate ot curve key_usage (k, w) = (Ok k', st') ->
  exists flags cv,
    requested_usage asymmetric.EccKey._allowed_key_usage key_usage = Ok flags
    /\ _str2curve_map curve = Some cv
    /\ mem (Curves_value ot cv) (curves_values ot) = true
    /\ let c := keypair_call ot (Curves_value ot cv) flags 0
                  (byref_key_id (c_ushort (asymmetric.EccKey._key_id k)))
                  150 in
       status (api ot (calls w) c) = 0
       /\ k' = asymmetric_ecc_generated k curve flags
                 (pub_key_of 150 (api ot (calls w) c))
       /\ st' = (k', after_call w c).
Proof.
  intros Hrun.
  destruct (requested_usage_cases asymmetric.EccKey._allowed_key_usage
              key_usage) as [[flags Hu] | [entry Hu]].
  2: { rewrite (asymmetric_ecc_generate_usage_raises ot k w curve key_usage _
                  Hu) in Hrun. discriminate. }
  destruct (_str2curve_map curve) as [cv |] eqn:Hc.
  2: { rewrite (proj1 (asymmetric_ecc_generate_curve_raises ot k w curve
                         key_usage flags Hu) Hc) in Hrun. discriminate. }
  destruct (mem (Curves_value ot cv) (curves_values ot)) eqn:Hm.
  2: { rewrite (proj2 (asymmetric_ecc_generate_curve_raises ot k w curve
                         key_usage flags Hu) cv Hc Hm) in Hrun.
       discriminate. }
  rewrite (asymmetric_ecc_generate_calls ot k w curve key_usage flags cv
             Hu Hc Hm) in Hrun.
  unfold generate_outcome in Hrun.
  destruct (status _ =? 0) eqn:Hs; [| discriminate].
  injection Hrun as <- <-. exists flags, cv.
  repeat split; try assumption. now apply Z.eqb_eq.
Qed.

Lemma crypto_ecc_generate_succeeds (ot : Chip) (k : crypto.ECCKey.t)
    (w : World) (curve : string) (key_usage : option (list string))
    (export : bool) (k' : crypto.ECCKey.t) (st' : crypto.ECCKey.t * World) :
  crypto.ECCKey.generate ot curve key_usage export (k, w) = (Ok k', st') ->
  exists flags cv,
    requested_usage crypto.ECCKey._allowed_key_usage key_usage = Ok flags
    /\ _str2curve_map curve = Some cv
    /\ mem (Curves_value ot cv) (curves_values ot) = true
    /\ let c := keypair_call ot (Curves_value ot cv) flags (Z.b2z export)
                  (key_argument export (crypto.ECCKey.id k)) 150 in
       status (api ot (calls w) c) = 0
       /\ k' = crypto_ecc_generated k curve flags
                 (pub_key_of 150 (api ot (calls w) c)) export
                 (priv_key_of (api ot (calls w) c))
       /\ st' = (k', after_call w c).
Proof.
  intros Hrun.
  destruct (requested_usage_cases crypto.ECCKey._allowed_key_usage
              key_usage) as [[flags Hu] | [entry Hu]].
  2: { rewrite (crypto_ecc_generate_usage_raises ot k w curve key_usage
                  export _ Hu) in Hrun. discriminate. }
  destruct (_str2curve_map curve) as [cv |] eqn:Hc.
  2: { rewrite (proj1 (crypto_ecc_generate_curve_raises ot k w curve
                         key_usage export flags Hu) Hc) in Hrun.
       discriminate. }
  destruct (mem (Curves_value ot cv) (curves_values ot)) eqn:Hm.
  2: { rewrite (proj2 (crypto_ecc_generate_curve_raises ot k w curve
                         key_usage export flags Hu) cv Hc Hm) in Hrun.
       discriminate. }
  rewrite (crypto_ecc_generate_calls ot k w curve key_usage export flags cv
             Hu Hc Hm) in Hrun.
  unfold generate_outcome in Hrun.
  destruct (status _ =? 0) eqn:Hs; [| discriminate].
  injection Hrun as <- <-. exists flags, cv.
  repeat split; try assumption. now apply Z.eqb_eq.
Qed.

Lemma pub_key_of_content (cap : Z) (r : api_result) :
  exists pub,
    pub = pub_key_of cap r
    /\ length pub = Z.to_nat (c_ushort (out_len r))
    /\ (forall raw,
        out r = raw -> out_len r = Z.of_nat (length raw) ->
        Z.of_nat (length raw) <= cap -> cap < 2 ^ 16 -> pub = raw).
Proof.
  exists (pub_key_of cap r). split; [reflexivity |].
  split; [apply length_pub_key_of |].
  intros raw Hout Hlen Hfit Hcap. now apply pub_key_of_fits.
Qed.

(** X8.  A successful ECC [generate] has validated the curve name against
    the six names, has made one call announcing a buffer of 150 bytes, and
    binds the curve name it was given (replacing the one of the
    constructor) and a public key of exactly the length the call reported,
    which is the raw key the call left when that fits the buffer.  It
    leaves the slot id, [_hash_alg] and [_signature] as they were.  Both
    files agree. *)
Theorem ecc_generate_binds_curve_and_public_key (ot : Chip) (w : World)
    (curve : string) (key_usage : option (list string)) :
  (forall k k' st',
      asymmetric.EccKey.generate ot curve key_usage (k, w) = (Ok k', st') ->
      In curve supported_curves
      /\ exists c,
          st' = (k', after_call w c)
          /\ capacity c = 150
          /\ status (api ot (calls w) c) = 0
          /\ asymmetric.EccKey._curve k' = curve
          /\ (exists pub,
                asymmetric.EccKey._pkey k' = Some pub
                /\ length pub
                   = Z.to_nat (c_ushort (out_len (api ot (calls w) c)))
                /\ (forall raw,
                    out (api ot (calls w) c) = raw ->
                    out_len (api ot (calls w) c) = Z.of_nat (length raw) ->
                    Z.of_nat (length raw) <= 150 -> pub = raw))
          /\ asymmetric.EccKey.id k' = asymmetric.EccKey.id k
          /\ asymmetric.EccKey._key_id k' = asymmetric.EccKey._key_id k
          /\ asymmetric.EccKey._hash_alg k' = asymmetric.EccKey._hash_alg k
          /\ asymmetric.EccKey._signature k'
             = asymmetric.EccKey._signature k)
  /\ (forall k export k' st',
      crypto.ECCKey.generate ot curve key_usage export (k, w)
      = (Ok k', st') ->
      In curve supported_curves
      /\ exists c,
          st' = (k', after_call w c)
          /\ capacity c = 150
          /\ status (api ot (calls w) c) = 0
          /\ crypto.ECCKey._curve k' = curve
          /\ (exists pub,
                crypto.ECCKey._pkey k' = Some pub
                /\ length pub
                   = Z.to_nat (c_ushort (out_len (api ot (calls w) c)))
                /\ (forall raw,
                    out (api ot (calls w) c) = raw ->
                    out_len (api ot (calls w) c) = Z.of_nat (length raw) ->
                    Z.of_nat (length raw) <= 150 -> pub = raw))
          /\ crypto.ECCKey.id k' = crypto.ECCKey.id k
          /\ crypto.ECCKey._hash_alg k' = crypto.ECCKey._hash_alg k
          /\ crypto.ECCKey._signature k' = crypto.ECCKey._signature k).
Proof.
  split.
  - intros k k' st' Hrun.
    destruct (asymmetric_ecc_generate_succeeds ot k w curve key_usage k' st'
                Hrun) as [flags [cv [Hu [Hc [Hm H]]]]].
    cbv zeta in H. destruct H as [Hs [-> ->]].
    split; [apply _str2curve_map_supported; congruence |].
    eexists. split; [reflexivity |].
    split; [reflexivity |]. split; [assumption |].
    split; [reflexivity |].
    split; [| repeat split].
    destruct (pub_key_of_content 150 (api ot (calls w)
                (keypair_call ot (Curves_value ot cv) flags 0
                   (byref_key_id (c_ushort (asymmetric.EccKey._key_id k)))
                   150))) as [pub [-> [Hlen Hraw]]].
    eexists. split; [reflexivity |]. split; [assumption |].
    intros raw Hout Hl Hfit. apply Hraw; try assumption. reflexivity.
  - intros k export k' st' Hrun.
    destruct (crypto_ecc_generate_succeeds ot k w curve key_usage export k'
                st' Hrun) as [flags [cv [Hu [Hc [Hm H]]]]].
    cbv zeta in H. destruct H as [Hs [-> ->]].
    split; [apply _str2curve_map_supported; congruence |].
    eexists. split; [reflexivity |].
    split; [reflexivity |]. split; [assumption |].
    split; [reflexivity |].
    split; [| repeat split].
    destruct (pub_key_of_content 150 (api ot (calls w)
                (keypair_call ot (Curves_value ot cv) flags (Z.b2z export)
                   (key_argument export (crypto.ECCKey.id k)) 150)))
      as [pub [-> [Hlen Hraw]]].
    eexists. split; [reflexivity |]. split; [assumption |].
    intros raw Hout Hl Hfit. apply Hraw; try assumption. reflexivity.
Qed.

(** * The paths through [generate], with what each binds *)

Lemma asymmetric_ecc_generate_paths (ot : Chip) (k : asymmetric.EccKey.t)
    (w : World) (curve : string) (key_usage : option (list string)) :
  let run := asymmetric.EccKey.generate ot curve key_usage (k, w) in
  (exists e, run = (Raise e, (k, w)))
  \/ (exists flags cv,
        requested_usage asymmetric.EccKey._allowed_key_usage key_usage
        = Ok flags
        /\ _str2curve_map curve = Some cv
        /\ let c := keypair_call ot (Curves_value ot cv) flags 0
                      (byref_key_id (c_ushort (asymmetric.EccKey._key_id k)))
                      150 in
           run = generate_outcome k
                   (asymmetric_ecc_generated k curve flags
                      (pub_key_of 150 (api ot (calls w) c)))
                   w c (api ot (calls w) c)).
Proof.
  intros run. subst run.
  destruct (requested_usage_cases asymmetric.EccKey._allowed_key_usage
              key_usage) as [[flags Hu] | [entry Hu]].
  - destruct (_str2curve_map curve) as [cv |] eqn:Hc.
    + destruct (mem (Curves_value ot cv) (curves_values ot)) eqn:Hm.
      * right. exists flags, cv. split; [assumption |].
        split; [reflexivity |].
        exact (asymmetric_ecc_generate_calls ot k w curve key_usage flags cv
                 Hu Hc Hm).
      * left. eexists.
        exact (proj2 (asymmetric_ecc_generate_curve_raises ot k w curve
                        key_usage flags Hu) cv Hc Hm).
    + left. eexists.
      exact (proj1 (asymmetric_ecc_generate_curve_raises ot k w curve
                      key_usage flags Hu) Hc).
  - left. eexists.
    exact (asymmetric_ecc_generate_usage_raises ot k w curve key_usage _ Hu).
Qed.

Lemma crypto_ecc_generate_paths (ot : Chip) (k : crypto.ECCKey.t)
    (w : World) (curve : string) (key_usage : option (list string))
    (export : bool) :
  let run := crypto.ECCKey.generate ot curve key_usage export (k, w) in
  (exists e, run = (Raise e, (k, w)))
  \/ (exists flags cv,
        requested_usage crypto.ECCKey._allowed_key_usage key_usage = Ok flags
        /\ _str2curve_map curve = Some cv
        /\ let c := keypair_call ot (Curves_value ot cv) flags (Z.b2z export)
                      (key_argument export (crypto.ECCKey.id k)) 150 in
           run = generate_outcome k
                   (crypto_ecc_generated k curve flags
                      (pub_key_of 150 (api ot (calls w) c)) export
                      (priv_key_of (api ot (calls w) c)))
                   w c (api ot (calls w) c)).
Proof.
  intros run. subst run.
  destruct (requested_usage_cases crypto.ECCKey._allowed_key_usage
              key_usage) as [[flags Hu] | [entry Hu]].
  - destruct (_str2curve_map curve) as [cv |] eqn:Hc.
    + destruct (mem (Curves_value ot cv) (curves_values ot)) eqn:Hm.
      * right. exists flags, cv. split; [assumption |].
        split; [reflexivity |].
        exact (crypto_ecc_generate_calls ot k w curve key_usage export flags
                 cv Hu Hc Hm).
      * left. eexists.
        exact (proj2 (crypto_ecc_generate_curve_raises ot k w curve
                        key_usage export flags Hu) cv Hc Hm).
    + left. eexists.
      exact (proj1 (crypto_ecc_generate_curve_raises ot k w curve
                      key_usage export flags Hu) Hc).
  - left. eexists.
    exact (crypto_ecc_generate_usage_raises ot k w curve key_usage export _
             Hu).
Qed.

Lemma asymmetric_rsa_generate_paths (ot : Chip) (k : asymmetric.RsaKey.t)
    (w : World) (key_size : Z) (key_usage : option (list string)) :
  let run := asymmetric.RsaKey.generate ot key_size key_usage (k, w) in
  (exists e, run = (Raise e, (k, w)))
  \/ (exists flags,
        requested_usage asymmetric.RsaKey._allowed_key_usages key_usage
        = Ok flags
        /\ (key_size = 1024 \/ key_size = 2048)
        /\ let c := keypair_call ot (rsa_keytype key_size) flags 0
                      (byref_key_id (c_ushort (asymmetric.RsaKey.id k)))
                      320 in
           run = generate_outcome k
                   (asymmetric_rsa_generated k key_size flags
                      (rsa_header key_size
                       ++ pub_key_of 320 (api ot (calls w) c)))
                   w c (api ot (calls w) c)).
Proof.
  intros run. subst run.
  destruct (requested_usage_cases asymmetric.RsaKey._allowed_key_usages
              key_usage) as [[flags Hu] | [entry Hu]].
  - destruct (mem key_size allowed_key_sizes) eqn:Hm.
    + right. exists flags. split; [assumption |].
      split; [now apply allowed_key_sizes_spec |].
      exact (asymmetric_rsa_generate_calls ot k w key_size key_usage flags
               Hu Hm).
    + left. eexists.
      exact (asymmetric_rsa_generate_size_raises ot k w key_size key_usage
               flags Hu Hm).
  - left. eexists.
    exact (asymmetric_rsa_generate_usage_raises ot k w key_size key_usage _
             Hu).
Qed.

Lemma crypto_rsa_generate_paths (ot : Chip) (k : crypto.RSAKey.t)
    (w : World) (key_size : Z) (key_usage : option (list string))
    (export : bool) :
  let run := crypto.RSAKey.generate ot key_size key_usage export (k, w) in
  (exists e, run = (Raise e, (k, w)))
  \/ (exists flags,
        requested_usage crypto.RSAKey._allowed_key_usages key_usage
        = Ok flags
        /\ (key_size = 1024 \/ key_size = 2048)
        /\ let c := keypair_call ot (rsa_keytype key_size) flags
                      (Z.b2z export)
                      (key_argument export (crypto.RSAKey.id k)) 320 in
           run = generate_outcome k
                   (crypto_rsa_generated k key_size flags
                      (rsa_header key_size
                       ++ pub_key_of 320 (api ot (calls w) c))
                      export (priv_key_of (api ot (calls w) c)))
                   w c (api ot (calls w) c)).
Proof.
  intros run. subst run.
  destruct (requested_usage_cases crypto.RSAKey._allowed_key_usages
              key_usage) as [[flags Hu] | [entry Hu]].
  - destruct (mem key_size allowed_key_sizes) eqn:Hm.
    + right. exists flags. split; [assumption |].
      split; [now apply allowed_key_sizes_spec |].
      exact (crypto_rsa_generate_calls ot k w key_size key_usage export
               flags Hu Hm).
    + left. eexists.
      exact (crypto_rsa_generate_size_raises ot k w key_size key_usage
               export flags Hu Hm).
  - left. eexists.
    exact (crypto_rsa_generate_usage_raises ot k w key_size key_usage export
             _ Hu).
Qed.

(** * Exporting the private key *)

(** What a run that reached the secure element says about the private
    key, for an object type with a private-key field [key]. *)
Lemma export_outcome {Self} (key : Self -> option bytes) (ot : Chip)
    (old new : Self) (w : World) (c : api_call) (export : bool)
    (run : result Self * (Self * World)) :
  run = generate_outcome old new w c (api ot (calls w) c) ->
  key new = (if export then Some (priv_key_of (api ot (calls w) c))
             else key old) ->
  (forall c0, calls (snd (snd run)) = calls w ++ [c0] -> c0 = c)
  /\ (export = false -> key (fst (snd run)) = key old)
  /\ (forall e, fst run = Raise e -> key (fst (snd run)) = key old)
  /\ (export = true -> forall k', fst run = Ok k' ->
      exists priv,
        key k' = Some priv /\ length priv = 104%nat
        /\ priv = buffer_after 104 (key_out (api ot (calls w) c))).
Proof.
  intros -> Hkey. unfold generate_outcome.
  destruct (status _ =? 0); simpl.
  - split; [intros c0 H; apply app_inv_head in H; now injection H |].
    split; [intros ->; exact Hkey |].
    split; [discriminate |].
    intros -> k' H. injection H as <-.
    destruct (priv_key_of_buffer (api ot (calls w) c)) as [Hl [Hb _]].
    exists (priv_key_of (api ot (calls w) c)).
    split; [exact Hkey | split; assumption].
  - split; [intros c0 H; apply app_inv_head in H; now injection H |].
    split; [reflexivity |]. split; [reflexivity |]. discriminate.
Qed.

(** X9.  In [crypto.py], [generate] with [export] passes the flag 1 and a
    buffer of 104 bytes in place of the slot reference, and on success
    stores the 104 bytes of that buffer as the private key.  Without
    [export] it passes the flag 0 and the slot id, and the private-key field
    stays as it was in every outcome, so on a fresh object it stays absent.
    A [generate] that raises never touches the private key.  ECC and RSA
    keys alike. *)
Theorem private_key_only_on_export (ot : Chip) (w : World) (export : bool) :
  (forall k curve key_usage,
      let run := crypto.ECCKey.generate ot curve key_usage export (k, w) in
      (forall c, calls (snd (snd run)) = calls w ++ [c] ->
         exists kind mask,
           c = exp_optiga_crypt_ecc_generate_keypair kind mask
                 (if export then 1 else 0)
                 (if export then key_buffer 104
                  else byref_key_id (c_ushort (crypto.ECCKey.id k))) 150
           /\ (export = true -> forall k', fst run = Ok k' ->
               exists priv,
                 crypto.ECCKey._key k' = Some priv
                 /\ length priv = 104%nat
                 /\ priv = buffer_after 104 (key_out (api ot (calls w) c))))
      /\ (export = false ->
          crypto.ECCKey._key (fst (snd run)) = crypto.ECCKey._key k)
      /\ (forall e, fst run = Raise e ->
          crypto.ECCKey._key (fst (snd run)) = crypto.ECCKey._key k))
  /\ (forall k key_size key_usage,
      let run := crypto.RSAKey.generate ot key_size key_usage export (k, w) in
      (forall c, calls (snd (snd run)) = calls w ++ [c] ->
         exists kind mask,
           c = exp_optiga_crypt_ecc_generate_keypair kind mask
                 (if export then 1 else 0)
                 (if export then key_buffer 104
                  else byref_key_id (c_ushort (crypto.RSAKey.id k))) 320
           /\ (export = true -> forall k', fst run = Ok k' ->
               exists priv,
                 crypto.RSAKey._key k' = Some priv
                 /\ length priv = 104%nat
                 /\ priv = buffer_after 104 (key_out (api ot (calls w) c))))
      /\ (export = false ->
          crypto.RSAKey._key (fst (snd run)) = crypto.RSAKey._key k)
      /\ (forall e, fst run = Raise e ->
          crypto.RSAKey._key (fst (snd run)) = crypto.RSAKey._key k)).
Proof.
  split.
  - intros k curve key_usage run. subst run.
    destruct (crypto_ecc_generate_paths ot k w curve key_usage export)
      as [[e H] | [flags [cv [Hu [Hc H]]]]]; cbv zeta in H.
    + rewrite H. simpl. split; [| split; reflexivity].
      intros c Hcall. symmetry in Hcall. now apply no_call_made in Hcall.
    + destruct (export_outcome crypto.ECCKey._key ot _ _ w _ export _ H
                  eq_refl) as [Hthe [Hno [Hraise Hyes]]].
      split; [| split; assumption].
      intros c Hcall. apply Hthe in Hcall. subst c.
      unfold keypair_call, key_argument. eexists. eexists.
      split; [destruct export; reflexivity | exact Hyes].
  - intros k key_size key_usage run. subst run.
    destruct (crypto_rsa_generate_paths ot k w key_size key_usage export)
      as [[e H] | [flags [Hu [Hsize H]]]]; cbv zeta in H.
    + rewrite H. simpl. split; [| split; reflexivity].
      intros c Hcall. symmetry in Hcall. now apply no_call_made in Hcall.
    + destruct (export_outcome crypto.RSAKey._key ot _ _ w _ export _ H
                  eq_refl) as [Hthe [Hno [Hraise Hyes]]].
      split; [| split; assumption].
      intros c Hcall. apply Hthe in Hcall. subst c.
      unfold keypair_call, key_argument. eexists. eexists.
      split; [destruct export; reflexivity | exact Hyes].
Qed.

Lemma crypto_rsa_generate_succeeds (ot : Chip) (k : crypto.RSAKey.t)
    (w : World) (key_size : Z) (key_usage : option (list string))
    (export : bool) (k' : crypto.RSAKey.t) (st' : crypto.RSAKey.t * World) :
  crypto.RSAKey.generate ot key_size key_usage export (k, w) = (Ok k', st') ->
  exists flags,
    requested_usage crypto.RSAKey._allowed_key_usages key_usage = Ok flags
    /\ (key_size = 1024 \/ key_size = 2048)
    /\ let c := keypair_call ot (rsa_keytype key_size) flags (Z.b2z export)
                  (key_argument export (crypto.RSAKey.id k)) 320 in
       status (api ot (calls w) c) = 0
       /\ k' = crypto_rsa_generated k key_size flags
                 (rsa_header key_size ++ pub_key_of 320 (api ot (calls w) c))
                 export (priv_key_of (api ot (calls w) c))
       /\ st' = (k', after_call w c).
Proof.
  intros Hrun.
  destruct (crypto_rsa_generate_paths ot k w key_size key_usage export)
    as [[e H] | [flags [Hu [Hsize H]]]]; cbv zeta in H;
    rewrite H in Hrun; [discriminate |].
  unfold generate_outcome in Hrun.
  destruct (status _ =? 0) eqn:Hs; [| discriminate].
  injection Hrun as <- <-. exists flags.
  repeat split; try assumption. now apply Z.eqb_eq.
Qed.

Lemma asymmetric_rsa_generate_succeeds (ot : Chip) (k : asymmetric.RsaKey.t)
    (w : World) (key_size : Z) (key_usage : option (list string))
    (k' : asymmetric.RsaKey.t) (st' : asymmetric.RsaKey.t * World) :
  asymmetric.RsaKey.generate ot key_size key_usage (k, w) = (Ok k', st') ->
  exists flags,
    requested_usage asymmetric.RsaKey._allowed_key_usages key_usage
    = Ok flags
    /\ (key_size = 1024 \/ key_size = 2048)
    /\ let c := keypair_call ot (rsa_keytype key_size) flags 0
                  (byref_key_id (c_ushort (asymmetric.RsaKey.id k))) 320 in
       status (api ot (calls w) c) = 0
       /\ k' = asymmetric_rsa_generated k key_size flags
                 (rsa_header key_size ++ pub_key_of 320 (api ot (calls w) c))
       /\ st' = (k', after_call w c).
Proof.
  intros Hrun.
  destruct (asymmetric_rsa_generate_paths ot k w key_size key_usage)
    as [[e H] | [flags [Hu [Hsize H]]]]; cbv zeta in H;
    rewrite H in Hrun; [discriminate |].
  unfold generate_outcome in Hrun.
  destruct (status _ =? 0) eqn:Hs; [| discriminate].
  injection Hrun as <- <-. exists flags.
  repeat split; try assumption. now apply Z.eqb_eq.
Qed.

(** X10.  Generating again on the same object replaces the public key but,
    without [export], not the private key: after a successful [generate]
    with [export] and a second successful one without, the object holds the
    public key of the second call next to the private key of the first.
    ECC and RSA keys of [crypto.py] alike. *)
Theorem regenerating_keeps_exported_private_key (ot : Chip) (w : World) :
  (forall k curve1 usage1 curve2 usage2 k1 st1 k2 st2,
      crypto.ECCKey.generate ot curve1 usage1 true (k, w) = (Ok k1, st1) ->
      crypto.ECCKey.generate ot curve2 usage2 false st1 = (Ok k2, st2) ->
      exists c1 c2,
        calls (snd st2) = calls w ++ [c1; c2]
        /\ crypto.ECCKey._key k2
           = Some (buffer_after 104 (key_out (api ot (calls w) c1)))
        /\ crypto.ECCKey._key k2 = crypto.ECCKey._key k1
        /\ crypto.ECCKey._pkey k2
           = Some (pub_key_of 150 (api ot (calls w ++ [c1]) c2))
        /\ crypto.ECCKey._curve k2 = curve2)
  /\ (forall k size1 usage1 size2 usage2 k1 st1 k2 st2,
      crypto.RSAKey.generate ot size1 usage1 true (k, w) = (Ok k1, st1) ->
      crypto.RSAKey.generate ot size2 usage2 false st1 = (Ok k2, st2) ->
      exists c1 c2,
        calls (snd st2) = calls w ++ [c1; c2]
        /\ crypto.RSAKey._key k2
           = Some (buffer_after 104 (key_out (api ot (calls w) c1)))
        /\ crypto.RSAKey._key k2 = crypto.RSAKey._key k1
        /\ crypto.RSAKey._pkey k2
           = Some (rsa_header size2
                   ++ pub_key_of 320 (api ot (calls w ++ [c1]) c2))
        /\ crypto.RSAKey._key_size k2 = Some size2).
Proof.
  split.
  - intros k curve1 usage1 curve2 usage2 k1 st1 k2 st2 H1 H2.
    destruct (crypto_ecc_generate_succeeds ot k w curve1 usage1 true k1 st1
                H1) as [f1 [cv1 [_ [_ [_ E1]]]]].
    cbv zeta in E1. destruct E1 as [_ [Hk1 ->]].
    destruct (crypto_ecc_generate_succeeds ot k1 _ curve2 usage2 false k2 st2
                H2) as [f2 [cv2 [_ [_ [_ E2]]]]].
    cbv zeta in E2. destruct E2 as [_ [Hk2 ->]].
    eexists. eexists. split; [simpl; rewrite <- app_assoc; reflexivity |].
    rewrite Hk2, Hk1. simpl.
    repeat split. f_equal.
    exact (proj1 (proj2 (priv_key_of_buffer _))).
  - intros k size1 usage1 size2 usage2 k1 st1 k2 st2 H1 H2.
    destruct (crypto_rsa_generate_succeeds ot k w size1 usage1 true k1 st1
                H1) as [f1 [_ [_ E1]]].
    cbv zeta in E1. destruct E1 as [_ [Hk1 ->]].
    destruct (crypto_rsa_generate_succeeds ot k1 _ size2 usage2 false k2 st2
                H2) as [f2 [_ [_ E2]]].
    cbv zeta in E2. destruct E2 as [_ [Hk2 ->]].
    eexists. eexists. split; [simpl; rewrite <- app_assoc; reflexivity |].
    rewrite Hk2, Hk1. simpl.
    repeat split. f_equal.
    exact (proj1 (proj2 (priv_key_of_buffer _))).
Qed.

Lemma regenerating_keeps_exported_private_key_witness :
  exists k1 st1 k2 st2,
    crypto.ECCKey.generate
      (example_chip (answers_in_turn
                       [example_export_answer [0x11; 0x11] (repeat 0xAA 104);
                        example_export_answer [0x22; 0x22] []]))
      "secp256r1" None true (example_crypto_ecc_key, empty_world)
    = (Ok k1, st1)
    /\ crypto.ECCKey.generate
         (example_chip (answers_in_turn
                          [example_export_answer [0x11; 0x11]
                             (repeat 0xAA 104);
                           example_export_answer [0x22; 0x22] []]))
         "secp384r1" None false st1
       = (Ok k2, st2)
    /\ crypto.ECCKey._pkey k2 = Some [0x22; 0x22]
    /\ crypto.ECCKey._key k2 = Some (repeat 0xAA 104)
    /\ crypto.ECCKey._key k2 = crypto.ECCKey._key k1.
Proof.
  eexists. eexists. eexists. eexists.
  split; [vm_compute; reflexivity |].
  split; [vm_compute; reflexivity |].
  split; [reflexivity |]. split; [reflexivity |].
  destruct (proj1 (regenerating_keeps_exported_private_key
                     (example_chip
                        (answers_in_turn
                           [example_export_answer [0x11; 0x11]
                              (repeat 0xAA 104);
                            example_export_answer [0x22; 0x22] []]))
                     empty_world)
              example_crypto_ecc_key "secp256r1"%string None
              "secp384r1"%string None _ _ _ _ eq_refl eq_refl)
    as [c1 [c2 [_ [_ [Hsame _]]]]].
  exact Hsame.
Defined.

(** * Generating, then signing *)

Lemma generated_curve_has_a_row (hashlib : Hashlib) (curve : string)
    (cv : Curves) :
  _str2curve_map curve = Some cv ->
  exists param, ecdsa_sign_map hashlib curve = Some param.
Proof.
  intros H.
  destruct (ecdsa_sign_map hashlib curve) as [param |] eqn:E;
    [now exists param |].
  exfalso. apply (proj1 (curve_tables_agree hashlib curve)); congruence.
Qed.

(** X11.  The two curve tables have the same six names, so a key object on
    which [generate] has succeeded can sign whatever has a payload: with
    binary data, or with text that UTF-8 can encode, [ecdsa_sign] reaches
    the secure element, with the digest of the curve given to [generate],
    not of the curve given to the constructor, and the one way it can then
    fail is a hardware fault.  Both files agree. *)
Theorem generated_key_signs_on_its_new_curve (ot : Chip) (hashlib : Hashlib)
    (w : World) (curve : string) (key_usage : option (list string))
    (data : pyobj) (d : bytes) :
  payload data = Some d ->
  (forall k k1 st1,
      asymmetric.EccKey.generate ot curve key_usage (k, w) = (Ok k1, st1) ->
      exists param,
        ecdsa_sign_map hashlib curve = Some param
        /\ let run := asymmetric.EccKey.ecdsa_sign ot hashlib data st1 in
           calls (snd (snd run))
           = calls (snd st1)
             ++ [ecdsa_call param d (asymmetric.EccKey._key_id k)]
           /\ asymmetric.EccKey._hash_alg (fst (snd run))
              = Some (param_name param)
           /\ (forall e, fst run = Raise e ->
               exists code, code <> 0
                            /\ e = IOError (msg_cant_be_executed code)))
  /\ (forall k export k1 st1,
      crypto.ECCKey.generate ot curve key_usage export (k, w)
      = (Ok k1, st1) ->
      exists param,
        ecdsa_sign_map hashlib curve = Some param
        /\ let run := crypto.ECCKey.ecdsa_sign ot hashlib data st1 in
           calls (snd (snd run))
           = calls (snd st1) ++ [ecdsa_call param d (crypto.ECCKey.id k)]
           /\ crypto.ECCKey._hash_alg (fst (snd run))
              = Some (param_name param)
           /\ (forall e, fst run = Raise e ->
               exists code, code <> 0
                            /\ e = IOError (msg_cant_be_executed code))).
Proof.
  intros Hd. split.
  - intros k k1 st1 Hgen.
    destruct (asymmetric_ecc_generate_succeeds ot k w curve key_usage k1 st1
                Hgen) as [flags [cv [_ [Hc [_ E]]]]].
    cbv zeta in E. destruct E as [_ [Hk1 ->]].
    destruct (generated_curve_has_a_row hashlib curve cv Hc) as [param Hp].
    exists param. split; [assumption |]. cbv zeta.
    assert (Hp1 : ecdsa_sign_map hashlib (asymmetric.EccKey._curve k1)
                  = Some param) by (now rewrite Hk1).
    rewrite (asymmetric_ecdsa_sign_runs ot hashlib k1 data _ d param Hd Hp1).
    rewrite Hk1. simpl. rewrite calls_advised.
    split; [reflexivity |]. split; [reflexivity |].
    intros e. destruct (Z.eqb_spec (status
      (api ot (calls w ++ [keypair_call ot (Curves_value ot cv) flags 0
         (byref_key_id (c_ushort (asymmetric.EccKey._key_id k))) 150])
         (ecdsa_call param d (asymmetric.EccKey._key_id k)))) 0) as [E0 | E0];
      intros H; [discriminate |].
    injection H as <-. eexists. split; [exact E0 | reflexivity].
  - intros k export k1 st1 Hgen.
    destruct (crypto_ecc_generate_succeeds ot k w curve key_usage export k1
                st1 Hgen) as [flags [cv [_ [Hc [_ E]]]]].
    cbv zeta in E. destruct E as [_ [Hk1 ->]].
    destruct (generated_curve_has_a_row hashlib curve cv Hc) as [param Hp].
    exists param. split; [assumption |]. cbv zeta.
    assert (Hp1 : ecdsa_sign_map hashlib (crypto.ECCKey._curve k1)
                  = Some param) by (now rewrite Hk1).
    rewrite (crypto_ecdsa_sign_runs ot hashlib k1 data _ d param Hd Hp1).
    rewrite Hk1. simpl. rewrite calls_advised.
    split; [reflexivity |]. split; [reflexivity |].
    intros e. destruct (Z.eqb_spec (status
      (api ot (calls w ++ [keypair_call ot (Curves_value ot cv) flags
         (Z.b2z export) (key_argument export (crypto.ECCKey.id k)) 150])
         (ecdsa_call param d (crypto.ECCKey.id k)))) 0) as [E0 | E0];
      intros H; [discriminate |].
    injection H as <-. eexists. split; [exact E0 | reflexivity].
Qed.

Lemma generated_key_signs_on_its_new_curve_witness :
  exists k1 st1,
    crypto.ECCKey.generate (example_chip (answers (example_answer 0 [7; 7])))
      "secp384r1" None false (example_crypto_ecc_key, empty_world)
    = (Ok k1, st1)
    /\ crypto.ECCKey._curve example_crypto_ecc_key = "secp256r1"%string
    /\ crypto.ECCKey._hash_alg
         (fst (snd (crypto.ECCKey.ecdsa_sign
                      (example_chip (answers (example_answer 0 [7; 7])))
                      example_hashlib (PyBytes [0x61]) st1)))
       = Some "sha384"%string.
Proof.
  eexists. eexists. split; [vm_compute; reflexivity |].
  split; [reflexivity |].
  destruct (proj2 (generated_key_signs_on_its_new_curve
                     (example_chip (answers (example_answer 0 [7; 7])))
                     example_hashlib empty_world "secp384r1" None
                     (PyBytes [0x61]) [0x61] eq_refl)
              example_crypto_ecc_key false _ _ eq_refl)
    as [param [Hp [_ [Hh _]]]].
  vm_compute in Hp. injection Hp as <-. exact Hh.
Defined.

(** * Usage lists that are empty or repeat a name *)

(** X12.  An empty usage list is not the absent argument: all four
    [generate] methods then hand the secure element the usage byte 0 and, on
    success, bind the empty usage, where an absent argument gives the
    default [KEY_AGR] and [SIGN]. *)
Theorem empty_usage_list_is_not_the_default (ot : Chip) (w : World) :
  usage_mask ot [] = 0
  /\ (forall k curve cv,
      _str2curve_map curve = Some cv ->
      mem (Curves_value ot cv) (curves_values ot) = true ->
      let run := asymmetric.EccKey.generate ot curve (Some []) (k, w) in
      let c := exp_optiga_crypt_ecc_generate_keypair (Curves_value ot cv) 0 0
                 (byref_key_id (c_ushort (asymmetric.EccKey._key_id k)))
                 150 in
      calls (snd (snd run)) = calls w ++ [c]
      /\ (status (api ot (calls w) c) = 0 ->
          asymmetric.EccKey._key_usage (fst (snd run)) = Some []))
  /\ (forall k curve cv export,
      _str2curve_map curve = Some cv ->
      mem (Curves_value ot cv) (curves_values ot) = true ->
      let run := crypto.ECCKey.generate ot curve (Some []) export (k, w) in
      let c := exp_optiga_crypt_ecc_generate_keypair (Curves_value ot cv) 0
                 (Z.b2z export) (key_argument export (crypto.ECCKey.id k))
                 150 in
      calls (snd (snd run)) = calls w ++ [c]
      /\ (status (api ot (calls w) c) = 0 ->
          crypto.ECCKey._key_usage (fst (snd run)) = Some []))
  /\ (forall k key_size,
      key_size = 1024 \/ key_size = 2048 ->
      let run := asymmetric.RsaKey.generate ot key_size (Some []) (k, w) in
      let c := exp_optiga_crypt_ecc_generate_keypair (rsa_keytype key_size)
                 0 0 (byref_key_id (c_ushort (asymmetric.RsaKey.id k)))
                 320 in
      calls (snd (snd run)) = calls w ++ [c]
      /\ (status (api ot (calls w) c) = 0 ->
          asymmetric.RsaKey._key_usage (fst (snd run)) = Some []))
  /\ (forall k key_size export,
      key_size = 1024 \/ key_size = 2048 ->
      let run := crypto.RSAKey.generate ot key_size (Some []) export (k, w) in
      let c := exp_optiga_crypt_ecc_generate_keypair (rsa_keytype key_size)
                 0 (Z.b2z export) (key_argument export (crypto.RSAKey.id k))
                 320 in
      calls (snd (snd run)) = calls w ++ [c]
      /\ (status (api ot (calls w) c) = 0 ->
          crypto.RSAKey._key_usage (fst (snd run)) = Some []))
  /\ (forall allowed, requested_usage allowed None = Ok [KEY_AGR; SIGN]).
Proof.
  split; [reflexivity |].
  split; [| split; [| split; [| split; [| reflexivity]]]].
  - intros k curve cv Hc Hm run c. subst run c.
    rewrite (asymmetric_ecc_generate_calls ot k w curve (Some []) [] cv
               eq_refl Hc Hm).
    split; [apply generate_outcome_calls |].
    intros Hs. now rewrite generate_outcome_ok.
  - intros k curve cv export Hc Hm run c. subst run c.
    rewrite (crypto_ecc_generate_calls ot k w curve (Some []) export [] cv
               eq_refl Hc Hm).
    split; [apply generate_outcome_calls |].
    intros Hs. now rewrite generate_outcome_ok.
  - intros k key_size Hsize run c. subst run c.
    apply allowed_key_sizes_spec in Hsize.
    rewrite (asymmetric_rsa_generate_calls ot k w key_size (Some []) []
               eq_refl Hsize).
    split; [apply generate_outcome_calls |].
    intros Hs. now rewrite generate_outcome_ok.
  - intros k key_size export Hsize run c. subst run c.
    apply allowed_key_sizes_spec in Hsize.
    rewrite (crypto_rsa_generate_calls ot k w key_size (Some []) export []
               eq_refl Hsize).
    split; [apply generate_outcome_calls |].
    intros Hs. now rewrite generate_outcome_ok.
Qed.

Lemma doubled_bit_is_lost (ot : Chip) (ku : KeyUsage) :
  bit_valued ot ->
  Z.land (usage_mask ot [ku; ku]) (key_usage_value ot ku) = 0.
Proof.
  intros [Hbit _]. destruct (Hbit ku) as [b [Hb Hv]].
  unfold usage_mask, c_ubyte. simpl map.
  rewrite !sum_cons. change (sum []) with 0. rewrite Hv, Z.add_0_r.
  replace (2 ^ b + 2 ^ b) with (2 ^ (b + 1))
    by (rewrite Z.pow_add_r by lia; lia).
  apply Z.eqb_eq. rewrite land_pow2_testbit by lia.
  rewrite Z.mod_pow2_bits_low by lia.
  rewrite Z.pow2_bits_false by lia. reflexivity.
Qed.

(** X13.  The usage byte is an arithmetic sum over the list as given, so a
    name given twice is added twice: with usage values that are bit values,
    the byte sent for a list that names one usage twice no longer has the
    bit of that usage, while the object binds the member twice.  ECC and RSA
    methods of both files. *)
Theorem repeated_usage_name_is_lost (ot : Chip) (w : World)
    (entry : string) (ku : KeyUsage) :
  bit_valued ot ->
  asymmetric.RsaKey._allowed_key_usages entry = Some ku ->
  ~ In ku (decode_usage ot (usage_mask ot [ku; ku]))
  /\ (forall k key_size,
      key_size = 1024 \/ key_size = 2048 ->
      let run :=
        asymmetric.RsaKey.generate ot key_size (Some [entry; entry]) (k, w) in
      let c := exp_optiga_crypt_ecc_generate_keypair (rsa_keytype key_size)
                 (usage_mask ot [ku; ku]) 0
                 (byref_key_id (c_ushort (asymmetric.RsaKey.id k))) 320 in
      calls (snd (snd run)) = calls w ++ [c]
      /\ (status (api ot (calls w) c) = 0 ->
          asymmetric.RsaKey._key_usage (fst (snd run)) = Some [ku; ku]))
  /\ (forall k key_size export,
      key_size = 1024 \/ key_size = 2048 ->
      let run := crypto.RSAKey.generate ot key_size (Some [entry; entry])
                   export (k, w) in
      let c := exp_optiga_crypt_ecc_generate_keypair (rsa_keytype key_size)
                 (usage_mask ot [ku; ku]) (Z.b2z export)
                 (key_argument export (crypto.RSAKey.id k)) 320 in
      calls (snd (snd run)) = calls w ++ [c]
      /\ (status (api ot (calls w) c) = 0 ->
          crypto.RSAKey._key_usage (fst (snd run)) = Some [ku; ku]))
  /\ (ku <> ENCRYPT ->
      (forall k curve cv,
          _str2curve_map curve = Some cv ->
          mem (Curves_value ot cv) (curves_values ot) = true ->
          let run := asymmetric.EccKey.generate ot curve
                       (Some [entry; entry]) (k, w) in
          let c := exp_optiga_crypt_ecc_generate_keypair (Curves_value ot cv)
                     (usage_mask ot [ku; ku]) 0
                     (byref_key_id (c_ushort (asymmetric.EccKey._key_id k)))
                     150 in
          calls (snd (snd run)) = calls w ++ [c]
          /\ (status (api ot (calls w) c) = 0 ->
              asymmetric.EccKey._key_usage (fst (snd run)) = Some [ku; ku]))
      /\ (forall k curve cv export,
          _str2curve_map curve = Some cv ->
          mem (Curves_value ot cv) (curves_values ot) = true ->
          let run := crypto.ECCKey.generate ot curve (Some [entry; entry])
                       export (k, w) in
          let c := exp_optiga_crypt_ecc_generate_keypair (Curves_value ot cv)
                     (usage_mask ot [ku; ku]) (Z.b2z export)
                     (key_argument export (crypto.ECCKey.id k)) 150 in
          calls (snd (snd run)) = calls w ++ [c]
          /\ (status (api ot (calls w) c) = 0 ->
              crypto.ECCKey._key_usage (fst (snd run)) = Some [ku; ku]))).
Proof.
  intros Hbits Hallowed.
  assert (Hrsa : requested_usage asymmetric.RsaKey._allowed_key_usages
                   (Some [entry; entry]) = Ok [ku; ku])
    by (simpl; now rewrite Hallowed).
  split; [| split; [| split]].
  - unfold decode_usage. rewrite filter_In.
    rewrite (doubled_bit_is_lost ot ku Hbits). simpl. intros [_ H].
    discriminate.
  - intros k key_size Hsize run c. subst run c.
    apply allowed_key_sizes_spec in Hsize.
    rewrite (asymmetric_rsa_generate_calls ot k w key_size _ _ Hrsa Hsize).
    split; [apply generate_outcome_calls |].
    intros Hs. now rewrite generate_outcome_ok.
  - intros k key_size export Hsize run c. subst run c.
    apply allowed_key_sizes_spec in Hsize.
    rewrite (crypto_rsa_generate_calls ot k w key_size _ export _ Hrsa Hsize).
    split; [apply generate_outcome_calls |].
    intros Hs. now rewrite generate_outcome_ok.
  - intros Hne.
    assert (Hecc : requested_usage asymmetric.EccKey._allowed_key_usage
                     (Some [entry; entry]) = Ok [ku; ku]).
    { assert (He : asymmetric.EccKey._allowed_key_usage entry = Some ku).
      { apply rsa_allowed_names in Hallowed. subst entry.
        destruct ku; try reflexivity. now contradiction Hne. }
      simpl. now rewrite He. }
    split.
    + intros k curve cv Hc Hm run c. subst run c.
      rewrite (asymmetric_ecc_generate_calls ot k w curve _ _ cv Hecc Hc Hm).
      split; [apply generate_outcome_calls |].
      intros Hs. now rewrite generate_outcome_ok.
    + intros k curve cv export Hc Hm run c. subst run c.
      rewrite (crypto_ecc_generate_calls ot k w curve _ export _ cv Hecc Hc
                 Hm).
      split; [apply generate_outcome_calls |].
      intros Hs. now rewrite generate_outcome_ok.
Qed.

Lemma repeated_usage_name_is_lost_witness :
  calls (snd (snd (crypto.RSAKey.generate
                     (example_chip (answers (example_answer 0 [])))
                     1024 (Some ["signature"; "signature"]%string) false
                     (example_crypto_rsa_key, empty_world))))
  = [exp_optiga_crypt_ecc_generate_keypair 0x41 0x20 0
       (byref_key_id 0xE0FC) 320]
  /\ example_key_usage_value KEY_AGR = 0x20
  /\ ~ In SIGN (decode_usage (example_chip (answers (example_answer 0 [])))
                             0x20).
Proof.
  destruct (repeated_usage_name_is_lost
              (example_chip (answers (example_answer 0 []))) empty_world
              "signature" SIGN (example_chip_bit_valued _) eq_refl)
    as [Hlost _].
  split; [reflexivity |]. split; [reflexivity |]. exact Hlost.
Defined.

(** * Curve errors of the ECC [generate] *)

Lemma ecc_usage_admitted_requested (key_usage : option (list string)) :
  ecc_usage_admitted key_usage ->
  exists flags,
    requested_usage asymmetric.EccKey._allowed_key_usage key_usage
    = Ok flags.
Proof.
  destruct key_usage as [l |]; intros H.
  - eexists. exact (requested_usage_admitted _ _ l ecc_allowed_domain H).
  - eexists. reflexivity.
Qed.

(** X14.  With a usage argument that passes, the ECC [generate] methods
    raise the curve error before any call, with the object untouched, in
    two ways: a [ValueError] for a curve name outside the six, and a
    [TypeError] carrying the curve value for a name among the six whose
    value the chip does not list.  Both files agree. *)
Theorem ecc_generate_curve_errors (ot : Chip) (w : World) (curve : string)
    (key_usage : option (list string)) :
  ecc_usage_admitted key_usage ->
  (~ In curve supported_curves ->
   (forall k,
       asymmetric.EccKey.generate ot curve key_usage (k, w)
       = (Raise (ValueError (msg_curve_not_supported curve)), (k, w)))
   /\ (forall k export,
       crypto.ECCKey.generate ot curve key_usage export (k, w)
       = (Raise (ValueError (msg_curve_not_supported curve)), (k, w))))
  /\ (forall cv,
      _str2curve_map curve = Some cv ->
      ~ In (Curves_value ot cv) (curves_values ot) ->
      (forall k,
          asymmetric.EccKey.generate ot curve key_usage (k, w)
          = (Raise (TypeError (msg_object_id_not_found (Curves_value ot cv))),
             (k, w)))
      /\ (forall k export,
          crypto.ECCKey.generate ot curve key_usage export (k, w)
          = (Raise (TypeError (msg_object_id_not_found (Curves_value ot cv))),
             (k, w)))
      /\ kind_of (TypeError (msg_object_id_not_found (Curves_value ot cv)))
         = UnsupportedCurve).
Proof.
  intros Hadm. destruct (ecc_usage_admitted_requested key_usage Hadm)
    as [flags Hu].
  split.
  - intros Hout.
    assert (Hc : _str2curve_map curve = None).
    { destruct (_str2curve_map curve) eqn:E; [| reflexivity].
      exfalso. apply Hout, _str2curve_map_supported. congruence. }
    split.
    + intros k.
      exact (proj1 (asymmetric_ecc_generate_curve_raises ot k w curve
                      key_usage flags Hu) Hc).
    + intros k export.
      exact (proj1 (crypto_ecc_generate_curve_raises ot k w curve key_usage
                      export flags Hu) Hc).
  - intros cv Hc Hout. apply mem_not_In in Hout.
    split; [| split; [| reflexivity]].
    + intros k.
      exact (proj2 (asymmetric_ecc_generate_curve_raises ot k w curve
                      key_usage flags Hu) cv Hc Hout).
    + intros k export.
      exact (proj2 (crypto_ecc_generate_curve_raises ot k w curve key_usage
                      export flags Hu) cv Hc Hout).
Qed.

Lemma ecc_generate_curve_errors_witness :
  crypto.ECCKey.generate (example_nist_chip (answers (example_answer 0 [])))
    "brainpoolp256r1" (Some ["signature"%string]) false
    (example_crypto_ecc_key, empty_world)
  = (Raise (TypeError (msg_object_id_not_found 0x13)),
     (example_crypto_ecc_key, empty_world))
  /\ asymmetric.EccKey.generate
       (example_nist_chip (answers (example_answer 0 [])))
       "curve25519" None (example_asymmetric_ecc_key, empty_world)
     = (Raise (ValueError (msg_curve_not_supported "curve25519")),
        (example_asymmetric_ecc_key, empty_world)).
Proof.
  split.
  - destruct (ecc_generate_curve_errors
                (example_nist_chip (answers (example_answer 0 [])))
                empty_world "brainpoolp256r1" (Some ["signature"%string]))
      as [_ Hchip].
    + simpl. intros e [<- | []]. simpl. auto.
    + destruct (Hchip BRAINPOOL_P256R1 eq_refl) as [_ [Hcrypto _]].
      * simpl. intros [H | [H | []]]; discriminate.
      * apply Hcrypto.
  - destruct (ecc_generate_curve_errors
                (example_nist_chip (answers (example_answer 0 [])))
                empty_world "curve25519" None I) as [Hname _].
    apply Hname. simpl. intros H.
    repeat destruct H as [H | H]; try discriminate. exact H.
Defined.

(** * Any sequence of calls on one key object *)

Lemma modest_run {Self A Op : Type} (kept : Self -> A)
    (step : Self * World -> Op -> Self * World) :
  modest kept step ->
  forall ops k w,
    kept (fst (fold_left step ops (k, w))) = kept k
    /\ exists cs,
        calls (snd (fold_left step ops (k, w))) = calls w ++ cs
        /\ (length cs <= length ops)%nat.
Proof.
  intros Hstep. induction ops as [| op ops IH]; intros k w; simpl.
  - split; [reflexivity |]. exists []. now rewrite app_nil_r.
  - destruct (Hstep k w op) as [Hk Hc].
    destruct (step (k, w) op) as [k1 w1] eqn:E. simpl in Hk, Hc.
    destruct (IH k1 w1) as [Hk' [cs [Hcs Hlen]]].
    split; [congruence |].
    destruct Hc as [Hc | [c Hc]].
    + exists cs. rewrite Hcs, Hc. split; [reflexivity | lia].
    + exists (c :: cs). rewrite Hcs, Hc, <- app_assoc.
      split; [reflexivity | simpl; lia].
Qed.

Lemma generate_outcome_modest {Self A : Type} (kept : Self -> A)
    (old new : Self) (w : World) (c : api_call) (r : api_result) :
  kept new = kept old ->
  kept (fst (snd (generate_outcome old new w c r))) = kept old
  /\ (calls (snd (snd (generate_outcome old new w c r))) = calls w
      \/ exists c0,
          calls (snd (snd (generate_outcome old new w c r)))
          = calls w ++ [c0]).
Proof.
  intros H. unfold generate_outcome.
  destruct (status r =? 0); simpl; (split; [auto | right; now exists c]).
Qed.

Lemma asymmetric_ecc_step_modest (ot : Chip) (hashlib : Hashlib) :
  modest (fun k => (asymmetric.EccKey.id k, asymmetric.EccKey._key_id k,
                    asymmetric.EccKey._signature k))
         (asymmetric_ecc_step ot hashlib).
Proof.
  intros k w [curve key_usage export | data]; simpl.
  - destruct (asymmetric_ecc_generate_paths ot k w curve key_usage)
      as [[e H] | [flags [cv [_ [_ H]]]]]; cbv zeta in H; rewrite H.
    + simpl. auto.
    + apply (generate_outcome_modest
               (fun k => (asymmetric.EccKey.id k, asymmetric.EccKey._key_id k,
                          asymmetric.EccKey._signature k))).
      reflexivity.
  - destruct (asymmetric_ecdsa_sign_cases ot hashlib k data w)
      as [[_ H] | [[d [_ [_ H]]] | [d [param [_ [_ H]]]]]];
      cbv zeta in H; rewrite H; simpl; rewrite ?calls_advised; auto.
    split; [reflexivity |]. right. eexists. reflexivity.
Qed.

Lemma crypto_ecc_step_modest (ot : Chip) (hashlib : Hashlib) :
  modest (fun k => (crypto.ECCKey.id k, crypto.ECCKey._signature k))
         (crypto_ecc_step ot hashlib).
Proof.
  intros k w [curve key_usage export | data]; simpl.
  - destruct (crypto_ecc_generate_paths ot k w curve key_usage export)
      as [[e H] | [flags [cv [_ [_ H]]]]]; cbv zeta in H; rewrite H.
    + simpl. auto.
    + apply (generate_outcome_modest
               (fun k => (crypto.ECCKey.id k, crypto.ECCKey._signature k))).
      reflexivity.
  - destruct (crypto_ecdsa_sign_cases ot hashlib k data w)
      as [[_ H] | [[d [_ [_ H]]] | [d [param [_ [_ H]]]]]];
      cbv zeta in H; rewrite H; simpl; rewrite ?calls_advised; auto.
    split; [reflexivity |]. right. eexists. reflexivity.
Qed.

Lemma asymmetric_pkcs1v15_sign_modest (ot : Chip) (hashlib : Hashlib)
    (k : asymmetric.RsaKey.t) (data : pyobj) (hash_algorithm : string)
    (w : World) :
  let run := asymmetric.RsaKey.pkcs1v15_sign ot hashlib data hash_algorithm
               (k, w) in
  fst (snd run) = k
  /\ warnings (snd (snd run)) = warnings (advised data w)
  /\ (calls (snd (snd run)) = calls w
      \/ exists c, calls (snd (snd run)) = calls w ++ [c]).
Proof.
  intros run. subst run.
  destruct (asymmetric_pkcs1v15_sign_paths ot hashlib k data hash_algorithm w)
    as [Hnone Hsome]. cbv zeta in Hnone, Hsome.
  destruct (payload data) as [d |] eqn:Hd.
  - specialize (Hsome d eq_refl).
    destruct (String.eqb hash_algorithm "sha256"
              || String.eqb hash_algorithm "sha384");
      rewrite Hsome; simpl; rewrite ?calls_advised; auto.
    split; [reflexivity |]. split; [reflexivity |].
    right. eexists. reflexivity.
  - rewrite (Hnone eq_refl). simpl.
    pose proof (advised_refused data w Hd) as Hw.
    rewrite Hw. auto.
Qed.

Lemma crypto_pkcs1v15_sign_modest (ot : Chip) (hashlib : Hashlib)
    (k : crypto.RSAKey.t) (data : pyobj) (hash_algorithm : string)
    (w : World) :
  let run := crypto.RSAKey.pkcs1v15_sign ot hashlib data hash_algorithm
               (k, w) in
  fst (snd run) = k
  /\ warnings (snd (snd run)) = warnings (advised data w)
  /\ (calls (snd (snd run)) = calls w
      \/ exists c, calls (snd (snd run)) = calls w ++ [c]).
Proof.
  intros run. subst run.
  destruct (crypto_pkcs1v15_sign_paths ot hashlib k data hash_algorithm w)
    as [Hnone Hsome]. cbv zeta in Hnone, Hsome.
  destruct (payload data) as [d |] eqn:Hd.
  - specialize (Hsome d eq_refl).
    destruct (String.eqb hash_algorithm "sha256"
              || String.eqb hash_algorithm "sha384");
      rewrite Hsome; simpl; rewrite ?calls_advised; auto.
    split; [reflexivity |]. split; [reflexivity |].
    right. eexists. reflexivity.
  - rewrite (Hnone eq_refl). simpl.
    pose proof (advised_refused data w Hd) as Hw.
    rewrite Hw. auto.
Qed.

Lemma asymmetric_rsa_step_modest (ot : Chip) (hashlib : Hashlib) :
  modest asymmetric.RsaKey.id (asymmetric_rsa_step ot hashlib).
Proof.
  intros k w [key_size key_usage export | data hash_algorithm]; simpl.
  - destruct (asymmetric_rsa_generate_paths ot k w key_size key_usage)
      as [[e H] | [flags [_ [_ H]]]]; cbv zeta in H; rewrite H.
    + simpl. auto.
    + apply (generate_outcome_modest
               (asymmetric.RsaKey.id)).
      reflexivity.
  - destruct (asymmetric_pkcs1v15_sign_modest ot hashlib k data
                hash_algorithm w) as [Hk [_ Hc]].
    cbv zeta in Hk, Hc. rewrite Hk. auto.
Qed.

Lemma crypto_rsa_step_modest (ot : Chip) (hashlib : Hashlib) :
  modest (fun k => (crypto.RSAKey.id k, crypto.RSAKey._signature k))
         (crypto_rsa_step ot hashlib).
Proof.
  intros k w [key_size key_usage export | data hash_algorithm]; simpl.
  - destruct (crypto_rsa_generate_paths ot k w key_size key_usage export)
      as [[e H] | [flags [_ [_ H]]]]; cbv zeta in H; rewrite H.
    + simpl. auto.
    + apply (generate_outcome_modest
               (fun k => (crypto.RSAKey.id k, crypto.RSAKey._signature k))).
      reflexivity.
  - destruct (crypto_pkcs1v15_sign_modest ot hashlib k data
                hash_algorithm w) as [Hk [_ Hc]].
    cbv zeta in Hk, Hc. rewrite Hk. auto.
Qed.

(** X15.  Over any sequence of [generate] and signing calls on one key
    object, whatever each call returns or raises: the slot id of the object
    never changes, so an object constructed on a legal slot stays on it;
    the [_signature] field behind the [signature] property is never
    written; and the secure element is called at most once per method
    call, the record of calls only growing.  All four classes. *)
Theorem key_object_keeps_its_slot (ot : Chip) (hashlib : Hashlib) :
  (forall ops k w,
      let st := fold_left (asymmetric_ecc_step ot hashlib) ops (k, w) in
      asymmetric.EccKey.id (fst st) = asymmetric.EccKey.id k
      /\ asymmetric.EccKey._key_id (fst st) = asymmetric.EccKey._key_id k
      /\ asymmetric.EccKey._signature (fst st)
         = asymmetric.EccKey._signature k
      /\ exists cs, calls (snd st) = calls w ++ cs
                    /\ (length cs <= length ops)%nat)
  /\ (forall ops k w,
      let st := fold_left (crypto_ecc_step ot hashlib) ops (k, w) in
      crypto.ECCKey.id (fst st) = crypto.ECCKey.id k
      /\ crypto.ECCKey._signature (fst st) = crypto.ECCKey._signature k
      /\ exists cs, calls (snd st) = calls w ++ cs
                    /\ (length cs <= length ops)%nat)
  /\ (forall ops k w,
      let st := fold_left (asymmetric_rsa_step ot hashlib) ops (k, w) in
      asymmetric.RsaKey.id (fst st) = asymmetric.RsaKey.id k
      /\ exists cs, calls (snd st) = calls w ++ cs
                    /\ (length cs <= length ops)%nat)
  /\ (forall ops k w,
      let st := fold_left (crypto_rsa_step ot hashlib) ops (k, w) in
      crypto.RSAKey.id (fst st) = crypto.RSAKey.id k
      /\ crypto.RSAKey._signature (fst st) = crypto.RSAKey._signature k
      /\ exists cs, calls (snd st) = calls w ++ cs
                    /\ (length cs <= length ops)%nat).
Proof.
  split; [| split; [| split]]; intros ops k w st; subst st.
  - destruct (modest_run _ _ (asymmetric_ecc_step_modest ot hashlib) ops k w)
      as [Hk Hc]. injection Hk as H1 H2 H3. auto.
  - destruct (modest_run _ _ (crypto_ecc_step_modest ot hashlib) ops k w)
      as [Hk Hc]. injection Hk as H1 H2. auto.
  - destruct (modest_run _ _ (asymmetric_rsa_step_modest ot hashlib) ops k w)
      as [Hk Hc]. auto.
  - destruct (modest_run _ _ (crypto_rsa_step_modest ot hashlib) ops k w)
      as [Hk Hc]. injection Hk as H1 H2. auto.
Qed.

(** * The signature value of [pkcs1v15_sign] *)

Lemma rsa_signature_of_content (r : api_result) :
  length (rsa_signature_of r) = Z.to_nat (c_uint (out_len r))
  /\ (forall raw,
      out r = raw -> out_len r = Z.of_nat (length raw) ->
      Z.of_nat (length raw) <= 320 -> rsa_signature_of r = raw).
Proof.
  unfold rsa_signature_of.
  destruct (memmove_into_zeros (buffer_after 320 (out r))
              (c_uint (out_len r))) as [Hlen Hfit].
  split; [assumption |].
  intros raw Hout Hl Hraw.
  assert (HL : c_uint (out_len r) = Z.of_nat (length raw)).
  { rewrite Hl. unfold c_uint. apply Z.mod_small.
    change (2 ^ 32) with 4294967296. lia. }
  rewrite Hfit.
  - rewrite HL, Nat2Z.id, Hout. unfold buffer_after.
    rewrite c_ubyte_array_fits by assumption.
    rewrite firstn_app, firstn_all, Nat.sub_diag. simpl. apply app_nil_r.
  - unfold buffer_after. rewrite length_c_ubyte_array, HL. lia.
Qed.

Lemma accepted_hash_algorithm (hash_algorithm : string) :
  String.eqb hash_algorithm "sha256" || String.eqb hash_algorithm "sha384"
  = true ->
  hash_algorithm = "sha256"%string \/ hash_algorithm = "sha384"%string.
Proof.
  intros H. apply orb_true_iff in H.
  destruct H as [H | H]; apply String.eqb_eq in H; auto.
Qed.

Lemma capacity_rsa_sign_call (hashlib : Hashlib) (hash_algorithm : string)
    (d : bytes) (key_id : Z) :
  capacity (rsa_sign_call hashlib hash_algorithm d key_id) = 320.
Proof.
  unfold rsa_sign_call. now destruct (String.eqb hash_algorithm "sha256").
Qed.

(** X16.  A successful [pkcs1v15_sign] was given sha256 or sha384 and
    binary data or text that UTF-8 can encode, has made one call announcing
    a buffer of 320 bytes, and returns a signature value that names the
    hash it was given, carries the tag of that name followed by [_rsa] and
    the slot id of the key, and holds exactly as many bytes as the call
    reported: the raw signature block, unchanged, when that lies within the
    buffer.  The key object is as before.  Both files agree. *)
Theorem pkcs1v15_signature_value (ot : Chip) (hashlib : Hashlib)
    (data : pyobj) (hash_algorithm : string) (w : World) :
  (forall k sig st',
      asymmetric.RsaKey.pkcs1v15_sign ot hashlib data hash_algorithm (k, w)
      = (Ok sig, st') ->
      (hash_algorithm = "sha256"%string \/ hash_algorithm = "sha384"%string)
      /\ exists d,
          payload data = Some d
          /\ let c := rsa_sign_call hashlib hash_algorithm d
                        (asymmetric.RsaKey.id k) in
             let r := api ot (calls w) c in
             st' = (k, after_call (advised data w) c)
             /\ status r = 0 /\ capacity c = 320
             /\ asymmetric._Signature.hash_alg sig = hash_algorithm
             /\ asymmetric._Signature.algorithm sig
                = (hash_algorithm ++ "_rsa")%string
             /\ asymmetric._Signature.id sig = asymmetric.RsaKey.id k
             /\ length (asymmetric._Signature.signature sig)
                = Z.to_nat (c_uint (out_len r))
             /\ (forall raw,
                 out r = raw -> out_len r = Z.of_nat (length raw) ->
                 Z.of_nat (length raw) <= 320 ->
                 asymmetric._Signature.signature sig = raw))
  /\ (forall k sig st',
      crypto.RSAKey.pkcs1v15_sign ot hashlib data hash_algorithm (k, w)
      = (Ok sig, st') ->
      (hash_algorithm = "sha256"%string \/ hash_algorithm = "sha384"%string)
      /\ exists d,
          payload data = Some d
          /\ let c := rsa_sign_call hashlib hash_algorithm d
                        (crypto.RSAKey.id k) in
             let r := api ot (calls w) c in
             st' = (k, after_call (advised data w) c)
             /\ status r = 0 /\ capacity c = 320
             /\ crypto._Signature.hash_alg sig = hash_algorithm
             /\ crypto._Signature.algorithm sig
                = (hash_algorithm ++ "_rsa")%string
             /\ crypto._Signature.id sig = crypto.RSAKey.id k
             /\ length (crypto._Signature.signature sig)
                = Z.to_nat (c_uint (out_len r))
             /\ (forall raw,
                 out r = raw -> out_len r = Z.of_nat (length raw) ->
                 Z.of_nat (length raw) <= 320 ->
                 crypto._Signature.signature sig = raw)).
Proof.
  split; intros k sig st' Hrun.
  - destruct (asymmetric_pkcs1v15_sign_paths ot hashlib k data hash_algorithm
                w) as [Hnone Hsome]. cbv zeta in Hnone, Hsome.
    destruct (payload data) as [d |] eqn:Hd;
      [| rewrite (Hnone eq_refl) in Hrun; discriminate].
    specialize (Hsome d eq_refl).
    destruct (String.eqb hash_algorithm "sha256"
              || String.eqb hash_algorithm "sha384") eqn:Hh;
      [| rewrite Hsome in Hrun; discriminate].
    rewrite Hsome in Hrun.
    destruct (status _ =? 0) eqn:Hs; [| discriminate].
    injection Hrun as <- <-.
    split; [now apply accepted_hash_algorithm |].
    exists d. split; [reflexivity |]. cbv zeta.
    split; [reflexivity |]. split; [now apply Z.eqb_eq |].
    split; [apply capacity_rsa_sign_call |]. simpl.
    repeat split; apply rsa_signature_of_content.
  - destruct (crypto_pkcs1v15_sign_paths ot hashlib k data hash_algorithm
                w) as [Hnone Hsome]. cbv zeta in Hnone, Hsome.
    destruct (payload data) as [d |] eqn:Hd;
      [| rewrite (Hnone eq_refl) in Hrun; discriminate].
    specialize (Hsome d eq_refl).
    destruct (String.eqb hash_algorithm "sha256"
              || String.eqb hash_algorithm "sha384") eqn:Hh;
      [| rewrite Hsome in Hrun; discriminate].
    rewrite Hsome in Hrun.
    destruct (status _ =? 0) eqn:Hs; [| discriminate].
    injection Hrun as <- <-.
    split; [now apply accepted_hash_algorithm |].
    exists d. split; [reflexivity |]. cbv zeta.
    split; [reflexivity |]. split; [now apply Z.eqb_eq |].
    split; [apply capacity_rsa_sign_call |]. simpl.
    repeat split; apply rsa_signature_of_content.
Qed.

Lemma pkcs1v15_signature_value_witness :
  exists sig st',
    crypto.RSAKey.pkcs1v15_sign
      (example_chip (answers (example_answer 0 (repeat 0x5A 128))))
      example_hashlib (PyStr [0x61; 0x62; 0x63]) "sha256"
      (example_crypto_rsa_key, empty_world)
    = (Ok sig, st')
    /\ crypto._Signature.signature sig = repeat 0x5A 128
    /\ crypto._Signature.algorithm sig = "sha256_rsa"%string
    /\ fst st' = example_crypto_rsa_key.
Proof.
  eexists. eexists. split; [vm_compute; reflexivity |].
  destruct (proj2 (pkcs1v15_signature_value
                     (example_chip
                        (answers (example_answer 0 (repeat 0x5A 128))))
                     example_hashlib (PyStr [0x61; 0x62; 0x63]) "sha256" empty_world)
              example_crypto_rsa_key _ _ eq_refl)
    as [_ [d [_ [_ [_ [_ [_ [Halg [_ [_ Hraw]]]]]]]]]].
  split; [| split; [exact Halg | reflexivity]].
  apply Hraw; [reflexivity | reflexivity | vm_compute; congruence].
Defined.

(** X17.  [pkcs1v15_sign] never writes the key object: in every outcome the
    object is the one it was given.  It makes at most one call on the secure
    element, and when that call returns a non-zero status it raises the
    hardware fault carrying that status.  Both files agree. *)
Theorem pkcs1v15_sign_leaves_key_alone (ot : Chip) (hashlib : Hashlib)
    (data : pyobj) (hash_algorithm : string) (w : World) :
  (forall k,
      let run := asymmetric.RsaKey.pkcs1v15_sign ot hashlib data
                   hash_algorithm (k, w) in
      fst (snd run) = k
      /\ (calls (snd (snd run)) = calls w
          \/ exists c, calls (snd (snd run)) = calls w ++ [c])
      /\ (forall c,
          calls (snd (snd run)) = calls w ++ [c] ->
          status (api ot (calls w) c) <> 0 ->
          fst run
          = Raise (IOError (msg_cant_be_executed
                              (status (api ot (calls w) c))))))
  /\ (forall k,
      let run := crypto.RSAKey.pkcs1v15_sign ot hashlib data
                   hash_algorithm (k, w) in
      fst (snd run) = k
      /\ (calls (snd (snd run)) = calls w
          \/ exists c, calls (snd (snd run)) = calls w ++ [c])
      /\ (forall c,
          calls (snd (snd run)) = calls w ++ [c] ->
          status (api ot (calls w) c) <> 0 ->
          fst run
          = Raise (IOError (msg_cant_be_executed
                              (status (api ot (calls w) c))))))
  /\ (forall code,
      kind_of (IOError (msg_cant_be_executed code)) = HardwareFault code).
Proof.
  split; [| split; [| reflexivity]]; intros k run; subst run.
  - destruct (asymmetric_pkcs1v15_sign_modest ot hashlib k data
                hash_algorithm w) as [Hk [_ Hc]]. cbv zeta in Hk, Hc.
    split; [assumption |]. split; [assumption |].
    intros c Hcall Hs.
    destruct (asymmetric_pkcs1v15_sign_paths ot hashlib k data hash_algorithm
                w) as [Hnone Hsome]. cbv zeta in Hnone, Hsome.
    destruct (payload data) as [d |] eqn:Hd.
    + specialize (Hsome d eq_refl).
      destruct (String.eqb hash_algorithm "sha256"
                || String.eqb hash_algorithm "sha384");
        rewrite Hsome in *; simpl in Hcall; rewrite calls_advised in Hcall.
      * apply app_inv_head in Hcall. injection Hcall as <-.
        apply Z.eqb_neq in Hs. now rewrite Hs.
      * symmetry in Hcall. now apply no_call_made in Hcall.
    + rewrite (Hnone eq_refl) in *. simpl in Hcall.
      symmetry in Hcall. now apply no_call_made in Hcall.
  - destruct (crypto_pkcs1v15_sign_modest ot hashlib k data
                hash_algorithm w) as [Hk [_ Hc]]. cbv zeta in Hk, Hc.
    split; [assumption |]. split; [assumption |].
    intros c Hcall Hs.
    destruct (crypto_pkcs1v15_sign_paths ot hashlib k data hash_algorithm
                w) as [Hnone Hsome]. cbv zeta in Hnone, Hsome.
    destruct (payload data) as [d |] eqn:Hd.
    + specialize (Hsome d eq_refl).
      destruct (String.eqb hash_algorithm "sha256"
                || String.eqb hash_algorithm "sha384");
        rewrite Hsome in *; simpl in Hcall; rewrite calls_advised in Hcall.
      * apply app_inv_head in Hcall. injection Hcall as <-.
        apply Z.eqb_neq in Hs. now rewrite Hs.
      * symmetry in Hcall. now apply no_call_made in Hcall.
    + rewrite (Hnone eq_refl) in *. simpl in Hcall.
      symmetry in Hcall. now apply no_call_made in Hcall.
Qed.

(** * The two files side by side *)

Lemma generate_outcome_corr {A B : Type} (R : A -> B -> Prop)
    (olda newa : A) (oldb newb : B) (w : World) (c : api_call)
    (r : api_result) :
  R olda oldb -> R newa newb ->
  let ra := generate_outcome olda newa w c r in
  let rb := generate_outcome oldb newb w c r in
  outcome_corr R (fst ra) (fst rb)
  /\ R (fst (snd ra)) (fst (snd rb))
  /\ snd (snd ra) = snd (snd rb).
Proof.
  intros Hold Hnew. unfold generate_outcome.
  destruct (status r =? 0); simpl; auto.
Qed.

(** X18.  For ECC keys [crypto.py] without [export] does what
    [asymmetric.py] does.  The two constructors succeed on the same slots
    with objects that stand for the same key, or raise the same error.  On
    objects that stand for the same key, [generate] and [ecdsa_sign] of the
    two files make the same calls, leave the same world, return or raise
    the same, and leave objects that again stand for the same key. *)
Theorem ecc_classes_agree (ot : Chip) (hashlib : Hashlib) (w : World)
    (a : asymmetric.EccKey.t) (c : crypto.ECCKey.t) :
  ecc_corr a c ->
  (forall curve key_usage,
      let ra := asymmetric.EccKey.generate ot curve key_usage (a, w) in
      let rc := crypto.ECCKey.generate ot curve key_usage false (c, w) in
      outcome_corr ecc_corr (fst ra) (fst rc)
      /\ ecc_corr (fst (snd ra)) (fst (snd rc))
      /\ snd (snd ra) = snd (snd rc))
  /\ (forall data,
      let ra := asymmetric.EccKey.ecdsa_sign ot hashlib data (a, w) in
      let rc := crypto.ECCKey.ecdsa_sign ot hashlib data (c, w) in
      outcome_corr sig_corr (fst ra) (fst rc)
      /\ ecc_corr (fst (snd ra)) (fst (snd rc))
      /\ snd (snd ra) = snd (snd rc))
  /\ (forall key_id curve,
      outcome_corr ecc_corr (asymmetric.EccKey.__init__ ot key_id curve)
                   (crypto.ECCKey.__init__ ot key_id curve)).
Proof.
  intros Hcorr.
  pose proof Hcorr as [Hid [Hcurve [Hpkey [Husage [Hhash Hsig]]]]].
  split; [| split].
  - intros curve key_usage ra rc. subst ra rc.
    destruct (requested_usage_cases asymmetric.EccKey._allowed_key_usage
                key_usage) as [[flags Hu] | [entry Hu]].
    + destruct (_str2curve_map curve) as [cv |] eqn:Hc.
      * destruct (mem (Curves_value ot cv) (curves_values ot)) eqn:Hm.
        -- rewrite (asymmetric_ecc_generate_calls ot a w curve key_usage
                      flags cv Hu Hc Hm).
           rewrite (crypto_ecc_generate_calls ot c w curve key_usage false
                      flags cv Hu Hc Hm).
           unfold key_argument. simpl Z.b2z. rewrite Hid.
           apply generate_outcome_corr; [assumption |].
           unfold ecc_corr. simpl. repeat split; auto.
        -- rewrite (proj2 (asymmetric_ecc_generate_curve_raises ot a w curve
                             key_usage flags Hu) cv Hc Hm).
           rewrite (proj2 (crypto_ecc_generate_curve_raises ot c w curve
                             key_usage false flags Hu) cv Hc Hm).
           simpl. auto.
      * rewrite (proj1 (asymmetric_ecc_generate_curve_raises ot a w curve
                          key_usage flags Hu) Hc).
        rewrite (proj1 (crypto_ecc_generate_curve_raises ot c w curve
                          key_usage false flags Hu) Hc).
        simpl. auto.
    + rewrite (asymmetric_ecc_generate_usage_raises ot a w curve key_usage _
                 Hu).
      rewrite (crypto_ecc_generate_usage_raises ot c w curve key_usage false
                 _ Hu).
      simpl. auto.
  - intros data ra rc. subst ra rc.
    destruct (asymmetric_ecdsa_sign_cases ot hashlib a data w)
      as [[Hd1 H1] | [[d1 [Hd1 [Hp1 H1]]] | [d1 [p1 [Hd1 [Hp1 H1]]]]]];
      destruct (crypto_ecdsa_sign_cases ot hashlib c data w)
      as [[Hd2 H2] | [[d2 [Hd2 [Hp2 H2]]] | [d2 [p2 [Hd2 [Hp2 H2]]]]]];
      cbv zeta in H1, H2; rewrite H1, H2; try (exfalso; congruence).
    + simpl. auto.
    + simpl. rewrite Hcurve. auto.
    + assert (d1 = d2) by congruence. assert (p1 = p2) by congruence.
      subst. rewrite Hid.
      set (r := api ot (calls w) (ecdsa_call p2 d2 (crypto.ECCKey.id c))).
      unfold outcome_corr, ecc_corr, sig_corr.
      destruct (status r =? 0); simpl; repeat split; auto.
  - intros key_id curve.
    unfold asymmetric.EccKey.__init__, crypto.ECCKey.__init__.
    destruct (negb (mem key_id _) && _); simpl; [reflexivity |].
    unfold ecc_corr. simpl. repeat split; auto.
Qed.

Lemma ecc_classes_agree_witness :
  snd (snd (asymmetric.EccKey.generate
              (example_chip (answers (example_answer 0 [4; 4])))
              "secp256r1" None (example_asymmetric_ecc_key, empty_world)))
  = snd (snd (crypto.ECCKey.generate
                (example_chip (answers (example_answer 0 [4; 4])))
                "secp256r1" None false
                (example_crypto_ecc_key, empty_world))).
Proof.
  destruct (ecc_classes_agree
              (example_chip (answers (example_answer 0 [4; 4])))
              example_hashlib empty_world example_asymmetric_ecc_key
              example_crypto_ecc_key) as [Hgen _].
  - unfold ecc_corr. simpl. auto 10.
  - exact (proj2 (proj2 (Hgen "secp256r1"%string None))).
Defined.

(** X19.  For RSA keys [crypto.py] without [export] does what
    [asymmetric.py] does: the constructors succeed on the same slots or
    raise the same error, and on objects that stand for the same key
    [generate] and [pkcs1v15_sign] make the same calls, leave the same
    world, return or raise the same, and leave objects that again stand for
    the same key. *)
Theorem rsa_classes_agree (ot : Chip) (hashlib : Hashlib) (w : World)
    (a : asymmetric.RsaKey.t) (c : crypto.RSAKey.t) :
  rsa_corr a c ->
  (forall key_size key_usage,
      let ra := asymmetric.RsaKey.generate ot key_size key_usage (a, w) in
      let rc := crypto.RSAKey.generate ot key_size key_usage false (c, w) in
      outcome_corr rsa_corr (fst ra) (fst rc)
      /\ rsa_corr (fst (snd ra)) (fst (snd rc))
      /\ snd (snd ra) = snd (snd rc))
  /\ (forall data hash_algorithm,
      let ra := asymmetric.RsaKey.pkcs1v15_sign ot hashlib data
                  hash_algorithm (a, w) in
      let rc := crypto.RSAKey.pkcs1v15_sign ot hashlib data hash_algorithm
                  (c, w) in
      outcome_corr sig_corr (fst ra) (fst rc)
      /\ rsa_corr (fst (snd ra)) (fst (snd rc))
      /\ snd (snd ra) = snd (snd rc))
  /\ (forall key_id,
      outcome_corr rsa_corr (asymmetric.RsaKey.__init__ key_id)
                   (crypto.RSAKey.__init__ key_id)).
Proof.
  intros Hcorr.
  pose proof Hcorr as [Hid [Husage [Hsize Hpkey]]].
  split; [| split].
  - intros key_size key_usage ra rc. subst ra rc.
    destruct (requested_usage_cases asymmetric.RsaKey._allowed_key_usages
                key_usage) as [[flags Hu] | [entry Hu]].
    + destruct (mem key_size allowed_key_sizes) eqn:Hm.
      * rewrite (asymmetric_rsa_generate_calls ot a w key_size key_usage
                   flags Hu Hm).
        rewrite (crypto_rsa_generate_calls ot c w key_size key_usage false
                   flags Hu Hm).
        unfold key_argument. simpl Z.b2z. rewrite Hid.
        apply generate_outcome_corr; [assumption |].
        unfold rsa_corr. simpl. repeat split; auto.
      * rewrite (asymmetric_rsa_generate_size_raises ot a w key_size
                   key_usage flags Hu Hm).
        rewrite (crypto_rsa_generate_size_raises ot c w key_size key_usage
                   false flags Hu Hm).
        simpl. auto.
    + rewrite (asymmetric_rsa_generate_usage_raises ot a w key_size
                 key_usage _ Hu).
      rewrite (crypto_rsa_generate_usage_raises ot c w key_size key_usage
                 false _ Hu).
      simpl. auto.
  - intros data hash_algorithm ra rc. subst ra rc.
    destruct (asymmetric_pkcs1v15_sign_paths ot hashlib a data hash_algorithm
                w) as [Hn1 Hs1].
    destruct (crypto_pkcs1v15_sign_paths ot hashlib c data hash_algorithm w)
      as [Hn2 Hs2]. cbv zeta in Hn1, Hs1, Hn2, Hs2.
    destruct (payload data) as [d |] eqn:Hd.
    + specialize (Hs1 d eq_refl). specialize (Hs2 d eq_refl).
      destruct (String.eqb hash_algorithm "sha256"
                || String.eqb hash_algorithm "sha384");
        rewrite Hs1, Hs2; [| simpl; auto].
      rewrite Hid.
      set (r := api ot (calls w)
                  (rsa_sign_call hashlib hash_algorithm d (crypto.RSAKey.id c))).
      unfold outcome_corr, rsa_corr, sig_corr.
      destruct (status r =? 0); simpl; repeat split; auto.
    + rewrite (Hn1 eq_refl), (Hn2 eq_refl). simpl. auto.
  - intros key_id.
    unfold asymmetric.RsaKey.__init__, crypto.RSAKey.__init__.
    destruct (negb (key_id =? 0xe0fc) && _); simpl; [reflexivity |].
    unfold rsa_corr. simpl. repeat split; auto.
Qed.

Lemma rsa_classes_agree_witness :
  outcome_corr sig_corr
    (fst (asymmetric.RsaKey.pkcs1v15_sign
            (example_chip (answers (example_answer 0 [9; 9; 9])))
            example_hashlib (PyBytes [0x61]) "sha384"
            (example_asymmetric_rsa_key, empty_world)))
    (fst (crypto.RSAKey.pkcs1v15_sign
            (example_chip (answers (example_answer 0 [9; 9; 9])))
            example_hashlib (PyBytes [0x61]) "sha384"
            (example_crypto_rsa_key, empty_world))).
Proof.
  destruct (rsa_classes_agree
              (example_chip (answers (example_answer 0 [9; 9; 9])))
              example_hashlib empty_world example_asymmetric_rsa_key
              example_crypto_rsa_key) as [_ [Hsign _]].
  - unfold rsa_corr. simpl. repeat split; auto.
  - exact (proj1 (Hsign (PyBytes [0x61]) "sha384"%string)).
Defined.

(** * What a successful RSA [generate] binds *)

Lemma length_rsa_header (key_size : Z) :
  length (rsa_header key_size)
  = if key_size =? 1024 then 18%nat else 19%nat.
Proof. unfold rsa_header. now destruct (key_size =? 1024). Qed.

(** X20.  A successful RSA [generate] was given the key size 1024 or 2048
    and has made its one call through the ECC key-pair entry point, with
    the type code 0x41 for 1024 and 0x42 for 2048 and a buffer of 320
    bytes.  It binds the key size, keeps the slot id, and binds a public
    key of 18 bytes (1024) or 19 bytes (2048) of DER prefix plus as many
    bytes as the call reported.  Both files agree. *)
Theorem rsa_generate_binds_key_size (ot : Chip) (w : World) (key_size : Z)
    (key_usage : option (list string)) :
  (forall k k' st',
      asymmetric.RsaKey.generate ot key_size key_usage (k, w)
      = (Ok k', st') ->
      (key_size = 1024 \/ key_size = 2048)
      /\ exists mask,
          let c := exp_optiga_crypt_ecc_generate_keypair
                     (if key_size =? 1024 then 0x41 else 0x42) mask 0
                     (byref_key_id (c_ushort (asymmetric.RsaKey.id k)))
                     320 in
          st' = (k', after_call w c)
          /\ asymmetric.RsaKey._key_size k' = Some key_size
          /\ asymmetric.RsaKey.id k' = asymmetric.RsaKey.id k
          /\ exists pkey,
              asymmetric.RsaKey._pkey k' = Some pkey
              /\ length pkey
                 = ((if (key_size =? 1024)%Z then 18 else 19)
                    + Z.to_nat (c_ushort (out_len (api ot (calls w) c))))%nat)
  /\ (forall k export k' st',
      crypto.RSAKey.generate ot key_size key_usage export (k, w)
      = (Ok k', st') ->
      (key_size = 1024 \/ key_size = 2048)
      /\ exists mask,
          let c := exp_optiga_crypt_ecc_generate_keypair
                     (if key_size =? 1024 then 0x41 else 0x42) mask
                     (Z.b2z export)
                     (key_argument export (crypto.RSAKey.id k)) 320 in
          st' = (k', after_call w c)
          /\ crypto.RSAKey._key_size k' = Some key_size
          /\ crypto.RSAKey.id k' = crypto.RSAKey.id k
          /\ exists pkey,
              crypto.RSAKey._pkey k' = Some pkey
              /\ length pkey
                 = ((if (key_size =? 1024)%Z then 18 else 19)
                    + Z.to_nat (c_ushort (out_len (api ot (calls w) c))))%nat).
Proof.
  split.
  - intros k k' st' Hrun.
    destruct (asymmetric_rsa_generate_succeeds ot k w key_size key_usage k'
                st' Hrun) as [flags [_ [Hsize E]]].
    cbv zeta in E. destruct E as [_ [-> ->]].
    split; [assumption |]. exists (usage_mask ot flags). cbv zeta.
    split; [reflexivity |]. split; [reflexivity |]. split; [reflexivity |].
    eexists. split; [reflexivity |].
    rewrite length_app, length_rsa_header.
    now rewrite length_pub_key_of.
  - intros k export k' st' Hrun.
    destruct (crypto_rsa_generate_succeeds ot k w key_size key_usage export
                k' st' Hrun) as [flags [_ [Hsize E]]].
    cbv zeta in E. destruct E as [_ [-> ->]].
    split; [assumption |]. exists (usage_mask ot flags). cbv zeta.
    split; [reflexivity |]. split; [reflexivity |]. split; [reflexivity |].
    eexists. split; [reflexivity |].
    rewrite length_app, length_rsa_header.
    now rewrite length_pub_key_of.
Qed.

(** * The length [random] asks for *)



(** * Data that is neither binary nor textual *)

(** X22.  All four signing methods test the type of the data before
    anything else: data that is neither bytes, a bytearray nor a string
    makes them raise the data-type error, whatever the curve of the key or
    the hash name, with no warning, no call, and the key object, including
    [_hash_alg], as it was. *)
Theorem signing_rejects_other_data_first (ot : Chip) (hashlib : Hashlib)
    (data : pyobj) (w : World) :
  binary_or_text data = false ->
  kind_of (TypeError msg_data_type) = InvalidInputType
  /\ (forall k,
      asymmetric.EccKey.ecdsa_sign ot hashlib data (k, w)
      = (Raise (TypeError msg_data_type), (k, w)))
  /\ (forall k,
      crypto.ECCKey.ecdsa_sign ot hashlib data (k, w)
      = (Raise (TypeError msg_data_type), (k, w)))
  /\ (forall k hash_algorithm,
      asymmetric.RsaKey.pkcs1v15_sign ot hashlib data hash_algorithm (k, w)
      = (Raise (TypeError msg_data_type), (k, w)))
  /\ (forall k hash_algorithm,
      crypto.RSAKey.pkcs1v15_sign ot hashlib data hash_algorithm (k, w)
      = (Raise (TypeError msg_data_type), (k, w))).
Proof.
  intros Hother. destruct (refusal_of_other data Hother) as [Hd He].
  rewrite <- He. split; [now rewrite He |].
  split; [| split; [| split]].
  - intros k.
    destruct (asymmetric_ecdsa_sign_cases ot hashlib k data w)
      as [[_ H] | [[d [Hd' _]] | [d [p [Hd' _]]]]]; congruence.
  - intros k.
    destruct (crypto_ecdsa_sign_cases ot hashlib k data w)
      as [[_ H] | [[d [Hd' _]] | [d [p [Hd' _]]]]]; congruence.
  - intros k hash_algorithm.
    exact (proj1 (asymmetric_pkcs1v15_sign_paths ot hashlib k data
                    hash_algorithm w) Hd).
  - intros k hash_algorithm.
    exact (proj1 (crypto_pkcs1v15_sign_paths ot hashlib k data
                    hash_algorithm w) Hd).
Qed.

Lemma signing_rejects_other_data_first_witness :
  crypto.ECCKey.ecdsa_sign (example_chip (answers (example_answer 0 [])))
    example_hashlib PyOther (example_crypto_ecc_key, empty_world)
  = (Raise (TypeError msg_data_type), (example_crypto_ecc_key, empty_world)).
Proof.
  destruct (signing_rejects_other_data_first
              (example_chip (answers (example_answer 0 [])))
              example_hashlib PyOther empty_world eq_refl)
    as [_ [_ [Hcrypto _]]].
  apply Hcrypto.
Defined.
